(** * The CDP relay of dev-browser (extension mode)

    A shallow embedding of [serveRelay]
    (packages/cli/src/core/snapshot/index.ts, the relay part): the relay
    sits between one browser-extension WebSocket and any number of
    Patchright client WebSockets, and serves the named-page HTTP routes.

    The relay is single-threaded and event driven, so every handler is a
    function from the relay state to a new state and the list of effects
    it performs (frames written, sockets closed, HTTP replies).  Promises
    are defunctionalised: a pending extension request stores the
    continuation that waits for it, a settled request resumes that
    continuation after the handler that settled it has returned (the
    microtask queue).  Timers are inputs: the moment a timer fires is an
    event of the environment.

    JavaScript [Map]s iterate in insertion order and several handlers stop
    at the first match, so maps are association lists in insertion order.

    Objects are shared in JavaScript.  A [POST /pages] handler that
    awaits its activation holds one of the registry's target objects:
    here it holds a reference, through which an assignment to the
    object's [targetInfo] shows, and which goes on holding the object
    when the registry drops it or puts a new one in its place.

    The events are the four events of each socket (open, message, close,
    error), the timers and the page routes, and a call of [cleanup].  A
    frame that parses to a JSON object is taken at its declared
    TypeScript type; a frame that does not parse, and a frame on which
    the handler throws, have events of their own.  The body of
    [POST /pages] is any JSON value.  The status routes ([/], [/health],
    [/runtime]) and the test of the idle interval are functions of the
    same state beside the transition system.  The idle stamp
    [lastActivityAt] that [markActivity] writes is kept, as a tick count.

    Left out: the reply of [/admin/shutdown] and the exit of the process
    (its call of [cleanup] is the event), console logging, client frames
    that parse to a number, a string, a boolean or an array, and object
    frames whose fields have other types than declared. *)

From stdpp Require Import base decidable option list list_numbers strings gmap pretty.
From Stdlib Require Import ZArith Lia.

Set Warnings "-register-all".

Local Open Scope string_scope.
Local Open Scope Z_scope.
Local Open Scope list_scope.

(** ** JavaScript values (what [JSON.parse] returns, plus [undefined]) *)

(** Numbers are kept as integers: the relay only tests a number for
    truthiness or uses it as a request id, and ids it issues are integers. *)
Inductive value : Type :=
| VUndefined
| VNull
| VBool (b : bool)
| VNum (n : Z)
| VStr (s : string)
| VArr (items : list value)
| VObj (fields : list (string * value)).

(** [if (v)] *)
Definition truthy (v : value) : bool :=
  match v with
  | VUndefined | VNull => false
  | VBool b => b
  | VNum n => negb (n =? 0)
  | VStr s => negb (String.eqb s "")
  | VArr _ | VObj _ => true
  end.

(** [if (s)] for an optional string: [undefined] and the empty string are falsy. *)
Definition truthyStr (s : option string) : bool :=
  match s with
  | Some x => negb (String.eqb x "")
  | None => false
  end.

Fixpoint lookupField (k : string) (fields : list (string * value)) : value :=
  match fields with
  | [] => VUndefined
  | (k', v) :: rest => if decide (k' = k) then v else lookupField k rest
  end.

(** [v?.k]: [undefined] when [v] is nullish or has no such property. *)
Definition optField (v : value) (k : string) : value :=
  match v with
  | VObj fields => lookupField k fields
  | _ => VUndefined
  end.

(** [v.k]: throws a [TypeError] ([None]) when [v] is [undefined] or [null]. *)
Definition getField (v : value) (k : string) : option value :=
  match v with
  | VUndefined | VNull => None
  | VObj fields => Some (lookupField k fields)
  | _ => Some VUndefined
  end.

(** [s === v] for a string [s] *)
Definition strictEqStr (s : string) (v : value) : bool :=
  match v with
  | VStr s' => bool_decide (s = s')
  | _ => false
  end.

(** [String(v)] for the value carried by a [Some]: option strings to values *)
Definition optStr (s : option string) : value :=
  match s with
  | Some x => VStr x
  | None => VUndefined
  end.

(** ** [Map] with insertion order *)

Module JsMap.
Section defs.
Context {K V : Type} `{EqDecision K}.

Definition t : Type := list (K * V).

Definition empty : t := [].

Fixpoint get (k : K) (m : t) : option V :=
  match m with
  | [] => None
  | (k', v) :: rest => if decide (k' = k) then Some v else get k rest
  end.

Definition has (k : K) (m : t) : bool :=
  match get k m with
  | Some _ => true
  | None => false
  end.

(** [m.set(k, v)]: an existing key keeps its position, a new key goes last. *)
Fixpoint set (k : K) (v : V) (m : t) : t :=
  match m with
  | [] => [(k, v)]
  | (k', v') :: rest =>
      if decide (k' = k) then (k, v) :: rest else (k', v') :: set k v rest
  end.

Fixpoint delete (k : K) (m : t) : t :=
  match m with
  | [] => []
  | (k', v') :: rest =>
      if decide (k' = k) then delete k rest else (k', v') :: delete k rest
  end.

Definition keys (m : t) : list K := map fst m.

Definition values (m : t) : list V := map snd m.

(** [Array.from(m.values()).find(p)] and the [for ... of m] loops that
    leave at the first hit. *)
Fixpoint findEntry (p : K -> V -> bool) (m : t) : option (K * V) :=
  match m with
  | [] => None
  | (k, v) :: rest => if p k v then Some (k, v) else findEntry p rest
  end.

End defs.
Arguments t : clear implicits.
End JsMap.

(** ** Data model (the interfaces at the top of the relay file) *)

(** A WebSocket ([WSContext]) and an HTTP request context are handles. *)
Definition Ws : Type := nat.
Definition Req : Type := nat.

(** [new Date().toISOString()], as a tick count. *)
Definition Time : Type := nat.

Record TargetInfo : Type := mkTargetInfo {
  ti_targetId : string;
  ti_type : string;
  ti_title : string;
  ti_url : string;
  ti_attached : bool;
}.

Record ConnectedTarget : Type := mkConnectedTarget {
  ct_sessionId : string;
  ct_targetId : string;
  ct_targetInfo : TargetInfo;
}.

Record PatchrightClient : Type := mkPatchrightClient {
  pc_id : string;
  pc_ws : Ws;
  pc_knownTargets : gset string;
}.

(** [CDPCommand]: what a client sends.  A missing [params] is [VUndefined]. *)
Record CDPCommand : Type := mkCDPCommand {
  cmd_id : Z;
  cmd_method : string;
  cmd_params : value;
  cmd_sessionId : option string;
}.

(** [CDPResponse | CDPEvent]: what the relay writes to a client. *)
Inductive ClientFrame : Type :=
| CDPResult (id : Z) (sessionId : option string) (result : value)
| CDPError (id : Z) (sessionId : option string) (message : string)
| CDPEvent (method : string) (sessionId : option string) (params : value).

(** The [{ id, method, params }] envelope written to the extension. *)
Record ExtensionCommand : Type := mkExtensionCommand {
  ec_id : Z;
  ec_method : string;
  ec_params : value;
}.

(** The inner event of a [forwardCDPEvent] message.  The three events the
    relay interprets carry their declared parameters; [OtherEvent] stands
    for every other inner method. *)
Inductive ForwardedEvent : Type :=
| AttachedToTarget (sessionId : string) (targetInfo : TargetInfo)
| DetachedFromTarget (sessionId : string)
| TargetInfoChanged (targetInfo : TargetInfo)
| OtherEvent (method : string) (params : value) (sessionId : option string).

(** [ExtensionMessage] *)
Inductive ExtensionMessage : Type :=
| ExtResponse (id : Z) (result : value) (error : option string)
| ExtLog (level : string) (args : list string)
| ExtForwardCDPEvent (ev : ForwardedEvent).

(** The [Error]s the relay creates or passes on. *)
Inductive RelayError : Type :=
| ErrNotConnected
| ErrTimeout (timeout : Z) (method : string)
| ErrReplaced
| ErrClosed
| ErrExtension (message : string)
| ErrNotInRegistry
| ErrTypeError (receiver : value).

Definition errorMessage (e : RelayError) : string :=
  match e with
  | ErrNotConnected => "Extension not connected"
  | ErrTimeout timeout method =>
      "Extension request timeout after " +:+ pretty timeout +:+ "ms: " +:+ method
  | ErrReplaced => "Extension connection replaced"
  | ErrClosed => "Extension connection closed"
  | ErrExtension message => message
  | ErrNotInRegistry => "Target created but not found in registry"
  | ErrTypeError VNull => "Cannot read properties of null (reading 'targetId')"
  | ErrTypeError _ => "Cannot read properties of undefined (reading 'targetId')"
  end.

(** How an awaited extension request ends. *)
Inductive Outcome : Type :=
| Resolved (result : value)
| Rejected (error : RelayError).

(** The [target] variable of a [POST /pages] handler that awaits its
    activation request.  It refers to an object of the target registry:
    [ref_target] is what that object holds now, [ref_registered] whether
    the registry still holds that very object.  The relay assigns to the
    [targetInfo] of registry objects ([Target.targetInfoChanged]), and the
    handler sees the assignment through its reference. *)
Record TargetRef : Type := mkTargetRef {
  ref_target : ConnectedTarget;
  ref_registered : bool;
}.

(** What waits for an extension request: the rest of the [async] handler
    that called [sendToExtension]. *)
Inductive Kont : Type :=
| KRoute (clientId : string) (cmd : CDPCommand)
| KPageActivate (req : Req) (name : string) (target : TargetRef)
| KPageCreate (req : Req) (name : string)
| KPageActivateNew (req : Req) (name : string) (target : TargetRef).

(** An entry of [extensionPendingRequests]: the closures hold the method
    and timeout for the timeout message, and the awaiting continuation.
    Its timer is live exactly while the entry is in the map. *)
Record PendingRequest : Type := mkPendingRequest {
  pr_method : string;
  pr_timeout : Z;
  pr_kont : Kont;
}.

(** ** Target objects seen through references *)

Definition onRef (f : TargetRef -> TargetRef) (k : Kont) : Kont :=
  match k with
  | KPageActivate req name target => KPageActivate req name (f target)
  | KPageActivateNew req name target => KPageActivateNew req name (f target)
  | KRoute _ _ | KPageCreate _ _ => k
  end.

(** The registry's object under [sessionId] leaves the registry
    ([delete], or a [set] that puts a new object under the key): a
    reference to it goes on holding what the object held. *)
Definition unregistered (sessionId : string) (target : TargetRef) : TargetRef :=
  if ref_registered target && bool_decide (ct_sessionId (ref_target target) = sessionId)
  then mkTargetRef (ref_target target) false
  else target.

(** [target.targetInfo = info] on the registry's object under
    [sessionId], as a reference to that object shows it. *)
Definition assigned (sessionId : string) (info : TargetInfo) (target : TargetRef)
  : TargetRef :=
  if ref_registered target && bool_decide (ct_sessionId (ref_target target) = sessionId)
  then mkTargetRef (mkConnectedTarget (ct_sessionId (ref_target target))
                      (ct_targetId (ref_target target)) info) true
  else target.

(** The references held by the handlers that await a pending request. *)
Definition mapRefs (f : TargetRef -> TargetRef) (pending : JsMap.t Z PendingRequest)
  : JsMap.t Z PendingRequest :=
  map (fun entry => (fst entry,
                     mkPendingRequest (pr_method (snd entry)) (pr_timeout (snd entry))
                       (onRef f (pr_kont (snd entry))))) pending.

Record State : Type := mkState {
  wsEndpoint : string;
  connectedTargets : JsMap.t string ConnectedTarget;
  namedPages : JsMap.t string string;
  patchrightClients : JsMap.t string PatchrightClient;
  extensionWs : option Ws;
  extensionPendingRequests : JsMap.t Z PendingRequest;
  extensionMessageId : Z;
  lastActivityAt : Time;
  (** [POST /pages] handlers asleep in [setTimeout(resolve, 200)], with
      the name asked for and the [createTarget] result they hold. *)
  pageSleeps : JsMap.t Req (string * value);
  (** [cleanupPromise !== null]: [cleanup] has been called. *)
  cleanupPromise : bool;
}.

(** What a handler does to the outside. Console logging is left out.
    [Uncaught] is a socket handler ending in a [TypeError] that nothing in
    the relay catches: what the runtime does with the rejected promise is
    not the relay's code. *)
Inductive Effect : Type :=
| SendClient (ws : Ws) (frame : ClientFrame)
| SendExtension (ws : Ws) (cmd : ExtensionCommand)
| CloseWs (ws : Ws) (code : Z) (reason : string)
| HttpReply (req : Req) (status : Z) (body : value)
| Uncaught.

Definition init (endpoint : string) (startedAt : Time) : State :=
  mkState endpoint [] [] [] None [] 0 startedAt [] false.

Definition setTargets (v : JsMap.t string ConnectedTarget) (s : State) : State :=
  mkState (wsEndpoint s) v (namedPages s) (patchrightClients s) (extensionWs s)
    (extensionPendingRequests s) (extensionMessageId s) (lastActivityAt s) (pageSleeps s)
    (cleanupPromise s).

Definition setNamedPages (v : JsMap.t string string) (s : State) : State :=
  mkState (wsEndpoint s) (connectedTargets s) v (patchrightClients s) (extensionWs s)
    (extensionPendingRequests s) (extensionMessageId s) (lastActivityAt s) (pageSleeps s)
    (cleanupPromise s).

Definition setClients (v : JsMap.t string PatchrightClient) (s : State) : State :=
  mkState (wsEndpoint s) (connectedTargets s) (namedPages s) v (extensionWs s)
    (extensionPendingRequests s) (extensionMessageId s) (lastActivityAt s) (pageSleeps s)
    (cleanupPromise s).

Definition setExtensionWs (v : option Ws) (s : State) : State :=
  mkState (wsEndpoint s) (connectedTargets s) (namedPages s) (patchrightClients s) v
    (extensionPendingRequests s) (extensionMessageId s) (lastActivityAt s) (pageSleeps s)
    (cleanupPromise s).

Definition setPending (v : JsMap.t Z PendingRequest) (s : State) : State :=
  mkState (wsEndpoint s) (connectedTargets s) (namedPages s) (patchrightClients s)
    (extensionWs s) v (extensionMessageId s) (lastActivityAt s) (pageSleeps s)
    (cleanupPromise s).

Definition setMessageId (v : Z) (s : State) : State :=
  mkState (wsEndpoint s) (connectedTargets s) (namedPages s) (patchrightClients s)
    (extensionWs s) (extensionPendingRequests s) v (lastActivityAt s) (pageSleeps s)
    (cleanupPromise s).

Definition setPageSleeps (v : JsMap.t Req (string * value)) (s : State) : State :=
  mkState (wsEndpoint s) (connectedTargets s) (namedPages s) (patchrightClients s)
    (extensionWs s) (extensionPendingRequests s) (extensionMessageId s) (lastActivityAt s) v
    (cleanupPromise s).

Definition setCleanupPromise (v : bool) (s : State) : State :=
  mkState (wsEndpoint s) (connectedTargets s) (namedPages s) (patchrightClients s)
    (extensionWs s) (extensionPendingRequests s) (extensionMessageId s) (lastActivityAt s)
    (pageSleeps s) v.

(** [markActivity()] *)
Definition markActivity (now : Time) (s : State) : State :=
  mkState (wsEndpoint s) (connectedTargets s) (namedPages s) (patchrightClients s)
    (extensionWs s) (extensionPendingRequests s) (extensionMessageId s) now (pageSleeps s)
    (cleanupPromise s).

(** ** Frames and payloads *)

Definition targetInfoValue (ti : TargetInfo) : value :=
  VObj [("targetId", VStr (ti_targetId ti)); ("type", VStr (ti_type ti));
        ("title", VStr (ti_title ti)); ("url", VStr (ti_url ti));
        ("attached", VBool (ti_attached ti))].

(** [{ ...targetInfo, attached: true }] *)
Definition attachedInfo (ti : TargetInfo) : TargetInfo :=
  mkTargetInfo (ti_targetId ti) (ti_type ti) (ti_title ti) (ti_url ti) true.

(** The event built at the top of [sendAttachedToTarget]. *)
Definition attachedEvent (target : ConnectedTarget) (waitingForDebugger : bool) : ClientFrame :=
  CDPEvent "Target.attachedToTarget" None
    (VObj [("sessionId", VStr (ct_sessionId target));
           ("targetInfo", targetInfoValue (attachedInfo (ct_targetInfo target)));
           ("waitingForDebugger", VBool waitingForDebugger)]).

Definition targetCreatedEvent (target : ConnectedTarget) : ClientFrame :=
  CDPEvent "Target.targetCreated" None
    (VObj [("targetInfo", targetInfoValue (attachedInfo (ct_targetInfo target)))]).

(** [{ method: "Target.activateTarget", params: { targetId } }] *)
Definition activateCommand (target : ConnectedTarget) : value :=
  VObj [("method", VStr "Target.activateTarget");
        ("params", VObj [("targetId", VStr (ct_targetId target))])].

(** [{ method: "Target.createTarget", params: { url: "about:blank" } }] *)
Definition createCommand : value :=
  VObj [("method", VStr "Target.createTarget");
        ("params", VObj [("url", VStr "about:blank")])].

(** The JSON body of a successful [POST /pages]. *)
Definition pageBody (s : State) (name : string) (target : ConnectedTarget) : value :=
  VObj [("wsEndpoint", VStr (wsEndpoint s)); ("name", VStr name);
        ("targetId", VStr (ct_targetId target));
        ("url", VStr (ti_url (ct_targetInfo target)))].

Definition errorBody (message : string) : value := VObj [("error", VStr message)].

(** ** Writing to clients *)

(** [sendToPatchright(message, clientId?)] *)
Definition sendToPatchright (frame : ClientFrame) (clientId : option string) (s : State)
  : list Effect :=
  match clientId with
  | Some cid =>
      if truthyStr clientId then
        match JsMap.get cid (patchrightClients s) with
        | Some client => [SendClient (pc_ws client) frame]
        | None => []
        end
      else map (fun client => SendClient (pc_ws client) frame)
               (JsMap.values (patchrightClients s))
  | None => map (fun client => SendClient (pc_ws client) frame)
                (JsMap.values (patchrightClients s))
  end.

(** The guarded body shared by both branches of [sendAttachedToTarget]:
    [if (!client.knownTargets.has(id)) { add; send }]. *)
Definition notifyClient (target : ConnectedTarget) (waitingForDebugger : bool)
    (client : PatchrightClient) : PatchrightClient * list Effect :=
  if bool_decide (ct_targetId target ∈ pc_knownTargets client) then (client, [])
  else (mkPatchrightClient (pc_id client) (pc_ws client)
          ({[ct_targetId target]} ∪ pc_knownTargets client),
        [SendClient (pc_ws client) (attachedEvent target waitingForDebugger)]).

Fixpoint notifyAll (target : ConnectedTarget) (waitingForDebugger : bool)
    (clients : JsMap.t string PatchrightClient)
  : JsMap.t string PatchrightClient * list Effect :=
  match clients with
  | [] => ([], [])
  | (k, client) :: rest =>
      let '(client', e1) := notifyClient target waitingForDebugger client in
      let '(rest', e2) := notifyAll target waitingForDebugger rest in
      ((k, client') :: rest', e1 ++ e2)
  end.

(** [sendAttachedToTarget(target, clientId?, waitingForDebugger = false)],
    on the client registry. *)
Definition sendAttachedToTarget (target : ConnectedTarget) (clientId : option string)
    (waitingForDebugger : bool) (clients : JsMap.t string PatchrightClient)
  : JsMap.t string PatchrightClient * list Effect :=
  match clientId with
  | Some cid =>
      if truthyStr clientId then
        match JsMap.get cid clients with
        | Some client =>
            let '(client', e) := notifyClient target waitingForDebugger client in
            (JsMap.set cid client' clients, e)
        | None => (clients, [])
        end
      else notifyAll target waitingForDebugger clients
  | None => notifyAll target waitingForDebugger clients
  end.

(** [for (const target of connectedTargets.values()) sendAttachedToTarget(target, clientId)] *)
Fixpoint attachPass (targets : list ConnectedTarget) (clientId : option string)
    (clients : JsMap.t string PatchrightClient)
  : JsMap.t string PatchrightClient * list Effect :=
  match targets with
  | [] => (clients, [])
  | target :: rest =>
      let '(clients1, e1) := sendAttachedToTarget target clientId false clients in
      let '(clients2, e2) := attachPass rest clientId clients1 in
      (clients2, e1 ++ e2)
  end.

(** ** The command correlator *)

(** [sendToExtension({ method, params, timeout })]; [None] is the throw
    of ["Extension not connected"].  The continuation [k] is the code
    awaiting the returned promise. *)
Definition sendToExtension (now : Time) (method : string) (params : value) (timeout : Z)
    (k : Kont) (s : State) : option (State * list Effect) :=
  match extensionWs s with
  | None => None
  | Some ext =>
      let s1 := markActivity now s in
      let id := extensionMessageId s1 + 1 in
      let s2 := setMessageId id s1 in
      Some (setPending (JsMap.set id (mkPendingRequest method timeout k)
                          (extensionPendingRequests s2)) s2,
            [SendExtension ext (mkExtensionCommand id method params)])
  end.

(** The default of the [timeout] parameter. *)
Definition defaultTimeout : Z := 30000.

(** ** The command router *)

Inductive Routed : Type :=
| Local (result : value)
| Forward (params : value).

(** [Array.from(connectedTargets.values()).find((item) => item.targetId === targetId)] *)
Definition findByTargetId (targetId : value) (targets : JsMap.t string ConnectedTarget)
  : option ConnectedTarget :=
  snd <$> JsMap.findEntry (fun _ item => strictEqStr (ct_targetId item) targetId) targets.

Definition versionDescriptor : value :=
  VObj [("protocolVersion", VStr "1.3"); ("product", VStr "Chrome/extension-relay");
        ("revision", VStr "0"); ("userAgent", VStr "dev-browser-relay");
        ("jsVersion", VStr "1.0")].

(** [routeCdpCommand({ method, params, sessionId })]: the [switch].
    [Forward p] is [sendToExtension({ method: "forwardCDPCommand", params: p })]. *)
Definition routeCdpCommand (method : string) (params : value) (sessionId : option string)
    (s : State) : Routed :=
  if decide (method = "Browser.getVersion") then Local versionDescriptor
  else if decide (method = "Target.setDiscoverTargets") then Local (VObj [])
  else if decide (method = "Target.setAutoAttach") then Local (VObj [])
  else if decide (method = "Target.getBrowserContexts") then Local (VObj [])
  else if decide (method = "Target.createBrowserContext") then Local (VObj [])
  else if decide (method = "Target.attachToBrowserTarget") then
    Local (VObj [("sessionId", VStr "browser")])
  else if decide (method = "Target.attachToTarget") then
    let targetId := optField params "targetId" in
    if truthy targetId then
      match findByTargetId targetId (connectedTargets s) with
      | Some target => Local (VObj [("sessionId", VStr (ct_sessionId target))])
      | None => Local (VObj [])
      end
    else Local (VObj [])
  else if decide (method = "Target.getTargetInfo") then
    let targetId := optField params "targetId" in
    let firstTarget :=
      Local (VObj [("targetInfo",
                    match JsMap.values (connectedTargets s) with
                    | first :: _ => targetInfoValue (ct_targetInfo first)
                    | [] => VUndefined
                    end)]) in
    if truthy targetId then
      match findByTargetId targetId (connectedTargets s) with
      | Some target => Local (VObj [("targetInfo", targetInfoValue (ct_targetInfo target))])
      | None => firstTarget
      end
    else firstTarget
  else if decide (method = "Target.getTargets") then
    Local (VObj [("targetInfos",
                  VArr (map (fun item => targetInfoValue (attachedInfo (ct_targetInfo item)))
                          (JsMap.values (connectedTargets s))))])
  else if decide (method = "Target.createTarget") then
    Forward (VObj [("method", VStr method); ("params", params)])
  else if decide (method = "Target.closeTarget") then
    Forward (VObj [("method", VStr method); ("params", params)])
  else
    Forward (VObj [("sessionId", optStr sessionId); ("method", VStr method);
                   ("params", params)]).

(** The methods of the [switch] that never reach [sendToExtension]. *)
Definition emulatedMethods : list string :=
  ["Browser.getVersion"; "Target.setDiscoverTargets"; "Target.setAutoAttach";
   "Target.getBrowserContexts"; "Target.createBrowserContext";
   "Target.attachToBrowserTarget"; "Target.attachToTarget";
   "Target.getTargetInfo"; "Target.getTargets"].

(** ** Client connections ([/cdp/:clientId?]) *)

(** A handler returns the new state, its effects, and the awaited
    requests it settled (their continuations run once it has returned). *)
Definition Handled : Type := State * list Effect * list (Kont * Outcome).

(** [onOpen] of a client socket. *)
Definition clientOnOpen (now : Time) (clientId : string) (ws : Ws) (s : State) : Handled :=
  let s1 := markActivity now s in
  if JsMap.has clientId (patchrightClients s1) then
    (s1, [CloseWs ws 1000 "Client ID already connected"], [])
  else
    (setClients (JsMap.set clientId (mkPatchrightClient clientId ws ∅)
                   (patchrightClients s1)) s1, [], []).

(** The part of the client [onMessage] that follows
    [const result = await routeCdpCommand(...)] inside the [try]. *)
Definition afterRoute (clientId : string) (cmd : CDPCommand) (result : value) (s : State)
  : State * list Effect :=
  let '(clients1, e1) :=
    if bool_decide (cmd_method cmd = "Target.setAutoAttach")
       && negb (truthyStr (cmd_sessionId cmd))
    then attachPass (JsMap.values (connectedTargets s)) (Some clientId) (patchrightClients s)
    else (patchrightClients s, []) in
  let s1 := setClients clients1 s in
  let e2 :=
    if bool_decide (cmd_method cmd = "Target.setDiscoverTargets")
       && truthy (optField (cmd_params cmd) "discover")
    then concat (map (fun target => sendToPatchright (targetCreatedEvent target)
                                      (Some clientId) s1)
                   (JsMap.values (connectedTargets s1)))
    else [] in
  let '(clients3, e3) :=
    if bool_decide (cmd_method cmd = "Target.attachToTarget")
       && truthy (optField result "sessionId")
    then
      match findByTargetId (optField (cmd_params cmd) "targetId") (connectedTargets s1) with
      | Some target => sendAttachedToTarget target (Some clientId) false (patchrightClients s1)
      | None => (patchrightClients s1, [])
      end
    else (patchrightClients s1, []) in
  let s3 := setClients clients3 s1 in
  (s3, e1 ++ e2 ++ e3
       ++ sendToPatchright (CDPResult (cmd_id cmd) (cmd_sessionId cmd) result)
            (Some clientId) s3).

(** The [catch] of the client [onMessage]. *)
Definition routeFailed (clientId : string) (cmd : CDPCommand) (e : RelayError) (s : State)
  : list Effect :=
  sendToPatchright (CDPError (cmd_id cmd) (cmd_sessionId cmd) (errorMessage e))
    (Some clientId) s.

(** [onMessage] of a client socket; [data = None] is a frame that
    [JSON.parse] rejects. *)
Definition clientOnMessage (now : Time) (clientId : string) (data : option CDPCommand)
    (s : State) : Handled :=
  let s1 := markActivity now s in
  match data with
  | None => (s1, [], [])
  | Some cmd =>
      match extensionWs s1 with
      | None => (s1, routeFailed clientId cmd ErrNotConnected s1, [])
      | Some _ =>
          match routeCdpCommand (cmd_method cmd) (cmd_params cmd) (cmd_sessionId cmd) s1 with
          | Local result =>
              let '(s2, e) := afterRoute clientId cmd result s1 in (s2, e, [])
          | Forward params =>
              match sendToExtension now "forwardCDPCommand" params defaultTimeout
                      (KRoute clientId cmd) s1 with
              | Some (s2, e) => (s2, e, [])
              | None => (s1, routeFailed clientId cmd ErrNotConnected s1, [])
              end
          end
      end
  end.

(** [onClose] of a client socket: it takes no socket argument. *)
Definition clientOnClose (now : Time) (clientId : string) (s : State) : Handled :=
  let s1 := markActivity now s in
  (setClients (JsMap.delete clientId (patchrightClients s1)) s1, [], []).

(** ** The extension connection ([/extension]) *)

Definition rejectAll (e : RelayError) (pending : JsMap.t Z PendingRequest)
  : list (Kont * Outcome) :=
  map (fun p => (pr_kont p, Rejected e)) (JsMap.values pending).

(** [onOpen] of an extension socket. *)
Definition extensionOnOpen (now : Time) (ws : Ws) (s : State) : Handled :=
  let s1 := markActivity now s in
  match extensionWs s1 with
  | Some old =>
      let s2 := setPending [] (setNamedPages [] (setTargets [] s1)) in
      (setExtensionWs (Some ws) s2,
       [CloseWs old 4001 "Extension Replaced"],
       rejectAll ErrReplaced (extensionPendingRequests s1))
  | None => (setExtensionWs (Some ws) s1, [], [])
  end.

(** The [for ... of namedPages] loop of the detach branch: delete the
    first name bound to the session, then [break]. *)
Definition unbindSession (sessionId : string) (names : JsMap.t string string)
  : JsMap.t string string :=
  match JsMap.findEntry (fun _ sid => bool_decide (sid = sessionId)) names with
  | Some (name, _) => JsMap.delete name names
  | None => names
  end.

(** The loop of the info-changed branch: replace [targetInfo] of the
    first target with that [targetId], then [break]. *)
Definition updateTargetInfo (ti : TargetInfo) (targets : JsMap.t string ConnectedTarget)
  : JsMap.t string ConnectedTarget :=
  match JsMap.findEntry (fun _ target => bool_decide (ct_targetId target = ti_targetId ti))
          targets with
  | Some (sid, target) =>
      JsMap.set sid (mkConnectedTarget (ct_sessionId target) (ct_targetId target) ti) targets
  | None => targets
  end.

(** What the assignment in the loop of the info-changed branch does to
    the references that awaiting handlers hold: those to the object it
    assigns to show the new [targetInfo]. *)
Definition updateHeldInfo (ti : TargetInfo) (targets : JsMap.t string ConnectedTarget)
    (pending : JsMap.t Z PendingRequest) : JsMap.t Z PendingRequest :=
  match JsMap.findEntry (fun _ target => bool_decide (ct_targetId target = ti_targetId ti))
          targets with
  | Some (sid, _) => mapRefs (assigned sid ti) pending
  | None => pending
  end.

(** The [forwardCDPEvent] branch of the extension [onMessage].  The
    attach branch puts a new object into the registry and the detach
    branch takes one out: a reference to the object that was there under
    the session id no longer refers to a registry object. *)
Definition onForwardedEvent (ev : ForwardedEvent) (s : State) : State * list Effect :=
  match ev with
  | AttachedToTarget sessionId ti =>
      let target := mkConnectedTarget sessionId (ti_targetId ti) ti in
      let s1 := setPending (mapRefs (unregistered sessionId) (extensionPendingRequests s))
                  (setTargets (JsMap.set sessionId target (connectedTargets s)) s) in
      let '(clients, e) := sendAttachedToTarget target None false (patchrightClients s1) in
      (setClients clients s1, e)
  | DetachedFromTarget sessionId =>
      let s1 := setPending (mapRefs (unregistered sessionId) (extensionPendingRequests s))
                  (setTargets (JsMap.delete sessionId (connectedTargets s)) s) in
      let s2 := setNamedPages (unbindSession sessionId (namedPages s1)) s1 in
      (s2, sendToPatchright
             (CDPEvent "Target.detachedFromTarget" None (VObj [("sessionId", VStr sessionId)]))
             None s2)
  | TargetInfoChanged ti =>
      let s1 := setPending (updateHeldInfo ti (connectedTargets s)
                              (extensionPendingRequests s))
                  (setTargets (updateTargetInfo ti (connectedTargets s)) s) in
      (s1, sendToPatchright
             (CDPEvent "Target.targetInfoChanged" None (VObj [("targetInfo", targetInfoValue ti)]))
             None s1)
  | OtherEvent method params sessionId =>
      (s, sendToPatchright (CDPEvent method sessionId params) None s)
  end.

(** [onMessage] of an extension socket; [data = None] is a frame that
    [JSON.parse] rejects. *)
Definition extensionOnMessage (now : Time) (ws : Ws) (data : option ExtensionMessage)
    (s : State) : Handled :=
  let s1 := markActivity now s in
  match data with
  | None => (s1, [CloseWs ws 1000 "Invalid JSON"], [])
  | Some (ExtResponse id result error) =>
      match JsMap.get id (extensionPendingRequests s1) with
      | None => (s1, [], [])
      | Some pending =>
          (setPending (JsMap.delete id (extensionPendingRequests s1)) s1, [],
           [(pr_kont pending,
             match error with
             | Some message =>
                 if truthyStr error then Rejected (ErrExtension message) else Resolved result
             | None => Resolved result
             end)])
      end
  | Some (ExtLog _ _) => (s1, [], [])
  | Some (ExtForwardCDPEvent ev) =>
      let '(s2, e) := onForwardedEvent ev s1 in (s2, e, [])
  end.

(** [onClose] of an extension socket. *)
Definition extensionOnClose (now : Time) (ws : Ws) (s : State) : Handled :=
  let s1 := markActivity now s in
  let teardown :=
    (setClients [] (setNamedPages [] (setTargets []
       (setExtensionWs None (setPending [] s1)))),
     map (fun client => CloseWs (pc_ws client) 1000 "Extension disconnected")
       (JsMap.values (patchrightClients s1)),
     rejectAll ErrClosed (extensionPendingRequests s1)) in
  match extensionWs s1 with
  | Some current => if decide (current = ws) then teardown else (s1, [], [])
  | None => teardown
  end.

(** The timer armed by [sendToExtension] fires.  Settling an entry
    clears its timer, so for an id that is no longer pending nothing
    happens. *)
Definition requestTimeout (id : Z) (s : State) : Handled :=
  match JsMap.get id (extensionPendingRequests s) with
  | Some pending =>
      (setPending (JsMap.delete id (extensionPendingRequests s)) s, [],
       [(pr_kont pending, Rejected (ErrTimeout (pr_timeout pending) (pr_method pending)))])
  | None => (s, [], [])
  end.

(** ** The named-page routes *)

(** [GET /pages] *)
Definition getPages (now : Time) (req : Req) (s : State) : Handled :=
  let s1 := markActivity now s in
  (s1, [HttpReply req 200
          (VObj [("pages", VArr (map VStr (JsMap.keys (namedPages s1))))])], []).

(** [DELETE /pages/:name] *)
Definition deletePage (now : Time) (req : Req) (name : string) (s : State) : Handled :=
  let s1 := markActivity now s in
  (setNamedPages (JsMap.delete name (namedPages s1)) s1,
   [HttpReply req 200 (VObj [("success", VBool (JsMap.has name (namedPages s1)))])], []).

(** The creating half of [POST /pages]: from [if (!extensionWs)] to the
    [await] of the [createTarget] request. *)
Definition createPage (now : Time) (req : Req) (name : string) (s : State) : Handled :=
  match extensionWs s with
  | None => (s, [HttpReply req 503 (errorBody "Extension not connected")], [])
  | Some _ =>
      match sendToExtension now "forwardCDPCommand" createCommand defaultTimeout
              (KPageCreate req name) s with
      | Some (s1, e) => (s1, e, [])
      | None => (s, [HttpReply req 500 (errorBody (errorMessage ErrNotConnected))], [])
      end
  end.

(** [POST /pages] up to its first [await sendToExtension].  [data] is
    the request body as [c.req.json()] parses it, [None] for a body it
    rejects (the [catch] gives [{}]).  Reading [body.name] of the JSON
    [null] throws outside the [try]: the framework answers its plain
    500. *)
Definition postPages (now : Time) (req : Req) (data : option value) (s : State) : Handled :=
  let s1 := markActivity now s in
  let body := default (VObj []) data in
  match getField body "name" with
  | None => (s1, [HttpReply req 500 (VStr "Internal Server Error")], [])
  | Some name =>
      match name with
      | VStr n =>
          if truthy name then
            match JsMap.get n (namedPages s1) with
            | Some existingSessionId =>
                if truthyStr (Some existingSessionId) then
                  match JsMap.get existingSessionId (connectedTargets s1) with
                  | Some target =>
                      match sendToExtension now "forwardCDPCommand" (activateCommand target)
                              defaultTimeout (KPageActivate req n (mkTargetRef target true))
                              s1 with
                      | Some (s2, e) => (s2, e, [])
                      | None => (s1, [HttpReply req 500 (VStr "Internal Server Error")], [])
                      end
                  | None =>
                      createPage now req n (setNamedPages (JsMap.delete n (namedPages s1)) s1)
                  end
                else createPage now req n s1
            | None => createPage now req n s1
            end
          else (s1, [HttpReply req 400 (errorBody "name is required")], [])
      | _ => (s1, [HttpReply req 400 (errorBody "name is required")], [])
      end
  end.

(** [POST /pages] when its 200 ms sleep ends: the search of the
    registry for the created target, the binding, and the activation. *)
Definition pageWake (now : Time) (req : Req) (s : State) : Handled :=
  match JsMap.get req (pageSleeps s) with
  | None => (s, [], [])
  | Some (name, result) =>
      let s1 := setPageSleeps (JsMap.delete req (pageSleeps s)) s in
      let failed (e : RelayError) : Handled :=
        (s1, [HttpReply req 500 (errorBody (errorMessage e))], []) in
      match connectedTargets s1 with
      | [] => failed ErrNotInRegistry
      | _ :: _ =>
          match getField result "targetId" with
          | None => failed (ErrTypeError result)
          | Some targetId =>
              match JsMap.findEntry (fun _ target => strictEqStr (ct_targetId target) targetId)
                      (connectedTargets s1) with
              | Some (sessionId, target) =>
                  let s2 := setNamedPages (JsMap.set name sessionId (namedPages s1)) s1 in
                  match sendToExtension now "forwardCDPCommand" (activateCommand target)
                          defaultTimeout (KPageActivateNew req name (mkTargetRef target true))
                          s2 with
                  | Some (s3, e) => (s3, e, [])
                  | None =>
                      (s2, [HttpReply req 500 (errorBody (errorMessage ErrNotConnected))], [])
                  end
              | None => failed ErrNotInRegistry
              end
          end
      end
  end.

(** ** Resuming an awaiting handler *)

(** What the code after an [await sendToExtension(...)] does with the
    outcome.  The outer activation of [POST /pages] is outside the
    [try], so its failure becomes the framework's plain 500. *)
Definition resume (k : Kont) (o : Outcome) (s : State) : State * list Effect :=
  match k, o with
  | KRoute clientId cmd, Resolved result => afterRoute clientId cmd result s
  | KRoute clientId cmd, Rejected e => (s, routeFailed clientId cmd e s)
  | KPageActivate req name target, Resolved _ =>
      (s, [HttpReply req 200 (pageBody s name (ref_target target))])
  | KPageActivate req name target, Rejected _ =>
      (s, [HttpReply req 500 (VStr "Internal Server Error")])
  | KPageCreate req name, Resolved result =>
      (setPageSleeps (JsMap.set req (name, result) (pageSleeps s)) s, [])
  | KPageCreate req name, Rejected e =>
      (s, [HttpReply req 500 (errorBody (errorMessage e))])
  | KPageActivateNew req name target, Resolved _ =>
      (s, [HttpReply req 200 (pageBody s name (ref_target target))])
  | KPageActivateNew req name target, Rejected e =>
      (s, [HttpReply req 500 (errorBody (errorMessage e))])
  end.

Fixpoint drain (settled : list (Kont * Outcome)) (s : State) : State * list Effect :=
  match settled with
  | [] => (s, [])
  | (k, o) :: rest =>
      let '(s1, e1) := resume k o s in
      let '(s2, e2) := drain rest s1 in
      (s2, e1 ++ e2)
  end.

(** ** Shutdown *)

(** [cleanup()]; [cleaned] is [cleanupPromise !== null].  Of its effects
    the socket closes are kept; clearing the interval and closing the
    HTTP server are not socket effects.  Pending requests, targets and
    names are not touched. *)
Definition cleanup (cleaned : bool) (s : State) : State * list Effect * bool :=
  if cleaned then (s, [], true)
  else
    (setExtensionWs None (setClients [] s),
     map (fun client => CloseWs (pc_ws client) 1000 "Server stopped")
       (JsMap.values (patchrightClients s))
     ++ match extensionWs s with
        | Some ext => [CloseWs ext 1000 "Server stopped"]
        | None => []
        end,
     true).

(** A call of [cleanup]: [server.stop()], the idle interval or
    [/admin/shutdown]. *)
Definition onCleanup (s : State) : Handled :=
  let '(s1, e, started) := cleanup (cleanupPromise s) s in
  (setCleanupPromise started s1, e, []).

(** ** The relay as a transition system *)

(** The inputs of the relay.  A socket frame that parses to an object is
    taken at its declared type; the frames that make a socket handler
    throw have events of their own: the JSON [null] on a client socket
    (the destructuring throws) and [null], a number, a string or a boolean
    on the extension socket (the first [in] test throws). *)
Inductive Event : Type :=
| OnClientOpen (clientId : string) (ws : Ws)
| OnClientMessage (clientId : string) (ws : Ws) (data : option CDPCommand)
| OnClientClose (clientId : string) (ws : Ws)
| OnExtensionOpen (ws : Ws)
| OnExtensionMessage (ws : Ws) (data : option ExtensionMessage)
| OnExtensionClose (ws : Ws)
| OnRequestTimeout (id : Z)
| OnGetPages (req : Req)
| OnPostPages (req : Req) (data : option value)
| OnPageWake (req : Req)
| OnDeletePage (req : Req) (name : string)
| OnClientError (clientId : string) (ws : Ws)
| OnExtensionError (ws : Ws)
| OnClientNull (clientId : string) (ws : Ws)
| OnExtensionScalar (ws : Ws)
| OnCleanup.

(** The handler an event runs.  A client handler closes over the
    [clientId] of its route, not over its socket. *)
Definition handle (now : Time) (ev : Event) (s : State) : Handled :=
  match ev with
  | OnClientOpen clientId ws => clientOnOpen now clientId ws s
  | OnClientMessage clientId _ data => clientOnMessage now clientId data s
  | OnClientClose clientId _ => clientOnClose now clientId s
  | OnExtensionOpen ws => extensionOnOpen now ws s
  | OnExtensionMessage ws data => extensionOnMessage now ws data s
  | OnExtensionClose ws => extensionOnClose now ws s
  | OnRequestTimeout id => requestTimeout id s
  | OnGetPages req => getPages now req s
  | OnPostPages req data => postPages now req data s
  | OnPageWake req => pageWake now req s
  | OnDeletePage req name => deletePage now req name s
  | OnClientError _ _ | OnExtensionError _ => (s, [], [])
  | OnClientNull _ _ | OnExtensionScalar _ => (markActivity now s, [Uncaught], [])
  | OnCleanup => onCleanup s
  end.

(** One turn of the event loop: the handler, then the continuations of
    the promises it settled. *)
Definition step (now : Time) (ev : Event) (s : State) : State * list Effect :=
  let '(s1, e1, settled) := handle now ev s in
  let '(s2, e2) := drain settled s1 in
  (s2, e1 ++ e2).

Fixpoint run (trace : list (Time * Event)) (s : State) : State * list Effect :=
  match trace with
  | [] => (s, [])
  | (now, ev) :: rest =>
      let '(s1, e1) := step now ev s in
      let '(s2, e2) := run rest s1 in
      (s2, e1 ++ e2)
  end.

(** States the relay can be in: those a trace of events, calls of
    [cleanup] among them, leads to from start-up. *)
Definition reachable (s : State) : Prop :=
  exists endpoint startedAt trace, fst (run trace (init endpoint startedAt)) = s.

(** ** Scenarios and the predicates the properties use *)

Definition endpoint0 : string := "ws://127.0.0.1:9222/cdp".

Definition relay0 : State := init endpoint0 0%nat.

Definition tabA : TargetInfo := mkTargetInfo "T1" "page" "Example" "https://example.com/" true.

Definition tabB : TargetInfo := mkTargetInfo "T2" "page" "" "about:blank" false.

Definition getVersionCmd : CDPCommand := mkCDPCommand 1 "Browser.getVersion" VUndefined None.

(** Two connections use the id ["a"]; the second is turned away and its
    socket then closes. *)
Definition duplicateTrace : list (Time * Event) :=
  [(1%nat, OnExtensionOpen 9%nat);
   (2%nat, OnClientOpen "a" 1%nat);
   (3%nat, OnClientOpen "a" 2%nat);
   (4%nat, OnClientClose "a" 2%nat)].

(** An extension and one client are connected, one command is in flight. *)
Definition busyRelay : State :=
  fst (run [(1%nat, OnExtensionOpen 9%nat);
            (2%nat, OnClientOpen "a" 1%nat);
            (3%nat, OnExtensionMessage 9%nat
                      (Some (ExtForwardCDPEvent (AttachedToTarget "s1" tabA))));
            (4%nat, OnClientMessage "a" 1%nat
                      (Some (mkCDPCommand 7 "Page.enable" VUndefined (Some "s1"))))]
         relay0).

(** [busyRelay] after a page named ["demo"] was created: the new tab
    attached as session ["s2"] and was activated. *)
Definition pagedRelay : State :=
  fst (run [(5%nat, OnPostPages 1%nat (Some (VObj [("name", VStr "demo")])));
            (5%nat, OnExtensionMessage 9%nat
                      (Some (ExtForwardCDPEvent (AttachedToTarget "s2" tabB))));
            (5%nat, OnExtensionMessage 9%nat
                      (Some (ExtResponse 2 (VObj [("targetId", VStr "T2")]) None)));
            (5%nat, OnPageWake 1%nat);
            (5%nat, OnExtensionMessage 9%nat (Some (ExtResponse 3 (VObj []) None)))]
         busyRelay).

Definition isSendExtension (e : Effect) : bool :=
  match e with
  | SendExtension _ _ => true
  | _ => false
  end.

Definition isCloseWs (e : Effect) : bool :=
  match e with
  | CloseWs _ _ _ => true
  | _ => false
  end.

(** One client is connected and no extension. *)
Definition lonelyClient : State :=
  fst (run [(1%nat, OnClientOpen "a" 1%nat)] relay0).

(** The error policy as the specification words it: a client is told
    that the extension is not connected only for a command that the
    router forwards. *)
Definition notConnectedOnlyWhenForwarding (now : Time) (clientId : string) (ws : Ws)
    (cmd : CDPCommand) (s : State) : Prop :=
  (exists w, SendClient w (CDPError (cmd_id cmd) (cmd_sessionId cmd)
                             (errorMessage ErrNotConnected))
             ∈ snd (step now (OnClientMessage clientId ws (Some cmd)) s)) ->
  exists params,
    routeCdpCommand (cmd_method cmd) (cmd_params cmd) (cmd_sessionId cmd) s = Forward params.

Definition isSendClient (x : Effect) : Prop := exists ws frame, x = SendClient ws frame.

(** How the pending requests may change in a turn: the counter only
    grows, and an entry of the new map was either there before, with the
    same method and timeout, or was made in between, under a fresh id, by
    a [sendToExtension] call with the default timeout. *)
Definition pendingStep (s s' : State) : Prop :=
  extensionMessageId s <= extensionMessageId s'
  /\ forall id p, JsMap.get id (extensionPendingRequests s') = Some p ->
       (exists p0, JsMap.get id (extensionPendingRequests s) = Some p0
                   /\ pr_timeout p0 = pr_timeout p /\ pr_method p0 = pr_method p)
       \/ (extensionMessageId s < id /\ id <= extensionMessageId s'
           /\ pr_timeout p = defaultTimeout /\ pr_method p = "forwardCDPCommand").

(** Every pending request has an id the counter has passed, the default
    timeout and the forwarding method. *)
Definition pendingWf (s : State) : Prop :=
  forall id p, JsMap.get id (extensionPendingRequests s) = Some p ->
    id <= extensionMessageId s
    /\ pr_timeout p = defaultTimeout /\ pr_method p = "forwardCDPCommand".

Definition fromExtension (ws : Ws) (ev : ForwardedEvent) : Event :=
  OnExtensionMessage ws (Some (ExtForwardCDPEvent ev)).

Definition createdReply (ws : Ws) (id : Z) (targetId : string) : Event :=
  OnExtensionMessage ws (Some (ExtResponse id (VObj [("targetId", VStr targetId)]) None)).

Definition emptyReply (ws : Ws) (id : Z) : Event :=
  OnExtensionMessage ws (Some (ExtResponse id (VObj []) None)).

(** Two pages are asked for by name, and the extension answers both
    [createTarget] requests with the id of the same tab: both names are
    bound to session ["s1"]. *)
Definition sharedSessionTrace : list (Time * Event) :=
  [(1%nat, OnExtensionOpen 9%nat);
   (2%nat, OnPostPages 1%nat (Some (VObj [("name", VStr "a")])));
   (3%nat, fromExtension 9%nat (AttachedToTarget "s1" tabA));
   (4%nat, createdReply 9%nat 1 "T1");
   (5%nat, OnPageWake 1%nat);
   (6%nat, emptyReply 9%nat 2);
   (7%nat, OnPostPages 2%nat (Some (VObj [("name", VStr "b")])));
   (8%nat, createdReply 9%nat 3 "T1");
   (9%nat, OnPageWake 2%nat);
   (10%nat, emptyReply 9%nat 4)].

(** No name resolves to a session that the target registry lacks. *)
Definition namesLive (s : State) : Prop :=
  forall name sid, JsMap.get name (namedPages s) = Some sid ->
    is_Some (JsMap.get sid (connectedTargets s)).


(** Writes a state built by nested updates as one record, innermost
    update first, so that no update is copied into every field. *)
Ltac norm_update f :=
  match goal with
  | |- context [f ?v ?x] =>
      first [is_var x | lazymatch x with mkState _ _ _ _ _ _ _ _ _ _ => idtac end];
      let unfolded := eval cbv beta delta [f] in (f v x) in
      let reduced :=
        eval cbn [wsEndpoint connectedTargets namedPages patchrightClients extensionWs
                  extensionPendingRequests extensionMessageId lastActivityAt pageSleeps
                  cleanupPromise] in unfolded in
      change (f v x) with reduced
  end.

Ltac norm_state :=
  repeat first [norm_update setPending | norm_update setMessageId
               | norm_update setNamedPages | norm_update setPageSleeps
               | norm_update setClients | norm_update setTargets
               | norm_update setExtensionWs | norm_update setCleanupPromise
               | norm_update markActivity];
  unfold setPending, setMessageId, setNamedPages, setPageSleeps, setClients, setTargets,
    setExtensionWs, setCleanupPromise, markActivity;
  cbn [wsEndpoint connectedTargets namedPages patchrightClients extensionWs
       extensionPendingRequests extensionMessageId lastActivityAt pageSleeps
       cleanupPromise fst snd].














(** Whether the most recent attach or detach event for [sid] in [evs]
    (after a history summarised by [acc]) is a detach. *)
Fixpoint lastDetached (sid : string) (evs : list ForwardedEvent) (acc : bool) : bool :=
  match evs with
  | [] => acc
  | ev :: rest =>
      lastDetached sid rest
        match ev with
        | AttachedToTarget sid' _ => if decide (sid' = sid) then false else acc
        | DetachedFromTarget sid' => if decide (sid' = sid) then true else acc
        | _ => acc
        end
  end.

(** The events [evs] arriving in order on one extension socket. *)
Definition eventTrace (now : Time) (ws : Ws) (evs : list ForwardedEvent)
  : list (Time * Event) :=
  map (fun ev => (now, fromExtension ws ev)) evs.

(** No two names are bound to one session. *)
Definition namesInjective (names : JsMap.t string string) : Prop :=
  forall n1 n2 sid, (n1, sid) ∈ names -> (n2, sid) ∈ names -> n1 = n2.

(** Every binding in the named pages, shadowed or not, is to a live session. *)
Definition bindingsLive (s : State) : Prop :=
  forall name sid, (name, sid) ∈ namedPages s ->
    is_Some (JsMap.get sid (connectedTargets s)).

(** ** The rest of the relay: status routes and the idle check *)

(** What [serveRelay] fixes at start-up. [cfg_iso] is [toISOString] on
    a time stamp, [cfg_paths] the [runtimePaths] option as given. *)
Record RelayConfig : Type := mkRelayConfig {
  cfg_pid : Z;
  cfg_startedAt : Time;
  cfg_idleTtlMs : Z;
  cfg_serverUrl : string;
  cfg_paths : value;
  cfg_port : Z;
  cfg_iso : Time -> string;
}.

(** [extensionWs !== null] *)
Definition extensionConnected (s : State) : bool :=
  match extensionWs s with
  | Some _ => true
  | None => false
  end.

(** [buildHealthResponse(wsEndpoint)] at time [now]. *)
Definition buildHealthResponse (cfg : RelayConfig) (now : Time) (s : State) : value :=
  VObj [("status", VStr (if extensionConnected s then "ok" else "degraded"));
        ("mode", VStr "extension");
        ("pid", VNum (cfg_pid cfg));
        ("uptimeMs", VNum (Z.of_nat now - Z.of_nat (cfg_startedAt cfg)));
        ("pageCount", VNum (Z.of_nat (length (namedPages s))));
        ("extensionConnected", VBool (extensionConnected s));
        ("wsEndpoint", VStr (wsEndpoint s));
        ("lastActivityAt", VStr (cfg_iso cfg (lastActivityAt s)));
        ("engine", VNull)].

(** [buildRuntimeResponse(wsEndpoint)] *)
Definition buildRuntimeResponse (cfg : RelayConfig) (s : State) : value :=
  VObj [("mode", VStr "extension");
        ("pid", VNum (cfg_pid cfg));
        ("startedAt", VStr (cfg_iso cfg (cfg_startedAt cfg)));
        ("lastActivityAt", VStr (cfg_iso cfg (lastActivityAt s)));
        ("idleTtlMs", VNum (cfg_idleTtlMs cfg));
        ("serverUrl", VStr (cfg_serverUrl cfg));
        ("wsEndpoint", VStr (wsEndpoint s));
        ("paths", cfg_paths cfg);
        ("ports", VObj [("http", VNum (cfg_port cfg)); ("cdp", VNum (cfg_port cfg))]);
        ("headless", VBool false);
        ("pageNames", VArr (map VStr (JsMap.keys (namedPages s))));
        ("extensionConnected", VBool (extensionConnected s));
        ("engine", VNull)].

(** [GET /] *)
Definition getRoot (now : Time) (req : Req) (s : State) : State * list Effect :=
  let s1 := markActivity now s in
  (s1, [HttpReply req 200
          (VObj [("wsEndpoint", VStr (wsEndpoint s1));
                 ("extensionConnected", VBool (extensionConnected s1));
                 ("mode", VStr "extension"); ("engine", VNull)])]).

(** [GET /health]: no [markActivity]. *)
Definition getHealth (cfg : RelayConfig) (now : Time) (req : Req) (s : State)
  : State * list Effect :=
  (s, [HttpReply req 200 (buildHealthResponse cfg now s)]).

(** [GET /runtime]: no [markActivity]. *)
Definition getRuntime (cfg : RelayConfig) (req : Req) (s : State) : State * list Effect :=
  (s, [HttpReply req 200 (buildRuntimeResponse cfg s)]).

(** The test of the idle interval at time [now]:
    [Date.now() - new Date(lastActivityAt).getTime() >= idleTtlMs]. *)
Definition idleTtlReached (cfg : RelayConfig) (now : Time) (s : State) : bool :=
  cfg_idleTtlMs cfg <=? Z.of_nat now - Z.of_nat (lastActivityAt s).

(** ** The relay worker's command line ([workers/start-relay.ts]) *)

(** The [options] object of [parseArgs].  A number is [None] when
    [Number.parseInt] gave [NaN]. *)
Record RelayArgs : Type := mkRelayArgs {
  arg_host : string;
  arg_port : option Z;
  arg_idleTtlMs : option Z;
  arg_runtimeRoot : option string;
}.

Definition defaultArgs : RelayArgs :=
  mkRelayArgs "127.0.0.1" (Some 9222) (Some 1800000) None.

Inductive Flag : Type := FlagHost | FlagPort | FlagIdleTtlMs | FlagRuntimeRoot.

(** The [case] labels of the [switch (key)]. *)
Definition flagOf (key : string) : option Flag :=
  if decide (key = "--host") then Some FlagHost
  else if decide (key = "--port") then Some FlagPort
  else if decide (key = "--idle-ttl-ms") then Some FlagIdleTtlMs
  else if decide (key = "--runtime-root") then Some FlagRuntimeRoot
  else None.

Definition flagName (flag : Flag) : string :=
  match flag with
  | FlagHost => "--host"
  | FlagPort => "--port"
  | FlagIdleTtlMs => "--idle-ttl-ms"
  | FlagRuntimeRoot => "--runtime-root"
  end.

(** The assignment in the body of a [case]. [parseInt] is
    [Number.parseInt(value, 10)]. *)
Definition applyFlag (parseInt : string -> option Z) (flag : Flag) (value : string)
    (options : RelayArgs) : RelayArgs :=
  match flag with
  | FlagHost =>
      mkRelayArgs value (arg_port options) (arg_idleTtlMs options) (arg_runtimeRoot options)
  | FlagPort =>
      mkRelayArgs (arg_host options) (parseInt value) (arg_idleTtlMs options)
        (arg_runtimeRoot options)
  | FlagIdleTtlMs =>
      mkRelayArgs (arg_host options) (arg_port options) (parseInt value)
        (arg_runtimeRoot options)
  | FlagRuntimeRoot =>
      mkRelayArgs (arg_host options) (arg_port options) (arg_idleTtlMs options) (Some value)
  end.

(** The [for] loop of [parseArgs] from position [index] on, [args] being
    the arguments from that position.  A known flag followed by a
    non-empty value takes it and skips it; everything else moves on by
    one. *)
Fixpoint parseArgsFrom (parseInt : string -> option Z) (args : list string)
    (options : RelayArgs) : RelayArgs :=
  match args with
  | [] => options
  | key :: rest =>
      match flagOf key, rest with
      | Some flag, value :: rest' =>
          if truthyStr (Some value)
          then parseArgsFrom parseInt rest' (applyFlag parseInt flag value options)
          else parseArgsFrom parseInt rest options
      | _, _ => parseArgsFrom parseInt rest options
      end
  end.

Definition parseArgs (parseInt : string -> option Z) (args : list string) : RelayArgs :=
  parseArgsFrom parseInt args defaultArgs.

(** Flag and value pairs laid out as arguments. *)
Definition flagArgs (pairs : list (Flag * string)) : list string :=
  concat (map (fun pair => [flagName (fst pair); snd pair]) pairs).

(** ** Predicates of the further properties *)

(** The frames a list of effects writes to the extension. *)
Definition extensionFrames (effects : list Effect) : list (Ws * ExtensionCommand) :=
  omap (fun e => match e with
                 | SendExtension ws cmd => Some (ws, cmd)
                 | _ => None
                 end) effects.

(** The sockets of the registered clients. *)
Definition clientSockets (s : State) : list Ws :=
  map pc_ws (JsMap.values (patchrightClients s)).

(** What a turn may write to the extension: nothing, with the request
    counter as it was; or one [forwardCDPCommand] frame to the connected
    socket under the next request id, which is pending afterwards. *)
Definition frameStep (s s' : State) (e : list Effect) : Prop :=
  (extensionFrames e = [] /\ extensionMessageId s' = extensionMessageId s)
  \/ (exists ext params,
        extensionWs s = Some ext
        /\ extensionFrames e
           = [(ext, mkExtensionCommand (extensionMessageId s + 1) "forwardCDPCommand" params)]
        /\ extensionMessageId s' = extensionMessageId s + 1
        /\ is_Some (JsMap.get (extensionMessageId s + 1) (extensionPendingRequests s'))).

(** Until [cleanup] is called, nothing is pending unless an extension
    is connected. *)
Definition pendingNeedsExtension (s : State) : Prop :=
  cleanupPromise s = false -> extensionWs s = None -> extensionPendingRequests s = [].

(** Every frame for a client among [e] is written to one of [sockets]. *)
Definition sendsWithin (sockets : list Ws) (e : list Effect) : Prop :=
  forall ws frame, SendClient ws frame ∈ e -> ws ∈ sockets.

(** * Properties *)

(** ** Facts about [JsMap] *)

Section JsMapFacts.
Context {K V : Type} `{EqDecision K}.
Implicit Types (m : JsMap.t K V) (k : K) (v : V).

Lemma get_set_eq m k v : JsMap.get k (JsMap.set k v m) = Some v.
Proof.
  induction m as [|[k' v'] m IH]; simpl.
  - by rewrite decide_True.
  - destruct (decide (k' = k)) as [->|Hne]; simpl.
    + by rewrite decide_True.
    + by rewrite decide_False.
Qed.

Lemma get_set_ne m k k' v : k <> k' -> JsMap.get k' (JsMap.set k v m) = JsMap.get k' m.
Proof.
  intros Hne. induction m as [|[k0 v0] m IH]; simpl.
  - by rewrite decide_False.
  - destruct (decide (k0 = k)) as [->|Hk]; simpl.
    + by rewrite !decide_False.
    + destruct (decide (k0 = k')); [done|apply IH].
Qed.

Lemma get_delete_eq m k : JsMap.get k (JsMap.delete k m) = None.
Proof.
  induction m as [|[k' v'] m IH]; simpl; [done|].
  destruct (decide (k' = k)); simpl; [done|]. by rewrite decide_False.
Qed.

Lemma get_delete_ne m k k' : k <> k' -> JsMap.get k' (JsMap.delete k m) = JsMap.get k' m.
Proof.
  intros Hne. induction m as [|[k0 v0] m IH]; simpl; [done|].
  destruct (decide (k0 = k)) as [->|Hk]; simpl.
  - by rewrite decide_False.
  - destruct (decide (k0 = k')); [done|apply IH].
Qed.

Lemma get_Some_values m k v : JsMap.get k m = Some v -> v ∈ JsMap.values m.
Proof.
  induction m as [|[k' v'] m IH]; simpl; [done|].
  destruct (decide (k' = k)).
  - intros [= ->]. apply list_elem_of_here.
  - intros Hg. apply list_elem_of_further, IH, Hg.
Qed.

Lemma get_None_keys m k : JsMap.get k m = None <-> k ∉ JsMap.keys m.
Proof.
  induction m as [|[k' v'] m IH]; simpl.
  - split; [intros _; apply not_elem_of_nil|done].
  - rewrite not_elem_of_cons. destruct (decide (k' = k)) as [->|Hne].
    + split; [done|]. by intros [? _].
    + rewrite IH. split; [by split|by intros [_ ?]].
Qed.

Lemma keys_delete m k : k ∉ JsMap.keys (JsMap.delete k m).
Proof. apply get_None_keys, get_delete_eq. Qed.

Lemma has_true m k : JsMap.has k m = true <-> is_Some (JsMap.get k m).
Proof.
  unfold JsMap.has. destruct (JsMap.get k m) as [v|].
  - split; [by eexists|done].
  - split; [done|]. by intros [? ?].
Qed.

Lemma delete_absent m k : JsMap.get k m = None -> JsMap.delete k m = m.
Proof.
  induction m as [|[k' v'] m IH]; simpl; [done|].
  destruct (decide (k' = k)); [done|]. intros Hg. by rewrite IH.
Qed.

End JsMapFacts.

(** ** Settled requests *)

Lemma sendToPatchright_sends frame clientId s x :
  x ∈ sendToPatchright frame clientId s -> exists ws, x = SendClient ws frame.
Proof.
  unfold sendToPatchright.
  destruct clientId as [cid|]; [destruct (truthyStr (Some cid))|].
  - destruct (JsMap.get cid (patchrightClients s)) as [client|].
    + intros ->%list_elem_of_singleton. by eexists.
    + by intros ?%not_elem_of_nil.
  - intros (client & -> & _)%list_elem_of_fmap. by eexists.
  - intros (client & -> & _)%list_elem_of_fmap. by eexists.
Qed.

Lemma resume_rejected_state k e s : fst (resume k (Rejected e) s) = s.
Proof. by destruct k. Qed.

Lemma resume_rejected_effects k e s x :
  x ∈ snd (resume k (Rejected e) s) -> isCloseWs x = false /\ isSendExtension x = false.
Proof.
  destruct k; simpl.
  - unfold routeFailed. intros [ws ->]%sendToPatchright_sends. done.
  - by intros ->%list_elem_of_singleton.
  - by intros ->%list_elem_of_singleton.
  - by intros ->%list_elem_of_singleton.
Qed.

Lemma drain_cons k o rest s :
  drain ((k, o) :: rest) s
  = (fst (drain rest (fst (resume k o s))),
     snd (resume k o s) ++ snd (drain rest (fst (resume k o s)))).
Proof.
  simpl. destruct (resume k o s) as [s1 e1]. simpl.
  by destruct (drain rest s1) as [s2 e2].
Qed.

Lemma drain_rejected_state e (konts : list Kont) s :
  fst (drain (map (fun k => (k, Rejected e)) konts) s) = s.
Proof.
  induction konts as [|k konts IH]; [done|].
  rewrite fmap_cons, drain_cons. simpl fst.
  by rewrite resume_rejected_state.
Qed.

Lemma drain_rejected_effects e (konts : list Kont) s x :
  x ∈ snd (drain (map (fun k => (k, Rejected e)) konts) s) ->
  isCloseWs x = false /\ isSendExtension x = false.
Proof.
  induction konts as [|k konts IH]; [by intros ?%not_elem_of_nil|].
  rewrite fmap_cons, drain_cons. simpl snd.
  rewrite resume_rejected_state.
  intros [Hx|Hx]%elem_of_app; [by eapply resume_rejected_effects|by apply IH].
Qed.

Lemma rejectAll_konts e pending :
  rejectAll e pending
  = map (fun k => (k, Rejected e)) (map pr_kont (JsMap.values pending)).
Proof. unfold rejectAll. by rewrite <- list_fmap_compose. Qed.

Lemma step_unfold now ev s :
  step now ev s
  = (fst (drain (snd (handle now ev s)) (fst (fst (handle now ev s)))),
     snd (fst (handle now ev s))
     ++ snd (drain (snd (handle now ev s)) (fst (fst (handle now ev s))))).
Proof.
  unfold step. destruct (handle now ev s) as [[s1 e1] settled]. simpl.
  by destruct (drain settled s1).
Qed.

Lemma run_cons now ev rest s :
  run ((now, ev) :: rest) s
  = (fst (run rest (fst (step now ev s))),
     snd (step now ev s) ++ snd (run rest (fst (step now ev s)))).
Proof.
  simpl. destruct (step now ev s) as [s1 e1]. simpl.
  by destruct (run rest s1).
Qed.

(** ** Duplicate client ids *)

(** A second connection under a registered id is turned away at
    [onOpen]: its socket is closed and the registry is left as it was. *)
Lemma clientOnOpen_duplicate now clientId ws s :
  JsMap.has clientId (patchrightClients s) = true ->
  step now (OnClientOpen clientId ws) s
  = (markActivity now s, [CloseWs ws 1000 "Client ID already connected"]).
Proof.
  intros Hhas. rewrite step_unfold. simpl. unfold clientOnOpen. simpl.
  by rewrite Hhas.
Qed.

(** When the socket that was turned away closes, its [onClose] deletes
    the registry entry of the connection that owns the id. *)
Lemma clientOnClose_unregisters now clientId ws s :
  JsMap.get clientId (patchrightClients (fst (step now (OnClientClose clientId ws) s))) = None.
Proof. rewrite step_unfold. simpl. apply get_delete_eq. Qed.

(** C2 (code defect): two connections open with the id ["a"].  The second
    is rejected with the duplicate-id reason and the first is still
    registered at that point; but once the rejected socket has closed,
    the first connection is no longer in the client registry, and the
    command it sends next gets no reply. *)
Theorem C2_rejected_close_unregisters_first :
  snd (run duplicateTrace relay0) = [CloseWs 2%nat 1000 "Client ID already connected"]
  /\ pc_ws <$> JsMap.get "a" (patchrightClients (fst (run (take 3 duplicateTrace) relay0)))
     = Some 1%nat
  /\ JsMap.get "a" (patchrightClients (fst (run duplicateTrace relay0))) = None
  /\ snd (step 5%nat (OnClientMessage "a" 1%nat (Some getVersionCmd))
            (fst (run duplicateTrace relay0))) = [].
Proof. repeat split; vm_compute; reflexivity. Qed.

(** ** The extension connection closes *)

Lemma extensionOnClose_current now ws s :
  extensionWs s = Some ws ->
  extensionOnClose now ws s
  = (setClients [] (setNamedPages [] (setTargets []
       (setExtensionWs None (setPending [] (markActivity now s))))),
     map (fun client => CloseWs (pc_ws client) 1000 "Extension disconnected")
       (JsMap.values (patchrightClients s)),
     rejectAll ErrClosed (extensionPendingRequests s)).
Proof.
  intros Hws. unfold extensionOnClose. simpl. rewrite Hws.
  by rewrite decide_True.
Qed.

Lemma step_extensionOnClose_state now ws s :
  extensionWs s = Some ws ->
  fst (step now (OnExtensionClose ws) s)
  = setClients [] (setNamedPages [] (setTargets []
      (setExtensionWs None (setPending [] (markActivity now s))))).
Proof.
  intros Hws. rewrite step_unfold. simpl handle.
  rewrite (extensionOnClose_current _ _ _ Hws). simpl fst. simpl snd.
  by rewrite rejectAll_konts, drain_rejected_state.
Qed.

(** C6: when the connected extension socket closes, every pending request
    is rejected with the connection-closed error in that same turn, the
    pending map is empty afterwards, and the timers of the failed
    requests do nothing when their time comes. *)
Theorem C6_close_fails_all_pending now ws s :
  extensionWs s = Some ws ->
  snd (handle now (OnExtensionClose ws) s)
  = map (fun p => (pr_kont p, Rejected ErrClosed))
      (JsMap.values (extensionPendingRequests s))
  /\ (forall id p, JsMap.get id (extensionPendingRequests s) = Some p ->
        (pr_kont p, Rejected ErrClosed) ∈ snd (handle now (OnExtensionClose ws) s))
  /\ errorMessage ErrClosed = "Extension connection closed"
  /\ extensionPendingRequests (fst (step now (OnExtensionClose ws) s)) = []
  /\ (forall now' id,
        step now' (OnRequestTimeout id) (fst (step now (OnExtensionClose ws) s))
        = (fst (step now (OnExtensionClose ws) s), [])).
Proof.
  intros Hws. simpl handle. rewrite (extensionOnClose_current _ _ _ Hws).
  rewrite (step_extensionOnClose_state _ _ _ Hws). simpl.
  repeat split.
  intros id p Hget. unfold rejectAll.
  apply (list_elem_of_fmap_2 (fun p => (pr_kont p, Rejected ErrClosed))).
  by eapply get_Some_values.
Qed.

Lemma C6_close_fails_all_pending_witness :
  extensionWs busyRelay = Some 9%nat
  /\ JsMap.keys (extensionPendingRequests busyRelay) = [1]
  /\ extensionPendingRequests (fst (step 5%nat (OnExtensionClose 9%nat) busyRelay)) = [].
Proof.
  split; [reflexivity|]. split; [reflexivity|].
  apply (C6_close_fails_all_pending 5%nat 9%nat busyRelay). reflexivity.
Defined.

(** ** Frames that are not JSON *)

Lemma extensionOnClose_none now ws s :
  extensionWs s = None ->
  extensionOnClose now ws s
  = (setClients [] (setNamedPages [] (setTargets []
       (setExtensionWs None (setPending [] (markActivity now s))))),
     map (fun client => CloseWs (pc_ws client) 1000 "Extension disconnected")
       (JsMap.values (patchrightClients s)),
     rejectAll ErrClosed (extensionPendingRequests s)).
Proof. intros Hws. unfold extensionOnClose. simpl. by rewrite Hws. Qed.

Lemma extensionOnClose_other now ws cur s :
  extensionWs s = Some cur ->
  cur <> ws ->
  step now (OnExtensionClose ws) s = (markActivity now s, []).
Proof.
  intros Hws Hne. rewrite step_unfold. simpl. unfold extensionOnClose. simpl.
  by rewrite Hws, decide_False.
Qed.




(** ** Deleting a named page *)

Lemma createPage_connected now req name ext s :
  extensionWs s = Some ext ->
  createPage now req name s
  = (setPending (JsMap.set (extensionMessageId s + 1)
                   (mkPendingRequest "forwardCDPCommand" defaultTimeout (KPageCreate req name))
                   (extensionPendingRequests s))
       (setMessageId (extensionMessageId s + 1) (markActivity now s)),
     [SendExtension ext
        (mkExtensionCommand (extensionMessageId s + 1) "forwardCDPCommand" createCommand)],
     []).
Proof. intros Hws. unfold createPage, sendToExtension. by rewrite Hws. Qed.

Lemma truthy_VStr name : name <> "" -> truthy (VStr name) = true.
Proof. intros Hne. simpl. by apply negb_true_iff, String.eqb_neq. Qed.

Lemma truthyStr_Some x : x <> "" -> truthyStr (Some x) = true.
Proof. intros Hne. simpl. by apply negb_true_iff, String.eqb_neq. Qed.

(** From [const name = body.name] on, for a body whose [name] is a
    non-empty string. *)
Lemma postPages_named now req body name s :
  getField body "name" = Some (VStr name) ->
  name <> "" ->
  postPages now req (Some body) s
  = match JsMap.get name (namedPages s) with
    | Some existingSessionId =>
        if truthyStr (Some existingSessionId) then
          match JsMap.get existingSessionId (connectedTargets s) with
          | Some target =>
              match sendToExtension now "forwardCDPCommand" (activateCommand target)
                      defaultTimeout (KPageActivate req name (mkTargetRef target true))
                      (markActivity now s) with
              | Some (s2, e) => (s2, e, [])
              | None =>
                  (markActivity now s, [HttpReply req 500 (VStr "Internal Server Error")], [])
              end
          | None =>
              createPage now req name
                (setNamedPages (JsMap.delete name (namedPages s)) (markActivity now s))
          end
        else createPage now req name (markActivity now s)
    | None => createPage now req name (markActivity now s)
    end.
Proof.
  intros Hbody Hname. unfold postPages. cbv zeta.
  change (default (VObj []) (Some body)) with body. rewrite Hbody.
  by rewrite (truthy_VStr _ Hname).
Qed.

Lemma postPages_unbound now req body name s :
  getField body "name" = Some (VStr name) ->
  name <> "" ->
  JsMap.get name (namedPages s) = None ->
  postPages now req (Some body) s = createPage now req name (markActivity now s).
Proof. intros Hbody Hname Hget. by rewrite (postPages_named _ _ _ name), Hget. Qed.

(** C9: [DELETE /pages/:name] removes that name from the named pages and
    nothing else, in every state: the other names keep their sessions,
    the target registry, the clients, the pending requests and the
    extension connection are as before, the only effect is the HTTP
    reply (no command goes to the extension), and the name is gone from
    the listing of [GET /pages].  The next [POST /pages] for the name,
    with an extension connected and the name not empty, forwards a
    [Target.createTarget] for a blank tab under the next request id,
    whatever the name was bound to before the delete. *)
Theorem C9_delete_page now now' req req' name s :
  let s1 := fst (step now (OnDeletePage req name) s) in
  snd (step now (OnDeletePage req name) s)
  = [HttpReply req 200 (VObj [("success", VBool (JsMap.has name (namedPages s)))])]
  /\ namedPages s1 = JsMap.delete name (namedPages s)
  /\ (forall other, other <> name ->
        JsMap.get other (namedPages s1) = JsMap.get other (namedPages s))
  /\ JsMap.get name (namedPages s1) = None
  /\ connectedTargets s1 = connectedTargets s
  /\ patchrightClients s1 = patchrightClients s
  /\ extensionPendingRequests s1 = extensionPendingRequests s
  /\ extensionMessageId s1 = extensionMessageId s
  /\ extensionWs s1 = extensionWs s
  /\ snd (step now' (OnGetPages req') s1)
     = [HttpReply req' 200
          (VObj [("pages", VArr (map VStr (map fst (JsMap.delete name (namedPages s)))))])]
  /\ (name ∉ map fst (JsMap.delete name (namedPages s)))
  /\ forall ext body,
       extensionWs s = Some ext ->
       name <> "" ->
       getField body "name" = Some (VStr name) ->
       snd (step now' (OnPostPages req' (Some body)) s1)
       = [SendExtension ext
            (mkExtensionCommand (extensionMessageId s + 1) "forwardCDPCommand"
               (VObj [("method", VStr "Target.createTarget");
                      ("params", VObj [("url", VStr "about:blank")])]))].
Proof.
  intros s1.
  assert (Hs1 : s1 = setNamedPages (JsMap.delete name (namedPages s)) (markActivity now s))
    by done.
  split; [done|]. rewrite Hs1. simpl.
  split; [done|]. split; [intros other Hne; by apply get_delete_ne|].
  split; [apply get_delete_eq|]. do 5 (split; [done|]).
  split; [done|]. split; [apply keys_delete|].
  intros ext body Hws Hname Hbody.
  rewrite step_unfold. cbn [handle].
  rewrite (postPages_unbound _ _ _ name) by (done || apply get_delete_eq).
  erewrite createPage_connected by (simpl; exact Hws). done.
Qed.

Lemma C9_delete_page_witness :
  JsMap.get "demo" (namedPages pagedRelay) = Some "s2"
  /\ JsMap.keys (connectedTargets pagedRelay) = ["s1"; "s2"]
  /\ namedPages (fst (step 6%nat (OnDeletePage 2%nat "demo") pagedRelay)) = []
  /\ snd (step 7%nat (OnPostPages 3%nat (Some (VObj [("name", VStr "demo")])))
            (fst (step 6%nat (OnDeletePage 2%nat "demo") pagedRelay)))
     = [SendExtension 9%nat
          (mkExtensionCommand 4 "forwardCDPCommand"
             (VObj [("method", VStr "Target.createTarget");
                    ("params", VObj [("url", VStr "about:blank")])]))].
Proof.
  split; [vm_compute; reflexivity|]. split; [vm_compute; reflexivity|].
  destruct (C9_delete_page 6%nat 7%nat 2%nat 3%nat "demo" pagedRelay)
    as (_ & Hnames & _ & _ & _ & _ & _ & _ & _ & _ & _ & Hpost).
  split; [rewrite Hnames; vm_compute; reflexivity|].
  rewrite (Hpost 9%nat (VObj [("name", VStr "demo")])); [|vm_compute; reflexivity|done|done].
  vm_compute; reflexivity.
Defined.

(** ** Attachment notifications write to clients only *)

Lemma notifyClient_ws target w client :
  pc_ws (fst (notifyClient target w client)) = pc_ws client.
Proof. unfold notifyClient. by case_bool_decide. Qed.

Lemma notifyClient_effects target w client x :
  x ∈ snd (notifyClient target w client) ->
  x = SendClient (pc_ws client) (attachedEvent target w).
Proof.
  unfold notifyClient. case_bool_decide; simpl.
  - by intros ?%not_elem_of_nil.
  - by intros ->%list_elem_of_singleton.
Qed.

Lemma notifyAll_unfold target w k client rest :
  notifyAll target w ((k, client) :: rest)
  = ((k, fst (notifyClient target w client)) :: fst (notifyAll target w rest),
     snd (notifyClient target w client) ++ snd (notifyAll target w rest)).
Proof.
  simpl. destruct (notifyClient target w client).
  by destruct (notifyAll target w rest).
Qed.

Lemma notifyAll_get target w clients k :
  JsMap.get k (fst (notifyAll target w clients))
  = (fun client => fst (notifyClient target w client)) <$> JsMap.get k clients.
Proof.
  induction clients as [|[k' client] rest IH]; [done|].
  rewrite notifyAll_unfold. simpl. by destruct (decide (k' = k)).
Qed.

Lemma notifyAll_effects target w clients x :
  x ∈ snd (notifyAll target w clients) ->
  exists ws, x = SendClient ws (attachedEvent target w).
Proof.
  induction clients as [|[k' client] rest IH].
  - by intros ?%not_elem_of_nil.
  - rewrite notifyAll_unfold. simpl.
    intros [Hx|Hx]%elem_of_app; [|by apply IH].
    apply notifyClient_effects in Hx. by eexists.
Qed.

Lemma sendAttachedToTarget_unfold target clientId w clients :
  sendAttachedToTarget target clientId w clients
  = if truthyStr clientId then
      match clientId ≫= fun cid => JsMap.get cid clients with
      | Some client =>
          (JsMap.set (default "" clientId) (fst (notifyClient target w client)) clients,
           snd (notifyClient target w client))
      | None => (clients, [])
      end
    else notifyAll target w clients.
Proof.
  unfold sendAttachedToTarget. destruct clientId as [cid|]; [|done].
  destruct (truthyStr (Some cid)); [|done]. simpl.
  destruct (JsMap.get cid clients) as [client|]; [|done].
  by destruct (notifyClient target w client).
Qed.

Lemma sendAttachedToTarget_ws target clientId w clients k :
  pc_ws <$> JsMap.get k (fst (sendAttachedToTarget target clientId w clients))
  = pc_ws <$> JsMap.get k clients.
Proof.
  rewrite sendAttachedToTarget_unfold. destruct (truthyStr clientId).
  - destruct clientId as [cid|]; simpl; [|done].
    destruct (JsMap.get cid clients) as [client|] eqn:Hget; simpl; [|done].
    destruct (decide (cid = k)) as [->|Hne].
    + by rewrite get_set_eq, Hget; simpl; rewrite notifyClient_ws.
    + by rewrite get_set_ne.
  - rewrite notifyAll_get. destruct (JsMap.get k clients); simpl; [|done].
    by rewrite notifyClient_ws.
Qed.

Lemma sendAttachedToTarget_effects target clientId w clients x :
  x ∈ snd (sendAttachedToTarget target clientId w clients) ->
  exists ws, x = SendClient ws (attachedEvent target w).
Proof.
  rewrite sendAttachedToTarget_unfold. destruct (truthyStr clientId).
  - destruct (clientId ≫= _) as [client|]; simpl.
    + intros Hx%notifyClient_effects. by eexists.
    + by intros ?%not_elem_of_nil.
  - apply notifyAll_effects.
Qed.

Lemma attachPass_unfold target rest clientId clients :
  attachPass (target :: rest) clientId clients
  = (fst (attachPass rest clientId (fst (sendAttachedToTarget target clientId false clients))),
     snd (sendAttachedToTarget target clientId false clients)
     ++ snd (attachPass rest clientId (fst (sendAttachedToTarget target clientId false clients)))).
Proof.
  simpl. destruct (sendAttachedToTarget target clientId false clients) as [c1 e1].
  simpl. by destruct (attachPass rest clientId c1).
Qed.

Lemma attachPass_ws targets clientId clients k :
  pc_ws <$> JsMap.get k (fst (attachPass targets clientId clients))
  = pc_ws <$> JsMap.get k clients.
Proof.
  revert clients. induction targets as [|target rest IH]; intros clients; [done|].
  rewrite attachPass_unfold. simpl. by rewrite IH, sendAttachedToTarget_ws.
Qed.

Lemma attachPass_effects targets clientId clients x :
  x ∈ snd (attachPass targets clientId clients) -> isSendClient x.
Proof.
  revert clients. induction targets as [|target rest IH]; intros clients.
  - by intros ?%not_elem_of_nil.
  - rewrite attachPass_unfold. simpl.
    intros [Hx|Hx]%elem_of_app; [|by eapply IH].
    apply sendAttachedToTarget_effects in Hx as [ws ->]. by do 2 eexists.
Qed.

Lemma sendToPatchright_isSendClient frame clientId s x :
  x ∈ sendToPatchright frame clientId s -> isSendClient x.
Proof. intros [ws ->]%sendToPatchright_sends. by do 2 eexists. Qed.

Lemma sendToPatchright_clients frame clientId s s' :
  patchrightClients s' = patchrightClients s ->
  sendToPatchright frame clientId s' = sendToPatchright frame clientId s.
Proof. intros Heq. unfold sendToPatchright. by rewrite Heq. Qed.

Lemma sendToPatchright_registered frame clientId client s :
  clientId <> "" ->
  JsMap.get clientId (patchrightClients s) = Some client ->
  sendToPatchright frame (Some clientId) s = [SendClient (pc_ws client) frame].
Proof.
  intros Hne Hget. unfold sendToPatchright.
  by rewrite (truthyStr_Some _ Hne), Hget.
Qed.

(** ** The command router *)

Lemma elem_of_concat_map {A B : Type} (P : B -> Prop) (f : A -> list B) (l : list A) :
  (forall a y, y ∈ f a -> P y) -> forall x, x ∈ concat (map f l) -> P x.
Proof.
  intros Hf x. induction l as [|a l IH]; cbn [map concat].
  - by intros ?%not_elem_of_nil.
  - intros [Hx|Hx]%elem_of_app; [by eapply Hf|by apply IH].
Qed.

Lemma afterRoute_spec clientId cmd result s :
  exists clients' pre,
    afterRoute clientId cmd result s
    = (setClients clients' s,
       pre ++ sendToPatchright (CDPResult (cmd_id cmd) (cmd_sessionId cmd) result)
                (Some clientId) (setClients clients' s))
    /\ (forall k, pc_ws <$> JsMap.get k clients' = pc_ws <$> JsMap.get k (patchrightClients s))
    /\ (forall x, x ∈ pre -> isSendClient x).
Proof.
  unfold afterRoute.
  destruct (if bool_decide (cmd_method cmd = "Target.setAutoAttach")
               && negb (truthyStr (cmd_sessionId cmd))
            then attachPass (JsMap.values (connectedTargets s)) (Some clientId)
                   (patchrightClients s)
            else (patchrightClients s, [])) as [clients1 e1] eqn:H1.
  assert (Hws1 : forall k, pc_ws <$> JsMap.get k clients1
                           = pc_ws <$> JsMap.get k (patchrightClients s)).
  { intros k. destruct (_ && _) in H1.
    - replace clients1 with
        (fst (attachPass (JsMap.values (connectedTargets s)) (Some clientId)
                (patchrightClients s))) by (by rewrite H1).
      apply attachPass_ws.
    - by injection H1 as <- _. }
  assert (He1 : forall x, x ∈ e1 -> isSendClient x).
  { intros x Hx. destruct (_ && _) in H1.
    - eapply attachPass_effects. by rewrite H1.
    - injection H1 as _ <-. by apply not_elem_of_nil in Hx. }
  cbv zeta.
  set (s1 := setClients clients1 s).
  set (e2 := if _ && _ then _ else []).
  assert (He2 : forall x, x ∈ e2 -> isSendClient x).
  { intros x. unfold e2.
    destruct (bool_decide (cmd_method cmd = "Target.setDiscoverTargets") && _);
      [|by intros ?%not_elem_of_nil].
    apply elem_of_concat_map. intros target y Hy.
    by eapply sendToPatchright_isSendClient. }
  destruct (if bool_decide (cmd_method cmd = "Target.attachToTarget")
               && truthy (optField result "sessionId")
            then match findByTargetId (optField (cmd_params cmd) "targetId")
                         (connectedTargets s1) with
                 | Some target =>
                     sendAttachedToTarget target (Some clientId) false (patchrightClients s1)
                 | None => (patchrightClients s1, [])
                 end
            else (patchrightClients s1, [])) as [clients3 e3] eqn:H3.
  assert (Hws3 : forall k, pc_ws <$> JsMap.get k clients3 = pc_ws <$> JsMap.get k clients1).
  { intros k. destruct (_ && _) in H3; [|by injection H3 as <- _].
    destruct (findByTargetId _ _) as [target|] in H3; [|by injection H3 as <- _].
    replace clients3 with
      (fst (sendAttachedToTarget target (Some clientId) false (patchrightClients s1)))
      by (by rewrite H3).
    apply sendAttachedToTarget_ws. }
  assert (He3 : forall x, x ∈ e3 -> isSendClient x).
  { intros x Hx. destruct (_ && _) in H3;
      [|injection H3 as _ <-; by apply not_elem_of_nil in Hx].
    destruct (findByTargetId _ _) as [target|] in H3;
      [|injection H3 as _ <-; by apply not_elem_of_nil in Hx].
    assert (Hx' : x ∈ snd (sendAttachedToTarget target (Some clientId) false
                             (patchrightClients s1))) by (by rewrite H3).
    apply sendAttachedToTarget_effects in Hx' as [ws ->]. by do 2 eexists. }
  exists clients3, (e1 ++ e2 ++ e3). split; [|split].
  - f_equal. by rewrite <- !app_assoc.
  - intros k. by rewrite Hws3, Hws1.
  - intros x [Hx|[Hx|Hx]%elem_of_app]%elem_of_app; auto.
Qed.

Lemma emulated_is_local method params sessionId s :
  method ∈ emulatedMethods ->
  exists result, routeCdpCommand method params sessionId s = Local result.
Proof.
  unfold emulatedMethods. intros Hin.
  repeat (apply elem_of_cons in Hin as [->|Hin]);
    [..|by apply not_elem_of_nil in Hin];
    unfold routeCdpCommand; simpl; try (eexists; reflexivity).
  - destruct (truthy _); [|by eexists].
    destruct (findByTargetId _ _); by eexists.
  - destruct (truthy _); [|by eexists].
    destruct (findByTargetId _ _); by eexists.
Qed.

(** With no extension connected the client [onMessage] answers every
    parsed command, emulated or not, with the not-connected error. *)
Lemma clientOnMessage_not_connected now clientId ws cmd s :
  extensionWs s = None ->
  step now (OnClientMessage clientId ws (Some cmd)) s
  = (markActivity now s, routeFailed clientId cmd ErrNotConnected s).
Proof.
  intros Hws. rewrite step_unfold. simpl handle. unfold clientOnMessage.
  simpl extensionWs. rewrite Hws. simpl. by rewrite app_nil_r.
Qed.

(** C4 (as the code has it): while an extension is connected, a command
    whose method is in the emulation table is answered from the relay's
    own state: the router returns a local result, the turn writes nothing
    to the extension and leaves the pending requests and the request
    counter alone, and its last effect is the reply to the client.  With
    no extension connected every command, emulated ones included, is
    answered with the not-connected error before the router is asked. *)
Theorem C4_emulated_when_connected now clientId ws cmd s :
  (cmd_method cmd ∈ emulatedMethods ->
   forall ext, extensionWs s = Some ext ->
     (exists result,
        routeCdpCommand (cmd_method cmd) (cmd_params cmd) (cmd_sessionId cmd) s
        = Local result
        /\ forall client, clientId <> "" ->
             JsMap.get clientId (patchrightClients s) = Some client ->
             last (snd (step now (OnClientMessage clientId ws (Some cmd)) s))
             = Some (SendClient (pc_ws client)
                       (CDPResult (cmd_id cmd) (cmd_sessionId cmd) result)))
     /\ (forall x, x ∈ snd (step now (OnClientMessage clientId ws (Some cmd)) s) ->
           isSendExtension x = false)
     /\ extensionPendingRequests (fst (step now (OnClientMessage clientId ws (Some cmd)) s))
        = extensionPendingRequests s
     /\ extensionMessageId (fst (step now (OnClientMessage clientId ws (Some cmd)) s))
        = extensionMessageId s)
  /\ (extensionWs s = None ->
      step now (OnClientMessage clientId ws (Some cmd)) s
      = (markActivity now s,
         sendToPatchright
           (CDPError (cmd_id cmd) (cmd_sessionId cmd) "Extension not connected")
           (Some clientId) s)).
Proof.
  split; [|apply clientOnMessage_not_connected].
  intros Hemu ext Hws.
  destruct (emulated_is_local _ (cmd_params cmd) (cmd_sessionId cmd) s Hemu)
    as [result Hroute].
  assert (Hroute' :
    routeCdpCommand (cmd_method cmd) (cmd_params cmd) (cmd_sessionId cmd) (markActivity now s)
    = Local result) by exact Hroute.
  destruct (afterRoute_spec clientId cmd result (markActivity now s))
    as (clients' & pre & Hafter & Hws' & Hpre).
  assert (Hstep : step now (OnClientMessage clientId ws (Some cmd)) s
                  = afterRoute clientId cmd result (markActivity now s)).
  { rewrite step_unfold. simpl handle. unfold clientOnMessage.
    simpl extensionWs. rewrite Hws, Hroute'.
    destruct (afterRoute _ _ _ _) as [s2 e2]. simpl. by rewrite app_nil_r. }
  rewrite Hstep, Hafter. cbn [fst snd].
  split; [|split; [|done]].
  - exists result. split; [done|]. intros client Hne Hget.
    specialize (Hws' clientId). simpl in Hws'. rewrite Hget in Hws'.
    destruct (JsMap.get clientId clients') as [client'|] eqn:Hget'; [|done].
    injection Hws' as Hws'.
    erewrite sendToPatchright_registered by (done || exact Hget').
    rewrite last_snoc. by rewrite Hws'.
  - intros x [Hx|Hx]%elem_of_app.
    + by destruct (Hpre x Hx) as (w & frame & ->).
    + by apply sendToPatchright_sends in Hx as [w ->].
Qed.

Lemma C4_emulated_when_connected_witness :
  extensionWs busyRelay = Some 9%nat
  /\ extensionWs lonelyClient = None
  /\ last (snd (step 5%nat (OnClientMessage "a" 1%nat (Some getVersionCmd)) busyRelay))
     = Some (SendClient 1%nat (CDPResult 1 None versionDescriptor))
  /\ snd (step 5%nat (OnClientMessage "a" 1%nat (Some getVersionCmd)) lonelyClient)
     = [SendClient 1%nat (CDPError 1 None "Extension not connected")].
Proof.
  split; [reflexivity|]. split; [reflexivity|].
  destruct (C4_emulated_when_connected 5%nat "a" 1%nat getVersionCmd busyRelay)
    as [Hconnected _].
  destruct (C4_emulated_when_connected 5%nat "a" 1%nat getVersionCmd lonelyClient)
    as [_ Hnone].
  split.
  - destruct (Hconnected ltac:(vm_compute; apply list_elem_of_here) 9%nat eq_refl)
      as ((result & Hroute & Hlast) & _).
    injection Hroute as <-.
    apply (Hlast (mkPatchrightClient "a" 1%nat {["T1"]})); [done|reflexivity].
  - rewrite (Hnone eq_refl). reflexivity.
Defined.

(** C4 (as the specification words it) fails on [lonelyClient]: no
    extension is connected, the client asks for [Browser.getVersion],
    which the router answers locally, and is told that the extension is not
    connected. *)
Lemma C4_not_connected_counterexample :
  ~ notConnectedOnlyWhenForwarding 5%nat "a" 1%nat getVersionCmd lonelyClient.
Proof.
  intros Hclaim. destruct Hclaim as [params Hroute].
  - exists 1%nat. vm_compute. apply list_elem_of_here.
  - discriminate Hroute.
Qed.

(** ** Request ids are never reused *)

Lemma get_delete_Some {K V : Type} `{EqDecision K} (m : JsMap.t K V) k k' v :
  JsMap.get k' (JsMap.delete k m) = Some v -> JsMap.get k' m = Some v.
Proof.
  destruct (decide (k = k')) as [->|Hne].
  - by rewrite get_delete_eq.
  - by rewrite get_delete_ne.
Qed.

Lemma get_mapRefs f pending id :
  JsMap.get id (mapRefs f pending)
  = (fun p => mkPendingRequest (pr_method p) (pr_timeout p) (onRef f (pr_kont p)))
      <$> JsMap.get id pending.
Proof.
  induction pending as [|[k p] rest IH]; [done|]. simpl.
  destruct (decide (k = id)); [done|apply IH].
Qed.

Lemma keys_mapRefs f pending : JsMap.keys (mapRefs f pending) = JsMap.keys pending.
Proof. unfold JsMap.keys, mapRefs. rewrite <- list_fmap_compose. by apply list_fmap_ext. Qed.

Lemma pendingStep_refl s : pendingStep s s.
Proof. split; [lia|]. intros id p Hget. left. by exists p. Qed.

Lemma pendingStep_trans s1 s2 s3 : pendingStep s1 s2 -> pendingStep s2 s3 -> pendingStep s1 s3.
Proof.
  intros [Hle12 H12] [Hle23 H23]. split; [lia|].
  intros id p Hget. destruct (H23 id p Hget) as [(p2 & Hold & Ht & Hm)|(Hlt & Hle & Hrec)].
  - destruct (H12 id p2 Hold) as [(p1 & Hold1 & Ht1 & Hm1)|(? & ? & ? & ?)].
    + left. exists p1. split; [done|]. split; congruence.
    + right. split; [done|]. split; [lia|]. split; congruence.
  - right. split; [lia|]. split; [lia|tauto].
Qed.

Lemma pendingStep_same s s' :
  extensionPendingRequests s' = extensionPendingRequests s ->
  extensionMessageId s' = extensionMessageId s ->
  pendingStep s s'.
Proof.
  intros Hp Hm. split; [lia|]. intros id p. rewrite Hp. left. by exists p.
Qed.

Lemma pendingStep_shrink s s' :
  (forall id p, JsMap.get id (extensionPendingRequests s') = Some p ->
                JsMap.get id (extensionPendingRequests s) = Some p) ->
  extensionMessageId s' = extensionMessageId s ->
  pendingStep s s'.
Proof.
  intros Hp Hm. split; [lia|]. intros id p Hget. left. exists p. split; [by apply Hp|done].
Qed.

Lemma pendingStep_refs f s s' :
  extensionPendingRequests s' = mapRefs f (extensionPendingRequests s) ->
  extensionMessageId s' = extensionMessageId s ->
  pendingStep s s'.
Proof.
  intros Hp Hm. split; [lia|]. intros id p. rewrite Hp, get_mapRefs.
  destruct (JsMap.get id (extensionPendingRequests s)) as [p0|]; [|done].
  intros [= <-]. left. by exists p0.
Qed.

Lemma sendToExtension_pendingStep now params k s s' e :
  sendToExtension now "forwardCDPCommand" params defaultTimeout k s = Some (s', e) ->
  pendingStep s s'.
Proof.
  unfold sendToExtension. destruct (extensionWs s); [|done].
  intros [= <- _]. split; simpl; [lia|].
  intros id p. destruct (decide (extensionMessageId s + 1 = id)) as [<-|Hne].
  - rewrite get_set_eq. intros [= <-]. right. simpl. split; [lia|]. split; [lia|done].
  - rewrite get_set_ne by done. intros Hget. left. by exists p.
Qed.

Lemma sendToExtension_pendingStep_from now params k s0 s s' e :
  extensionPendingRequests s = extensionPendingRequests s0 ->
  extensionMessageId s = extensionMessageId s0 ->
  sendToExtension now "forwardCDPCommand" params defaultTimeout k s = Some (s', e) ->
  pendingStep s0 s'.
Proof.
  intros Hp Hm Hsend. eapply pendingStep_trans; [|by eapply sendToExtension_pendingStep].
  by apply pendingStep_same.
Qed.

Lemma afterRoute_pendingStep clientId cmd result s :
  pendingStep s (fst (afterRoute clientId cmd result s)).
Proof.
  destruct (afterRoute_spec clientId cmd result s) as (clients' & pre & -> & _).
  by apply pendingStep_same.
Qed.

Lemma resume_pendingStep k o s : pendingStep s (fst (resume k o s)).
Proof.
  destruct k, o; simpl; try (by apply pendingStep_same).
  apply afterRoute_pendingStep.
Qed.

Lemma drain_pendingStep settled s : pendingStep s (fst (drain settled s)).
Proof.
  revert s. induction settled as [|[k o] rest IH]; intros s.
  - apply pendingStep_refl.
  - rewrite drain_cons. simpl.
    eapply pendingStep_trans; [apply resume_pendingStep|apply IH].
Qed.

Lemma clientOnMessage_pendingStep now clientId data s :
  pendingStep s (fst (fst (clientOnMessage now clientId data s))).
Proof.
  unfold clientOnMessage. destruct data as [cmd|]; [|by apply pendingStep_same].
  destruct (extensionWs (markActivity now s)); [|by apply pendingStep_same].
  destruct (routeCdpCommand _ _ _ _) as [result|params].
  - pose proof (afterRoute_pendingStep clientId cmd result (markActivity now s)) as Hstep.
    destruct (afterRoute _ _ _ _) as [s2 e]. simpl in *.
    eapply pendingStep_trans; [|exact Hstep]. by apply pendingStep_same.
  - destruct (sendToExtension _ _ _ _ _ _) as [[s2 e]|] eqn:Hsend;
      [|by apply pendingStep_same].
    simpl. by eapply sendToExtension_pendingStep_from; [| |exact Hsend].
Qed.

Lemma onForwardedEvent_pendingStep ev s : pendingStep s (fst (onForwardedEvent ev s)).
Proof.
  destruct ev; unfold onForwardedEvent; cbv zeta.
  - destruct (sendAttachedToTarget _ _ _ _). by eapply pendingStep_refs.
  - by eapply pendingStep_refs.
  - cbn [fst]. unfold updateHeldInfo.
    destruct (JsMap.findEntry _ _) as [[sid target]|] eqn:Hfind.
    + by eapply pendingStep_refs.
    + by apply pendingStep_same.
  - by apply pendingStep_same.
Qed.

Lemma extensionOnMessage_pendingStep now ws data s :
  pendingStep s (fst (fst (extensionOnMessage now ws data s))).
Proof.
  unfold extensionOnMessage. destruct data as [[id result error| |ev]|];
    try (by apply pendingStep_same).
  - destruct (JsMap.get id _) eqn:Hget; [|by apply pendingStep_same].
    simpl. apply pendingStep_shrink; [|done]. simpl. intros id' p'. apply get_delete_Some.
  - pose proof (onForwardedEvent_pendingStep ev (markActivity now s)) as Hstep.
    destruct (onForwardedEvent _ _) as [s2 e]. simpl in *.
    eapply pendingStep_trans; [|exact Hstep]. by apply pendingStep_same.
Qed.

Lemma createPage_pendingStep now req name s0 s :
  extensionPendingRequests s = extensionPendingRequests s0 ->
  extensionMessageId s = extensionMessageId s0 ->
  pendingStep s0 (fst (fst (createPage now req name s))).
Proof.
  intros Hp Hm. unfold createPage.
  destruct (extensionWs s); [|by apply pendingStep_same].
  destruct (sendToExtension _ _ _ _ _ _) as [[s2 e]|] eqn:Hsend;
    [|by apply pendingStep_same].
  simpl. by eapply sendToExtension_pendingStep_from; [| |exact Hsend].
Qed.

Lemma postPages_pendingStep now req data s :
  pendingStep s (fst (fst (postPages now req data s))).
Proof.
  unfold postPages. cbv zeta. destruct (getField _ _) as [name|]; [|by apply pendingStep_same].
  destruct name; try (by apply pendingStep_same).
  destruct (truthy _); [|by apply pendingStep_same].
  destruct (JsMap.get _ (namedPages _)) as [sid|]; [|by apply createPage_pendingStep].
  destruct (truthyStr _); [|by apply createPage_pendingStep].
  destruct (JsMap.get sid _) as [target|]; [|by apply createPage_pendingStep].
  destruct (sendToExtension _ _ _ _ _ _) as [[s2 e]|] eqn:Hsend;
    [|by apply pendingStep_same].
  simpl. by eapply sendToExtension_pendingStep_from; [| |exact Hsend].
Qed.

Lemma pageWake_pendingStep now req s :
  pendingStep s (fst (fst (pageWake now req s))).
Proof.
  unfold pageWake. destruct (JsMap.get req _) as [[name result]|];
    [|apply pendingStep_refl].
  destruct (connectedTargets _); [by apply pendingStep_same|].
  destruct (getField _ _); [|by apply pendingStep_same].
  destruct (JsMap.findEntry _ _) as [[sid target]|]; [|by apply pendingStep_same].
  destruct (sendToExtension _ _ _ _ _ _) as [[s2 e]|] eqn:Hsend;
    [|by apply pendingStep_same].
  simpl. by eapply sendToExtension_pendingStep_from; [| |exact Hsend].
Qed.

Lemma handle_pendingStep now ev s : pendingStep s (fst (fst (handle now ev s))).
Proof.
  destruct ev; simpl.
  - unfold clientOnOpen. destruct (JsMap.has _ _); by apply pendingStep_same.
  - apply clientOnMessage_pendingStep.
  - by apply pendingStep_same.
  - unfold extensionOnOpen. destruct (extensionWs _); [|by apply pendingStep_same].
    by apply pendingStep_shrink.
  - apply extensionOnMessage_pendingStep.
  - unfold extensionOnClose. destruct (extensionWs _) as [current|].
    + destruct (decide _); [by apply pendingStep_shrink|by apply pendingStep_same].
    + by apply pendingStep_shrink.
  - unfold requestTimeout. destruct (JsMap.get id _); [|apply pendingStep_refl].
    simpl. apply pendingStep_shrink; [|done]. simpl. intros id' p'. apply get_delete_Some.
  - by apply pendingStep_same.
  - apply postPages_pendingStep.
  - apply pageWake_pendingStep.
  - by apply pendingStep_same.
  - apply pendingStep_refl.
  - apply pendingStep_refl.
  - by apply pendingStep_same.
  - by apply pendingStep_same.
  - unfold onCleanup, cleanup. destruct (cleanupPromise s); by apply pendingStep_same.
Qed.

Lemma step_pendingStep now ev s : pendingStep s (fst (step now ev s)).
Proof.
  rewrite step_unfold. simpl.
  eapply pendingStep_trans; [apply handle_pendingStep|apply drain_pendingStep].
Qed.

Lemma run_pendingStep trace s : pendingStep s (fst (run trace s)).
Proof.
  revert s. induction trace as [|[now ev] rest IH]; intros s.
  - apply pendingStep_refl.
  - rewrite run_cons. simpl.
    eapply pendingStep_trans; [apply step_pendingStep|apply IH].
Qed.

Lemma reachable_pendingWf s : reachable s -> pendingWf s.
Proof.
  intros (endpoint & startedAt & trace & <-) id p Hget.
  destruct (run_pendingStep trace (init endpoint startedAt)) as [Hle Hstep].
  destruct (Hstep id p Hget) as [(p0 & Hinit & _)|(_ & ? & ? & ?)]; [done|done].
Qed.

(** An id the counter has passed and that is no longer pending stays
    out of the pending map for good. *)
Lemma settled_id_stays_out trace s id :
  id <= extensionMessageId s ->
  JsMap.get id (extensionPendingRequests s) = None ->
  JsMap.get id (extensionPendingRequests (fst (run trace s))) = None.
Proof.
  intros Hle Hnone. destruct (run_pendingStep trace s) as [_ Hstep].
  destruct (JsMap.get id (extensionPendingRequests (fst (run trace s)))) as [p|] eqn:Hget;
    [|done].
  destruct (Hstep id p Hget) as [(p0 & Hold & _)|(Hlt & _)]; [congruence|lia].
Qed.

(** ** Timeouts and late replies *)

(** What the caller of a failed request observes. *)
Lemma resume_rejected_observed k e s :
  snd (resume k (Rejected e) s)
  = match k with
    | KRoute clientId cmd =>
        sendToPatchright (CDPError (cmd_id cmd) (cmd_sessionId cmd) (errorMessage e))
          (Some clientId) s
    | KPageActivate req _ _ => [HttpReply req 500 (VStr "Internal Server Error")]
    | KPageCreate req _ | KPageActivateNew req _ _ =>
        [HttpReply req 500 (errorBody (errorMessage e))]
    end.
Proof. by destruct k. Qed.

(** A reply whose id is not pending is dropped: nothing is sent, no
    promise is settled, and the state is the one before with the idle
    stamp refreshed. *)
Lemma reply_without_pending_dropped now ws id result error s :
  JsMap.get id (extensionPendingRequests s) = None ->
  handle now (OnExtensionMessage ws (Some (ExtResponse id result error))) s
  = (markActivity now s, [], []).
Proof. intros Hnone. simpl. unfold extensionOnMessage. simpl. by rewrite Hnone. Qed.

(** C5: take a request that is pending in a state the relay can reach.
    It was sent with the 30000 ms default, and when its timer fires the
    entry is removed and the awaiting caller is resumed with the timeout
    error: a client gets the error reply, an HTTP caller a 500.  From then
    on, whatever happens in between, a reply carrying that id finds no
    entry and is dropped: no effect, no settled promise, and the state is
    untouched but for the idle stamp that every received message sets. *)
Theorem C5_timeout_then_late_reply now s id p :
  reachable s ->
  JsMap.get id (extensionPendingRequests s) = Some p ->
  let s1 := setPending (JsMap.delete id (extensionPendingRequests s)) s in
  let timedOut := ErrTimeout 30000 "forwardCDPCommand" in
  handle now (OnRequestTimeout id) s = (s1, [], [(pr_kont p, Rejected timedOut)])
  /\ errorMessage timedOut = "Extension request timeout after 30000ms: forwardCDPCommand"
  /\ fst (step now (OnRequestTimeout id) s) = s1
  /\ snd (step now (OnRequestTimeout id) s)
     = match pr_kont p with
       | KRoute clientId cmd =>
           sendToPatchright
             (CDPError (cmd_id cmd) (cmd_sessionId cmd) (errorMessage timedOut))
             (Some clientId) s
       | KPageActivate req _ _ => [HttpReply req 500 (VStr "Internal Server Error")]
       | KPageCreate req _ | KPageActivateNew req _ _ =>
           [HttpReply req 500 (errorBody (errorMessage timedOut))]
       end
  /\ JsMap.get id (extensionPendingRequests s1) = None
  /\ forall trace now' ws result error,
       let s2 := fst (run trace s1) in
       handle now' (OnExtensionMessage ws (Some (ExtResponse id result error))) s2
       = (markActivity now' s2, [], [])
       /\ step now' (OnExtensionMessage ws (Some (ExtResponse id result error))) s2
          = (markActivity now' s2, []).
Proof.
  intros Hreach Hget s1 timedOut.
  destruct (reachable_pendingWf s Hreach id p Hget) as (Hle & Htimeout & Hmethod).
  assert (Hhandle : handle now (OnRequestTimeout id) s
                    = (s1, [], [(pr_kont p, Rejected timedOut)])).
  { simpl. unfold requestTimeout. rewrite Hget, Htimeout, Hmethod. done. }
  assert (Hstep : step now (OnRequestTimeout id) s
                  = (s1, snd (resume (pr_kont p) (Rejected timedOut) s1))).
  { rewrite step_unfold, Hhandle. cbn [fst snd]. rewrite drain_cons. cbn [fst snd drain].
    by rewrite resume_rejected_state, app_nil_r. }
  split; [done|]. split; [done|]. rewrite Hstep. split; [done|].
  split; [by rewrite resume_rejected_observed|].
  split; [apply get_delete_eq|].
  intros trace now' ws result error s2.
  assert (Hnone : JsMap.get id (extensionPendingRequests s2) = None).
  { apply settled_id_stays_out; [exact Hle|apply get_delete_eq]. }
  split; [by apply reply_without_pending_dropped|].
  rewrite step_unfold. by rewrite reply_without_pending_dropped.
Qed.

Lemma busyRelay_reachable : reachable busyRelay.
Proof. do 3 eexists. reflexivity. Qed.

Lemma C5_timeout_then_late_reply_witness :
  reachable busyRelay
  /\ pr_kont <$> JsMap.get 1 (extensionPendingRequests busyRelay)
     = Some (KRoute "a" (mkCDPCommand 7 "Page.enable" VUndefined (Some "s1")))
  /\ snd (step 5%nat (OnRequestTimeout 1) busyRelay)
     = [SendClient 1%nat
          (CDPError 7 (Some "s1")
             "Extension request timeout after 30000ms: forwardCDPCommand")].
Proof.
  split; [exact busyRelay_reachable|]. split; [reflexivity|].
  destruct (C5_timeout_then_late_reply 5%nat busyRelay 1
              (mkPendingRequest "forwardCDPCommand" 30000
                 (KRoute "a" (mkCDPCommand 7 "Page.enable" VUndefined (Some "s1")))))
    as (_ & _ & _ & Hseen & _); [exact busyRelay_reachable|reflexivity|].
  rewrite Hseen. reflexivity.
Defined.

(** ** Detaching a target *)

(** A detach event removes the session from the target registry. *)
Lemma detach_removes_target now ws sid s :
  JsMap.get sid (connectedTargets (fst (step now (fromExtension ws (DetachedFromTarget sid)) s)))
  = None.
Proof. rewrite step_unfold. simpl. apply get_delete_eq. Qed.

(** The name loop of the detach branch removes the first name bound to
    the session and leaves the later ones. *)
Lemma unbindSession_first name sid rest :
  unbindSession sid ((name, sid) :: rest) = JsMap.delete name rest.
Proof. unfold unbindSession. simpl. by rewrite bool_decide_true, decide_True. Qed.

(** C3 (code defect): after [sharedSessionTrace] the names ["a"] and
    ["b"] are both bound to session ["s1"], which is in the target
    registry.  The detach event for ["s1"] empties the registry and
    unbinds ["a"] only: ["b"] still resolves to ["s1"], a session that
    the registry no longer has. *)
Theorem C3_detach_leaves_second_name :
  let s := fst (run sharedSessionTrace relay0) in
  let s' := fst (step 11%nat (fromExtension 9%nat (DetachedFromTarget "s1")) s) in
  namedPages s = [("a", "s1"); ("b", "s1")]
  /\ JsMap.keys (connectedTargets s) = ["s1"]
  /\ namesLive s
  /\ connectedTargets s' = []
  /\ namedPages s' = [("b", "s1")]
  /\ JsMap.get "b" (namedPages s') = Some "s1"
  /\ JsMap.get "s1" (connectedTargets s') = None
  /\ ~ namesLive s'.
Proof.
  cbv zeta.
  assert (Hnames : namedPages (fst (run sharedSessionTrace relay0))
                   = [("a", "s1"); ("b", "s1")]) by (vm_compute; reflexivity).
  assert (Hkeys : JsMap.get "s1" (connectedTargets (fst (run sharedSessionTrace relay0)))
                  = Some (mkConnectedTarget "s1" "T1" tabA)) by (vm_compute; reflexivity).
  assert (Hafter : namedPages (fst (step 11%nat (fromExtension 9%nat (DetachedFromTarget "s1"))
                                      (fst (run sharedSessionTrace relay0))))
                   = [("b", "s1")]) by (vm_compute; reflexivity).
  assert (Hgone : connectedTargets
                    (fst (step 11%nat (fromExtension 9%nat (DetachedFromTarget "s1"))
                            (fst (run sharedSessionTrace relay0)))) = [])
    by (vm_compute; reflexivity).
  split; [exact Hnames|]. split; [vm_compute; reflexivity|].
  split.
  { intros name sid Hget. rewrite Hnames in Hget.
    exists (mkConnectedTarget "s1" "T1" tabA). rewrite <- Hkeys. f_equal.
    cbn in Hget. repeat case_decide; congruence. }
  split; [exact Hgone|]. split; [exact Hafter|].
  rewrite Hafter, Hgone. split; [reflexivity|]. split; [reflexivity|].
  intros Hlive. destruct (Hlive "b" "s1") as [target Htarget].
  - rewrite Hafter. reflexivity.
  - rewrite Hgone in Htarget. discriminate.
Qed.

(** ** Get-or-create a page by name *)

Lemma run_app trace1 trace2 s :
  run (trace1 ++ trace2) s
  = (fst (run trace2 (fst (run trace1 s))),
     snd (run trace1 s) ++ snd (run trace2 (fst (run trace1 s)))).
Proof.
  revert s. induction trace1 as [|[now ev] rest IH]; intros s.
  - simpl. by destruct (run trace2 s).
  - rewrite <- app_comm_cons, !run_cons, IH. simpl. by rewrite app_assoc.
Qed.

Lemma findEntry_set_fresh {V : Type} (p : string -> V -> bool) k v (m : JsMap.t string V) :
  (forall k' v', (k', v') ∈ m -> k' <> k -> p k' v' = false) ->
  p k v = true ->
  JsMap.findEntry p (JsMap.set k v m) = Some (k, v).
Proof.
  intros Hfresh Hp. induction m as [|[k' v'] m IH]; simpl.
  - by rewrite Hp.
  - destruct (decide (k' = k)) as [->|Hne]; simpl.
    + by rewrite Hp.
    + rewrite (Hfresh k' v') by (done || apply list_elem_of_here).
      apply IH. intros k0 v0 Hin. apply Hfresh. by apply list_elem_of_further.
Qed.

Lemma extensionFrames_app e1 e2 :
  extensionFrames (e1 ++ e2) = extensionFrames e1 ++ extensionFrames e2.
Proof. unfold extensionFrames. apply omap_app. Qed.

Lemma extensionFrames_none e :
  (forall x, x ∈ e -> isSendExtension x = false) -> extensionFrames e = [].
Proof.
  induction e as [|x e IH]; [done|]. intros Hall.
  assert (Hx : isSendExtension x = false) by apply Hall, list_elem_of_here.
  unfold extensionFrames in *. cbn [omap list_omap].
  destruct x; try done; apply IH; intros y Hy; by apply Hall, list_elem_of_further.
Qed.

Lemma extensionFrames_clients e :
  (forall x, x ∈ e -> isSendClient x) -> extensionFrames e = [].
Proof.
  intros Hall. apply extensionFrames_none. intros x Hx.
  by destruct (Hall x Hx) as (w & frame & ->).
Qed.

Lemma step_postPages_create now req body name ext s :
  extensionWs s = Some ext ->
  getField body "name" = Some (VStr name) ->
  name <> "" ->
  JsMap.get name (namedPages s) = None ->
  step now (OnPostPages req (Some body)) s
  = (setPending (JsMap.set (extensionMessageId s + 1)
                   (mkPendingRequest "forwardCDPCommand" defaultTimeout (KPageCreate req name))
                   (extensionPendingRequests s))
       (setMessageId (extensionMessageId s + 1) (markActivity now s)),
     [SendExtension ext
        (mkExtensionCommand (extensionMessageId s + 1) "forwardCDPCommand" createCommand)]).
Proof.
  intros Hws Hbody Hname Hget. rewrite step_unfold. cbn [handle].
  rewrite (postPages_unbound _ _ _ name) by done.
  by erewrite createPage_connected by (simpl; exact Hws).
Qed.

Lemma step_postPages_existing now req body name sid target ext s :
  extensionWs s = Some ext ->
  getField body "name" = Some (VStr name) ->
  name <> "" ->
  sid <> "" ->
  JsMap.get name (namedPages s) = Some sid ->
  JsMap.get sid (connectedTargets s) = Some target ->
  step now (OnPostPages req (Some body)) s
  = (setPending (JsMap.set (extensionMessageId s + 1)
                   (mkPendingRequest "forwardCDPCommand" defaultTimeout
                      (KPageActivate req name (mkTargetRef target true)))
                   (extensionPendingRequests s))
       (setMessageId (extensionMessageId s + 1) (markActivity now s)),
     [SendExtension ext
        (mkExtensionCommand (extensionMessageId s + 1) "forwardCDPCommand"
           (activateCommand target))]).
Proof.
  intros Hws Hbody Hname Hsid Hget Htarget. rewrite step_unfold. cbn [handle].
  rewrite (postPages_named _ _ _ name) by done. rewrite Hget.
  rewrite (truthyStr_Some _ Hsid), Htarget.
  unfold sendToExtension. simpl extensionWs. by rewrite Hws.
Qed.

Lemma step_attached now ext sid ti s :
  step now (fromExtension ext (AttachedToTarget sid ti)) s
  = (setClients
       (fst (notifyAll (mkConnectedTarget sid (ti_targetId ti) ti) false (patchrightClients s)))
       (setPending (mapRefs (unregistered sid) (extensionPendingRequests s))
          (setTargets (JsMap.set sid (mkConnectedTarget sid (ti_targetId ti) ti)
                         (connectedTargets s)) (markActivity now s))),
     snd (notifyAll (mkConnectedTarget sid (ti_targetId ti) ti) false (patchrightClients s))).
Proof.
  rewrite step_unfold. unfold fromExtension. cbn [handle].
  unfold extensionOnMessage, onForwardedEvent, sendAttachedToTarget. cbv zeta.
  simpl patchrightClients.
  destruct (notifyAll _ _ _) as [clients e]. simpl. by rewrite app_nil_r.
Qed.

Lemma step_reply_resolved now ext id result p s :
  JsMap.get id (extensionPendingRequests s) = Some p ->
  step now (OnExtensionMessage ext (Some (ExtResponse id result None))) s
  = resume (pr_kont p) (Resolved result)
      (setPending (JsMap.delete id (extensionPendingRequests s)) (markActivity now s)).
Proof.
  intros Hget. rewrite step_unfold. cbn [handle]. unfold extensionOnMessage.
  simpl extensionPendingRequests. rewrite Hget. cbn [fst snd].
  rewrite drain_cons. cbn [drain fst snd]. rewrite app_nil_r.
  by destruct (resume _ _ _).
Qed.

Lemma step_pageWake_found now req name targetId sid target ext s :
  extensionWs s = Some ext ->
  JsMap.get req (pageSleeps s) = Some (name, VObj [("targetId", VStr targetId)]) ->
  JsMap.findEntry (fun _ item => strictEqStr (ct_targetId item) (VStr targetId))
    (connectedTargets s) = Some (sid, target) ->
  step now (OnPageWake req) s
  = (setPending (JsMap.set (extensionMessageId s + 1)
                   (mkPendingRequest "forwardCDPCommand" defaultTimeout
                      (KPageActivateNew req name (mkTargetRef target true)))
                   (extensionPendingRequests s))
       (setMessageId (extensionMessageId s + 1)
          (markActivity now
             (setNamedPages (JsMap.set name sid (namedPages s))
                (setPageSleeps (JsMap.delete req (pageSleeps s)) s)))),
     [SendExtension ext
        (mkExtensionCommand (extensionMessageId s + 1) "forwardCDPCommand"
           (activateCommand target))]).
Proof.
  intros Hws Hsleep Hfind. rewrite step_unfold. cbn [handle]. unfold pageWake.
  rewrite Hsleep. simpl connectedTargets.
  destruct (connectedTargets s) as [|entry rest] eqn:Htargets; [done|].
  cbn [getField lookupField]. rewrite decide_True by done.
  rewrite Hfind. unfold sendToExtension. simpl extensionWs. by rewrite Hws.
Qed.





(** ** The extension connection is replaced *)

Lemma extensionOnOpen_replace now ws old s :
  extensionWs s = Some old ->
  extensionOnOpen now ws s
  = (setExtensionWs (Some ws)
       (setPending [] (setNamedPages [] (setTargets [] (markActivity now s)))),
     [CloseWs old 4001 "Extension Replaced"],
     rejectAll ErrReplaced (extensionPendingRequests s)).
Proof. intros Hws. unfold extensionOnOpen. simpl. by rewrite Hws. Qed.

Lemma notifyAll_all_known target w clients :
  (forall client, client ∈ JsMap.values clients ->
     ct_targetId target ∈ pc_knownTargets client) ->
  notifyAll target w clients = (clients, []).
Proof.
  induction clients as [|[k client] rest IH]; intros Hknown; [done|].
  rewrite notifyAll_unfold, IH.
  - unfold notifyClient. rewrite bool_decide_true; [done|].
    apply Hknown, list_elem_of_here.
  - intros client' Hin. by apply Hknown, list_elem_of_further.
Qed.

(** C1 (code defect): a second extension connection arrives while one is
    connected.  The old socket is closed with code 4001, every pending
    request is rejected with the replaced error and none stays pending,
    the target registry and the named pages are emptied and the new
    socket becomes the connection, as the specification asks.  But no client
    socket is closed: the only socket closed in that turn is the old
    extension socket, and the client registry is the one before, each
    client with the target ids it was told about; so when a tab the
    clients knew attaches again through the new connection, no client
    is told.  The disconnect teardown, run in that same state, does
    close every client socket and empty the client registry.  The close
    event of the replaced socket, whenever it arrives, is ignored while
    another extension socket is connected, and runs the disconnect
    teardown when none is. *)
Theorem C1_replacement_skips_client_close now now' ws old s :
  extensionWs s = Some old ->
  let s1 := fst (step now (OnExtensionOpen ws) s) in
  let closes s' :=
    map (fun client => CloseWs (pc_ws client) 1000 "Extension disconnected")
      (JsMap.values (patchrightClients s')) in
  handle now (OnExtensionOpen ws) s
  = (mkState (wsEndpoint s) [] [] (patchrightClients s) (Some ws) []
       (extensionMessageId s) now (pageSleeps s) (cleanupPromise s),
     [CloseWs old 4001 "Extension Replaced"],
     map (fun p => (pr_kont p, Rejected ErrReplaced))
       (JsMap.values (extensionPendingRequests s)))
  /\ errorMessage ErrReplaced = "Extension connection replaced"
  /\ s1 = mkState (wsEndpoint s) [] [] (patchrightClients s) (Some ws) []
            (extensionMessageId s) now (pageSleeps s) (cleanupPromise s)
  /\ (forall x, x ∈ snd (step now (OnExtensionOpen ws) s) -> isCloseWs x = true ->
        x = CloseWs old 4001 "Extension Replaced")
  /\ (forall sid ti,
        (forall client, client ∈ JsMap.values (patchrightClients s) ->
           ti_targetId ti ∈ pc_knownTargets client) ->
        snd (step now' (OnExtensionMessage ws
                          (Some (ExtForwardCDPEvent (AttachedToTarget sid ti)))) s1) = [])
  /\ handle now (OnExtensionClose old) s
     = (mkState (wsEndpoint s) [] [] [] None [] (extensionMessageId s) now (pageSleeps s)
          (cleanupPromise s),
        closes s,
        map (fun p => (pr_kont p, Rejected ErrClosed))
          (JsMap.values (extensionPendingRequests s)))
  /\ (forall s' current,
        extensionWs s' = Some current ->
        current <> old ->
        step now' (OnExtensionClose old) s' = (markActivity now' s', []))
  /\ (forall s',
        extensionWs s' = None ->
        snd (fst (handle now' (OnExtensionClose old) s')) = closes s'
        /\ patchrightClients (fst (step now' (OnExtensionClose old) s')) = []).
Proof.
  intros Hws s1 closes.
  assert (Hopen : handle now (OnExtensionOpen ws) s
    = (mkState (wsEndpoint s) [] [] (patchrightClients s) (Some ws) []
         (extensionMessageId s) now (pageSleeps s) (cleanupPromise s),
       [CloseWs old 4001 "Extension Replaced"],
       rejectAll ErrReplaced (extensionPendingRequests s))).
  { cbn [handle]. by rewrite (extensionOnOpen_replace _ _ _ _ Hws). }
  assert (Hs1 : s1 = mkState (wsEndpoint s) [] [] (patchrightClients s) (Some ws) []
                       (extensionMessageId s) now (pageSleeps s) (cleanupPromise s)).
  { unfold s1. rewrite step_unfold, Hopen. cbn [fst snd].
    by rewrite rejectAll_konts, drain_rejected_state. }
  split; [exact Hopen|]. split; [done|]. split; [exact Hs1|].
  split; [|split; [|split; [|split]]].
  - intros x Hx Hclose. rewrite step_unfold, Hopen in Hx. cbn [fst snd] in Hx.
    apply elem_of_cons in Hx as [->|Hx]; [done|].
    rewrite rejectAll_konts in Hx.
    apply drain_rejected_effects in Hx as [Hx _]. congruence.
  - intros sid ti Hknown. rewrite Hs1.
    change (OnExtensionMessage ws (Some (ExtForwardCDPEvent (AttachedToTarget sid ti))))
      with (fromExtension ws (AttachedToTarget sid ti)).
    rewrite step_attached. cbn [snd patchrightClients].
    by rewrite notifyAll_all_known.
  - cbn [handle]. by rewrite (extensionOnClose_current _ _ _ Hws).
  - intros s' current Hcur Hne. by apply (extensionOnClose_other _ _ current).
  - intros s' Hnone. rewrite step_unfold. cbn [handle].
    rewrite (extensionOnClose_none _ _ _ Hnone). cbn [fst snd].
    split; [done|]. by rewrite rejectAll_konts, drain_rejected_state.
Qed.

Lemma C1_replacement_skips_client_close_witness :
  let s1 := fst (step 6%nat (OnExtensionOpen 10%nat) pagedRelay) in
  extensionWs pagedRelay = Some 9%nat
  /\ map pc_ws (JsMap.values (patchrightClients pagedRelay)) = [1%nat]
  /\ map pc_ws (JsMap.values (patchrightClients s1)) = [1%nat]
  /\ filter (fun x => isCloseWs x = true) (snd (step 6%nat (OnExtensionOpen 10%nat) pagedRelay))
     = [CloseWs 9%nat 4001 "Extension Replaced"]
  /\ snd (fst (handle 6%nat (OnExtensionClose 9%nat) pagedRelay))
     = [CloseWs 1%nat 1000 "Extension disconnected"]
  /\ snd (step 7%nat (OnExtensionMessage 10%nat
                        (Some (ExtForwardCDPEvent (AttachedToTarget "s5" tabA)))) s1) = [].
Proof.
  cbv zeta.
  destruct (C1_replacement_skips_client_close 6%nat 7%nat 10%nat 9%nat pagedRelay eq_refl)
    as (_ & _ & Hs1 & _ & Hstale & Hsibling & _).
  split; [reflexivity|]. split; [vm_compute; reflexivity|].
  split; [rewrite Hs1; vm_compute; reflexivity|]. split; [vm_compute; reflexivity|].
  split; [rewrite Hsibling; vm_compute; reflexivity|].
  apply Hstale.
  intros client Hin. vm_compute in Hin.
  apply list_elem_of_singleton in Hin as ->.
  apply (proj1 (bool_decide_eq_true _)). vm_compute. reflexivity.
Defined.

(** ** Attachment notifications are sent once *)












Lemma get_Some_split {V : Type} (m : JsMap.t string V) k v :
  JsMap.get k m = Some v ->
  exists pre post, m = pre ++ (k, v) :: post
                   /\ forall v', JsMap.set k v' m = pre ++ (k, v') :: post.
Proof.
  induction m as [|[k' v0] m IH]; simpl; [done|].
  destruct (decide (k' = k)) as [->|Hne].
  - intros [= ->]. by exists [], m.
  - intros (pre & post & -> & Hset)%IH. exists ((k', v0) :: pre), post.
    split; [done|]. intros v'. by rewrite Hset.
Qed.











Lemma findEntry_Some {V : Type} (p : string -> V -> bool) (m : JsMap.t string V) k v :
  JsMap.findEntry p m = Some (k, v) -> (k, v) ∈ m /\ p k v = true.
Proof.
  induction m as [|[k0 v0] m IH]; simpl; [done|].
  destruct (p k0 v0) eqn:Hp.
  - intros [= -> ->]. split; [apply list_elem_of_here|done].
  - intros [Hin Hpk]%IH. split; [by apply list_elem_of_further|done].
Qed.

Lemma elem_of_values {V : Type} (m : JsMap.t string V) v :
  v ∈ JsMap.values m -> exists k, (k, v) ∈ m.
Proof.
  intros ([k v'] & -> & Hin)%list_elem_of_fmap. by exists k.
Qed.





















Lemma notifyClient_known target waiting c :
  ct_targetId target ∈ pc_knownTargets (fst (notifyClient target waiting c))
  /\ pc_knownTargets c ⊆ pc_knownTargets (fst (notifyClient target waiting c)).
Proof.
  unfold notifyClient. case_bool_decide; simpl; [done|]. split; set_solver.
Qed.




Lemma step_setAutoAttach now clientId w id params sid ext s :
  extensionWs s = Some ext ->
  truthyStr sid = false ->
  step now (OnClientMessage clientId w
              (Some (mkCDPCommand id "Target.setAutoAttach" params sid))) s
  = (setClients (fst (attachPass (JsMap.values (connectedTargets s)) (Some clientId)
                        (patchrightClients s)))
       (markActivity now s),
     snd (attachPass (JsMap.values (connectedTargets s)) (Some clientId)
            (patchrightClients s))
     ++ sendToPatchright (CDPResult id sid (VObj [])) (Some clientId)
          (setClients (fst (attachPass (JsMap.values (connectedTargets s)) (Some clientId)
                              (patchrightClients s))) s)).
Proof.
  intros Hws Hsid. rewrite step_unfold. cbn [handle]. unfold clientOnMessage.
  simpl extensionWs. rewrite Hws. cbn [cmd_method cmd_params cmd_sessionId].
  change (routeCdpCommand "Target.setAutoAttach" params sid (markActivity now s))
    with (Local (VObj [])).
  unfold afterRoute. cbn [cmd_method cmd_params cmd_sessionId cmd_id].
  rewrite Hsid. simpl patchrightClients. simpl connectedTargets.
  change (bool_decide ("Target.setAutoAttach" = "Target.setAutoAttach") && negb false)
    with true.
  change (bool_decide ("Target.setAutoAttach" = "Target.setDiscoverTargets")) with false.
  change (bool_decide ("Target.setAutoAttach" = "Target.attachToTarget")) with false.
  cbn [andb].
  destruct (attachPass _ _ _) as [clients1 e1]. simpl. by rewrite app_nil_r.
Qed.






(** ** The detach cascade over event sequences *)

Lemma step_forwarded now ws ev s :
  connectedTargets (fst (step now (fromExtension ws ev) s))
  = match ev with
    | AttachedToTarget sid ti =>
        JsMap.set sid (mkConnectedTarget sid (ti_targetId ti) ti) (connectedTargets s)
    | DetachedFromTarget sid => JsMap.delete sid (connectedTargets s)
    | TargetInfoChanged ti => updateTargetInfo ti (connectedTargets s)
    | OtherEvent _ _ _ => connectedTargets s
    end
  /\ namedPages (fst (step now (fromExtension ws ev) s))
     = match ev with
       | DetachedFromTarget sid => unbindSession sid (namedPages s)
       | _ => namedPages s
       end.
Proof.
  destruct ev as [sid ti| | |]; [by rewrite step_attached|..];
    by rewrite step_unfold.
Qed.

Lemma elem_get_Some {V : Type} (m : JsMap.t string V) k v :
  (k, v) ∈ m -> is_Some (JsMap.get k m).
Proof.
  induction m as [|[k' v'] m IH]; [by intros ?%not_elem_of_nil|]. simpl.
  destruct (decide (k' = k)); [by eexists|].
  intros [[= ? ?]|Hin]%elem_of_cons; [done|by apply IH].
Qed.

Lemma is_Some_get_set {V : Type} (m : JsMap.t string V) k v k' :
  is_Some (JsMap.get k' m) -> is_Some (JsMap.get k' (JsMap.set k v m)).
Proof.
  destruct (decide (k = k')) as [->|Hne].
  - rewrite get_set_eq. by eexists.
  - by rewrite get_set_ne.
Qed.

Lemma get_updateTargetInfo ti targets sid :
  JsMap.get sid (updateTargetInfo ti targets) = None <-> JsMap.get sid targets = None.
Proof.
  unfold updateTargetInfo.
  destruct (JsMap.findEntry _ _) as [[k t]|] eqn:Hfind; [|done].
  apply findEntry_Some in Hfind as [[t' Hget]%elem_get_Some _].
  destruct (decide (k = sid)) as [->|Hne].
  - rewrite get_set_eq, Hget. done.
  - by rewrite get_set_ne.
Qed.

(** The first half of C3, for every sequence of forwarded events from
    every state: a session whose most recent attach or detach event is a
    detach is not in the target registry. *)
Lemma detached_sessions_stay_out now ws sid evs acc s :
  (acc = true -> JsMap.get sid (connectedTargets s) = None) ->
  lastDetached sid evs acc = true ->
  JsMap.get sid (connectedTargets (fst (run (eventTrace now ws evs) s))) = None.
Proof.
  revert acc s. induction evs as [|ev evs IH]; intros acc s Hacc Hlast.
  - by apply Hacc.
  - unfold eventTrace. rewrite fmap_cons, run_cons. cbn [fst].
    simpl in Hlast. refine (IH _ _ _ Hlast). clear IH Hlast.
    destruct (step_forwarded now ws ev s) as [-> _].
    destruct ev as [sid' ti|sid'|ti|method params sid'].
    + destruct (decide (sid' = sid)); [done|]. intros Ht. rewrite get_set_ne by done. auto.
    + destruct (decide (sid' = sid)) as [->|Hne]; intros Ht.
      * apply get_delete_eq.
      * rewrite get_delete_ne by done. auto.
    + intros Ht. apply get_updateTargetInfo. auto.
    + done.
Qed.

Lemma elem_of_delete {V : Type} (m : JsMap.t string V) k k' v :
  (k', v) ∈ JsMap.delete k m -> k' <> k /\ (k', v) ∈ m.
Proof.
  induction m as [|[k0 v0] m IH]; simpl; [by intros ?%not_elem_of_nil|].
  destruct (decide (k0 = k)) as [->|Hne].
  - intros [? ?]%IH. split; [done|by apply list_elem_of_further].
  - intros [[= -> ->]|[? ?]%IH]%elem_of_cons.
    + split; [done|apply list_elem_of_here].
    + split; [done|by apply list_elem_of_further].
Qed.

Lemma findEntry_None {V : Type} (p : string -> V -> bool) (m : JsMap.t string V) k v :
  JsMap.findEntry p m = None -> (k, v) ∈ m -> p k v = false.
Proof.
  induction m as [|[k0 v0] m IH]; simpl; [by intros _ ?%not_elem_of_nil|].
  destruct (p k0 v0) eqn:Hp; [done|].
  intros Hnone [[= -> ->]|Hin]%elem_of_cons; [done|by apply IH].
Qed.

(** Where no two names share a session, the name loop of the detach
    branch leaves no binding to the detached session. *)
Lemma unbindSession_injective sid names name sid' :
  namesInjective names ->
  (name, sid') ∈ unbindSession sid names ->
  sid' <> sid /\ (name, sid') ∈ names.
Proof.
  intros Hinj. unfold unbindSession.
  destruct (JsMap.findEntry _ names) as [[first sid0]|] eqn:Hfind.
  - apply findEntry_Some in Hfind as [Hfirst ->%bool_decide_eq_true].
    intros [Hne Hin]%elem_of_delete. split; [|done].
    intros ->. apply Hne. by eapply Hinj.
  - intros Hin. split; [|done]. intros ->.
    apply (findEntry_None _ _ name sid) in Hfind; [|done].
    simpl in Hfind. by apply bool_decide_eq_false in Hfind.
Qed.

(** The second half of C3 where it does hold: from a state in which no
    two names share a session, every sequence of forwarded events keeps
    every binding on a live session. *)
Lemma cascade_when_names_injective now ws evs s :
  namesInjective (namedPages s) ->
  bindingsLive s ->
  namesInjective (namedPages (fst (run (eventTrace now ws evs) s)))
  /\ bindingsLive (fst (run (eventTrace now ws evs) s)).
Proof.
  revert s. induction evs as [|ev evs IH]; intros s Hinj Hlive; [done|].
  unfold eventTrace. rewrite fmap_cons, run_cons. cbn [fst].
  destruct (step_forwarded now ws ev s) as [Htargets Hnames].
  apply IH.
  - rewrite Hnames. destruct ev as [| sid | |]; try done.
    intros n1 n2 sid' [_ H1]%(unbindSession_injective _ _ _ _ Hinj)
                       [_ H2]%(unbindSession_injective _ _ _ _ Hinj).
    by eapply Hinj.
  - intros name sid'. rewrite Hnames, Htargets.
    destruct ev as [sid ti|sid|ti|method params sid0].
    + intros Hin. apply is_Some_get_set. by apply (Hlive name).
    + intros [Hne Hin]%(unbindSession_injective _ _ _ _ Hinj).
      rewrite get_delete_ne by done. by apply (Hlive name).
    + intros Hin. destruct (Hlive name sid' Hin) as [t Ht].
      destruct (JsMap.get sid' (updateTargetInfo ti (connectedTargets s))) eqn:Hget;
        [by eexists|].
      apply get_updateTargetInfo in Hget. congruence.
    + apply (Hlive name).
Qed.

(** * Further properties of the relay *)

(** ** Frames to the extension *)

Lemma extensionFrames_sendToPatchright frame clientId s :
  extensionFrames (sendToPatchright frame clientId s) = [].
Proof.
  apply extensionFrames_clients. intros x Hx. by eapply sendToPatchright_isSendClient.
Qed.

Lemma elem_of_extensionFrames ws cmd e :
  SendExtension ws cmd ∈ e <-> (ws, cmd) ∈ extensionFrames e.
Proof.
  unfold extensionFrames. rewrite list_elem_of_omap. split.
  - intros Hin. by exists (SendExtension ws cmd).
  - intros (x & Hin & Hx). destruct x; try done. by injection Hx as -> ->.
Qed.

Lemma afterRoute_frame clientId cmd result s :
  extensionFrames (snd (afterRoute clientId cmd result s)) = []
  /\ extensionMessageId (fst (afterRoute clientId cmd result s)) = extensionMessageId s
  /\ extensionPendingRequests (fst (afterRoute clientId cmd result s))
     = extensionPendingRequests s
  /\ extensionWs (fst (afterRoute clientId cmd result s)) = extensionWs s.
Proof.
  destruct (afterRoute_spec clientId cmd result s) as (clients' & pre & -> & _ & Hpre).
  split; [|done]. cbn [snd]. rewrite extensionFrames_app, extensionFrames_sendToPatchright.
  by rewrite extensionFrames_clients.
Qed.

Lemma resume_frame k o s :
  extensionFrames (snd (resume k o s)) = []
  /\ extensionMessageId (fst (resume k o s)) = extensionMessageId s
  /\ extensionPendingRequests (fst (resume k o s)) = extensionPendingRequests s
  /\ extensionWs (fst (resume k o s)) = extensionWs s.
Proof.
  destruct k, o; simpl; try done.
  - apply afterRoute_frame.
  - split; [|done]. apply extensionFrames_sendToPatchright.
Qed.

Lemma drain_frame settled s :
  extensionFrames (snd (drain settled s)) = []
  /\ extensionMessageId (fst (drain settled s)) = extensionMessageId s
  /\ extensionPendingRequests (fst (drain settled s)) = extensionPendingRequests s
  /\ extensionWs (fst (drain settled s)) = extensionWs s.
Proof.
  revert s. induction settled as [|[k o] rest IH]; intros s; [done|].
  rewrite drain_cons. cbn [fst snd].
  destruct (resume_frame k o s) as (He & Hm & Hp & Hw).
  destruct (IH (fst (resume k o s))) as (He' & Hm' & Hp' & Hw').
  rewrite extensionFrames_app, He, He'. split; [done|]. split; [congruence|].
  split; congruence.
Qed.

Lemma frameStep_quiet s s' e :
  extensionFrames e = [] ->
  extensionMessageId s' = extensionMessageId s ->
  frameStep s s' e.
Proof. intros He Hm. by left. Qed.

Lemma sendToExtension_frameStep now params k s0 s s' e :
  extensionMessageId s = extensionMessageId s0 ->
  extensionWs s = extensionWs s0 ->
  sendToExtension now "forwardCDPCommand" params defaultTimeout k s = Some (s', e) ->
  frameStep s0 s' e.
Proof.
  intros Hm Hw. unfold sendToExtension. destruct (extensionWs s) as [ext|] eqn:Hext; [|done].
  intros [= <- <-]. right. exists ext, params. simpl. rewrite Hm.
  split; [congruence|]. split; [done|]. split; [done|].
  rewrite get_set_eq. by eexists.
Qed.

Lemma createPage_frameStep now req name s0 s :
  extensionMessageId s = extensionMessageId s0 ->
  extensionWs s = extensionWs s0 ->
  frameStep s0 (fst (fst (createPage now req name s))) (snd (fst (createPage now req name s))).
Proof.
  intros Hm Hw. unfold createPage.
  destruct (extensionWs s) eqn:Hext; [|by apply frameStep_quiet].
  destruct (sendToExtension _ _ _ _ _ _) as [[s2 e]|] eqn:Hsend; [|by apply frameStep_quiet].
  eapply sendToExtension_frameStep; [| |exact Hsend]; congruence.
Qed.

Lemma handle_frameStep now ev s :
  frameStep s (fst (fst (handle now ev s))) (snd (fst (handle now ev s))).
Proof.
  destruct ev as [clientId ws|clientId ws data|clientId ws|ws|ws data|ws|id|req|req data
                 |req|req name|clientId ws|ws|clientId ws|ws|]; cbn [handle].
  - unfold clientOnOpen. destruct (JsMap.has _ _); by apply frameStep_quiet.
  - unfold clientOnMessage. destruct data as [cmd|]; [|by apply frameStep_quiet].
    destruct (extensionWs (markActivity now s)).
    2: { apply frameStep_quiet; [apply extensionFrames_sendToPatchright|done]. }
    destruct (routeCdpCommand _ _ _ _) as [result|params].
    + destruct (afterRoute_frame clientId cmd result (markActivity now s)) as (He & Hm & _).
      destruct (afterRoute _ _ _ _) as [s2 e]. by apply frameStep_quiet.
    + destruct (sendToExtension _ _ _ _ _ _) as [[s2 e]|] eqn:Hsend.
      * by eapply sendToExtension_frameStep; [| |exact Hsend].
      * apply frameStep_quiet; [apply extensionFrames_sendToPatchright|done].
  - by apply frameStep_quiet.
  - unfold extensionOnOpen. destruct (extensionWs _); by apply frameStep_quiet.
  - unfold extensionOnMessage. destruct data as [[id result error| |ev]|];
      try (by apply frameStep_quiet).
    + destruct (JsMap.get id _); by apply frameStep_quiet.
    + assert (Hev : extensionFrames (snd (onForwardedEvent ev (markActivity now s))) = []
                    /\ extensionMessageId (fst (onForwardedEvent ev (markActivity now s)))
                       = extensionMessageId s).
      { destruct ev as [sid ti|sid|ti|method params sid]; unfold onForwardedEvent; cbv zeta.
        - simpl patchrightClients.
          destruct (sendAttachedToTarget _ _ _ _) as [clients e] eqn:Hsend. split; [|done].
          apply extensionFrames_clients. intros x Hx.
          assert (Hx' : x ∈ snd (sendAttachedToTarget
                                   (mkConnectedTarget sid (ti_targetId ti) ti) None false
                                   (patchrightClients s)))
            by (by rewrite Hsend).
          apply sendAttachedToTarget_effects in Hx' as [w ->]. by do 2 eexists.
        - split; [apply extensionFrames_sendToPatchright|done].
        - split; [apply extensionFrames_sendToPatchright|done].
        - split; [apply extensionFrames_sendToPatchright|done]. }
      destruct (onForwardedEvent _ _) as [s2 e]. destruct Hev. by apply frameStep_quiet.
  - unfold extensionOnClose. destruct (extensionWs _) as [current|].
    + destruct (decide _); apply frameStep_quiet; try done.
      apply extensionFrames_none. by intros x (client & -> & _)%list_elem_of_fmap.
    + apply frameStep_quiet; [|done].
      apply extensionFrames_none. by intros x (client & -> & _)%list_elem_of_fmap.
  - unfold requestTimeout. destruct (JsMap.get id _); by apply frameStep_quiet.
  - by apply frameStep_quiet.
  - unfold postPages. cbv zeta. destruct (getField _ _) as [name|]; [|by apply frameStep_quiet].
    destruct name; try (by apply frameStep_quiet).
    destruct (truthy _); [|by apply frameStep_quiet].
    destruct (JsMap.get _ (namedPages _)) as [sid|]; [|by apply createPage_frameStep].
    destruct (truthyStr _); [|by apply createPage_frameStep].
    destruct (JsMap.get sid _) as [target|]; [|by apply createPage_frameStep].
    destruct (sendToExtension _ _ _ _ _ _) as [[s2 e]|] eqn:Hsend;
      [|by apply frameStep_quiet].
    by eapply sendToExtension_frameStep; [| |exact Hsend].
  - unfold pageWake. destruct (JsMap.get req _) as [[name result]|];
      [|by apply frameStep_quiet].
    destruct (connectedTargets _); [by apply frameStep_quiet|].
    destruct (getField _ _); [|by apply frameStep_quiet].
    destruct (JsMap.findEntry _ _) as [[sid target]|]; [|by apply frameStep_quiet].
    destruct (sendToExtension _ _ _ _ _ _) as [[s2 e]|] eqn:Hsend;
      [|by apply frameStep_quiet].
    by eapply sendToExtension_frameStep; [| |exact Hsend].
  - by apply frameStep_quiet.
  - by apply frameStep_quiet.
  - by apply frameStep_quiet.
  - by apply frameStep_quiet.
  - by apply frameStep_quiet.
  - unfold onCleanup, cleanup. destruct (cleanupPromise s); apply frameStep_quiet; try done.
    cbn [fst snd]. apply extensionFrames_none.
    intros x [(client & -> & _)%list_elem_of_fmap|Hx]%elem_of_app; [done|].
    destruct (extensionWs s); [|by apply not_elem_of_nil in Hx].
    by apply list_elem_of_singleton in Hx as ->.
Qed.

Lemma step_frameStep now ev s :
  frameStep s (fst (step now ev s)) (snd (step now ev s)).
Proof.
  pose proof (handle_frameStep now ev s) as Hhandle.
  destruct (drain_frame (snd (handle now ev s)) (fst (fst (handle now ev s))))
    as (He & Hm & Hp & _).
  unfold frameStep in *. rewrite step_unfold. cbn [fst snd].
  by rewrite extensionFrames_app, He, app_nil_r, Hm, Hp.
Qed.

(** X1: whatever the event, a turn writes at most one frame to the
    extension; a frame it writes goes to the socket that is connected
    when the turn starts, is a [forwardCDPCommand] under the next request
    id, and that id is pending when the turn ends. *)
Theorem commands_go_to_connected_extension now ev s ws cmd :
  SendExtension ws cmd ∈ snd (step now ev s) ->
  extensionWs s = Some ws
  /\ ec_method cmd = "forwardCDPCommand"
  /\ ec_id cmd = extensionMessageId s + 1
  /\ is_Some (JsMap.get (ec_id cmd) (extensionPendingRequests (fst (step now ev s))))
  /\ extensionFrames (snd (step now ev s)) = [(ws, cmd)].
Proof.
  intros Hin%elem_of_extensionFrames.
  destruct (step_frameStep now ev s) as [[Hnone _]|(ext & params & Hws & Hone & _ & Hpend)].
  - rewrite Hnone in Hin. by apply not_elem_of_nil in Hin.
  - rewrite Hone in Hin |- *. apply list_elem_of_singleton in Hin as [= -> ->]. done.
Qed.

Lemma commands_go_to_connected_extension_witness :
  extensionWs lonelyClient = None
  /\ extensionWs busyRelay = Some 9%nat
  /\ extensionFrames
       (snd (step 5%nat (OnPostPages 1%nat (Some (VObj [("name", VStr "demo")]))) busyRelay))
     = [(9%nat, mkExtensionCommand 2 "forwardCDPCommand" createCommand)].
Proof.
  split; [reflexivity|]. split; [reflexivity|].
  apply (commands_go_to_connected_extension 5%nat
           (OnPostPages 1%nat (Some (VObj [("name", VStr "demo")])))
           busyRelay 9%nat (mkExtensionCommand 2 "forwardCDPCommand" createCommand)).
  vm_compute. apply list_elem_of_here.
Defined.

Lemma run_request_ids trace s :
  extensionMessageId s <= extensionMessageId (fst (run trace s))
  /\ map (fun frame => ec_id (snd frame)) (extensionFrames (snd (run trace s)))
     = seqZ (extensionMessageId s + 1)
         (extensionMessageId (fst (run trace s)) - extensionMessageId s).
Proof.
  revert s. induction trace as [|[now ev] rest IH]; intros s.
  - simpl. split; [lia|]. by rewrite Z.sub_diag.
  - rewrite run_cons. cbn [fst snd].
    destruct (IH (fst (step now ev s))) as [Hle Hids].
    destruct (step_frameStep now ev s)
      as [[Hnone Hsame]|(ext & params & _ & Hone & Hnext & _)].
    + rewrite Hsame in *. split; [done|].
      by rewrite extensionFrames_app, List.map_app, Hids, Hnone.
    + rewrite Hnext in *. split; [lia|].
      rewrite extensionFrames_app, List.map_app, Hids, Hone. cbn [map snd ec_id app].
      rewrite (seqZ_cons (extensionMessageId s + 1)) by lia.
      f_equal. f_equal; lia.
Qed.

(** X2: from start-up on, the request ids of the frames written to the
    extension are 1, 2, 3, ... in the order written, up to the value of
    the request counter: no id is skipped and none is used twice. *)
Theorem request_ids_count_up endpoint startedAt trace :
  map (fun frame => ec_id (snd frame))
    (extensionFrames (snd (run trace (init endpoint startedAt))))
  = seqZ 1 (extensionMessageId (fst (run trace (init endpoint startedAt)))).
Proof.
  destruct (run_request_ids trace (init endpoint startedAt)) as [_ Hids].
  rewrite Hids. simpl. f_equal. lia.
Qed.

(** ** No request is pending without an extension *)

Lemma sendToExtension_connected now method params timeout k s s' e :
  sendToExtension now method params timeout k s = Some (s', e) ->
  pendingNeedsExtension s'.
Proof.
  unfold sendToExtension. destruct (extensionWs s) eqn:Hext; [|done].
  intros [= <- _]. intros _ Hnone. simpl in Hnone. congruence.
Qed.

Lemma pendingNeedsExtension_same s s' :
  cleanupPromise s' = cleanupPromise s ->
  extensionWs s' = extensionWs s ->
  extensionPendingRequests s' = extensionPendingRequests s ->
  pendingNeedsExtension s -> pendingNeedsExtension s'.
Proof. unfold pendingNeedsExtension. intros -> -> ->. done. Qed.

Lemma pendingNeedsExtension_delete s s' id :
  cleanupPromise s' = cleanupPromise s ->
  extensionWs s' = extensionWs s ->
  extensionPendingRequests s' = JsMap.delete id (extensionPendingRequests s) ->
  pendingNeedsExtension s -> pendingNeedsExtension s'.
Proof. unfold pendingNeedsExtension. intros -> -> -> Hs Hflag Hnone. by rewrite Hs. Qed.

Lemma pendingNeedsExtension_refs f s s' :
  cleanupPromise s' = cleanupPromise s ->
  extensionWs s' = extensionWs s ->
  extensionPendingRequests s' = mapRefs f (extensionPendingRequests s) ->
  pendingNeedsExtension s -> pendingNeedsExtension s'.
Proof. unfold pendingNeedsExtension. intros -> -> -> Hs Hflag Hnone. by rewrite Hs. Qed.

Lemma resume_cleanupPromise k o s : cleanupPromise (fst (resume k o s)) = cleanupPromise s.
Proof.
  destruct k, o; try done. simpl.
  by destruct (afterRoute_spec clientId cmd result s) as (clients' & pre & -> & _).
Qed.

Lemma drain_cleanupPromise settled s :
  cleanupPromise (fst (drain settled s)) = cleanupPromise s.
Proof.
  revert s. induction settled as [|[k o] settled IH]; intros s; [done|].
  rewrite drain_cons. cbn [fst]. by rewrite IH, resume_cleanupPromise.
Qed.

Lemma createPage_pendingNeedsExtension now req name s0 s :
  cleanupPromise s = cleanupPromise s0 ->
  extensionWs s = extensionWs s0 ->
  extensionPendingRequests s = extensionPendingRequests s0 ->
  pendingNeedsExtension s0 ->
  pendingNeedsExtension (fst (fst (createPage now req name s))).
Proof.
  intros Hc Hw Hp Hinv. unfold createPage.
  destruct (extensionWs s) eqn:Hext;
    [|apply (pendingNeedsExtension_same s0); [done|simpl; congruence|done|done]].
  destruct (sendToExtension _ _ _ _ _ _) as [[s2 e]|] eqn:Hsend;
    [by eapply sendToExtension_connected|].
  apply (pendingNeedsExtension_same s0); [done|simpl; congruence|done|done].
Qed.

Lemma handle_pendingNeedsExtension now ev s :
  pendingNeedsExtension s -> pendingNeedsExtension (fst (fst (handle now ev s))).
Proof.
  intros Hinv.
  destruct ev as [clientId ws|clientId ws data|clientId ws|ws|ws data|ws|id|req|req data
                 |req|req name|clientId ws|ws|clientId ws|ws|]; cbn [handle].
  - unfold clientOnOpen. destruct (JsMap.has _ _); by apply (pendingNeedsExtension_same s).
  - unfold clientOnMessage.
    destruct data as [cmd|]; [|by apply (pendingNeedsExtension_same s)].
    destruct (extensionWs (markActivity now s)); [|by apply (pendingNeedsExtension_same s)].
    destruct (routeCdpCommand _ _ _ _) as [result|params].
    + destruct (afterRoute_frame clientId cmd result (markActivity now s))
        as (_ & _ & Hp & Hw).
      pose proof (resume_cleanupPromise (KRoute clientId cmd) (Resolved result)
                    (markActivity now s)) as Hc. cbn [resume] in Hc.
      destruct (afterRoute _ _ _ _) as [s2 e]. by apply (pendingNeedsExtension_same s).
    + destruct (sendToExtension _ _ _ _ _ _) as [[s2 e]|] eqn:Hsend;
        [by eapply sendToExtension_connected|by apply (pendingNeedsExtension_same s)].
  - by apply (pendingNeedsExtension_same s).
  - unfold extensionOnOpen. destruct (extensionWs _); by intros ? ?.
  - unfold extensionOnMessage. destruct data as [[id result error| |ev]|];
      try (by apply (pendingNeedsExtension_same s)).
    + destruct (JsMap.get id _); [|by apply (pendingNeedsExtension_same s)].
      by apply (pendingNeedsExtension_delete s _ id).
    + assert (Hev : pendingNeedsExtension (fst (onForwardedEvent ev (markActivity now s)))).
      { destruct ev as [sid ti|sid|ti|method params sid]; unfold onForwardedEvent; cbv zeta.
        - destruct (sendAttachedToTarget _ _ _ _).
          by apply (pendingNeedsExtension_refs (unregistered sid) s).
        - by apply (pendingNeedsExtension_refs (unregistered sid) s).
        - cbn [fst]. intros Hflag Hnone. simpl in *. unfold updateHeldInfo.
          rewrite (Hinv Hflag Hnone). by destruct (JsMap.findEntry _ _) as [[? ?]|].
        - by apply (pendingNeedsExtension_same s). }
      by destruct (onForwardedEvent _ _) as [s2 e].
  - unfold extensionOnClose. destruct (extensionWs _) as [current|]; [|by intros ? ?].
    destruct (decide _); [by intros ? ?|by apply (pendingNeedsExtension_same s)].
  - unfold requestTimeout. destruct (JsMap.get id _); [|done].
    by apply (pendingNeedsExtension_delete s _ id).
  - by apply (pendingNeedsExtension_same s).
  - unfold postPages. cbv zeta.
    destruct (getField _ _) as [name|]; [|by apply (pendingNeedsExtension_same s)].
    destruct name; try (by apply (pendingNeedsExtension_same s)).
    destruct (truthy _); [|by apply (pendingNeedsExtension_same s)].
    destruct (JsMap.get _ (namedPages _)) as [sid|];
      [|by apply (createPage_pendingNeedsExtension _ _ _ s)].
    destruct (truthyStr _); [|by apply (createPage_pendingNeedsExtension _ _ _ s)].
    destruct (JsMap.get sid _) as [target|];
      [|by apply (createPage_pendingNeedsExtension _ _ _ s)].
    destruct (sendToExtension _ _ _ _ _ _) as [[s2 e]|] eqn:Hsend;
      [by eapply sendToExtension_connected|by apply (pendingNeedsExtension_same s)].
  - unfold pageWake. destruct (JsMap.get req _) as [[name result]|]; [|done].
    destruct (connectedTargets _); [by apply (pendingNeedsExtension_same s)|].
    destruct (getField _ _); [|by apply (pendingNeedsExtension_same s)].
    destruct (JsMap.findEntry _ _) as [[sid target]|];
      [|by apply (pendingNeedsExtension_same s)].
    destruct (sendToExtension _ _ _ _ _ _) as [[s2 e]|] eqn:Hsend;
      [by eapply sendToExtension_connected|by apply (pendingNeedsExtension_same s)].
  - by apply (pendingNeedsExtension_same s).
  - done.
  - done.
  - by apply (pendingNeedsExtension_same s).
  - by apply (pendingNeedsExtension_same s).
  - unfold onCleanup, cleanup. destruct (cleanupPromise s); by intros ?.
Qed.

Lemma step_pendingNeedsExtension now ev s :
  pendingNeedsExtension s -> pendingNeedsExtension (fst (step now ev s)).
Proof.
  intros Hinv. rewrite step_unfold. cbn [fst].
  destruct (drain_frame (snd (handle now ev s)) (fst (fst (handle now ev s))))
    as (_ & _ & Hp & Hw).
  eapply pendingNeedsExtension_same; [apply drain_cleanupPromise|exact Hw|exact Hp|].
  by apply handle_pendingNeedsExtension.
Qed.

(** X3: in every state the relay can reach before [cleanup] is called,
    requests are pending only while an extension is connected: with no
    extension socket the pending map is empty.  ([cleanup] itself drops
    the socket and leaves the pending requests to the socket's close
    event.) *)
Theorem no_pending_without_extension s :
  reachable s ->
  cleanupPromise s = false ->
  extensionWs s = None ->
  extensionPendingRequests s = [].
Proof.
  intros (endpoint & startedAt & trace & <-).
  assert (Hall : forall s0, pendingNeedsExtension s0 ->
                            pendingNeedsExtension (fst (run trace s0))).
  { induction trace as [|[now ev] rest IH]; intros s0 Hs0; [done|].
    rewrite run_cons. cbn [fst]. by apply IH, step_pendingNeedsExtension. }
  by apply Hall.
Qed.

Lemma no_pending_without_extension_witness :
  extensionWs (fst (step 5%nat (OnExtensionClose 9%nat) busyRelay)) = None
  /\ extensionPendingRequests busyRelay <> []
  /\ extensionPendingRequests (fst (step 5%nat (OnExtensionClose 9%nat) busyRelay)) = [].
Proof.
  split; [vm_compute; reflexivity|]. split; [vm_compute; discriminate|].
  apply no_pending_without_extension; [|vm_compute; reflexivity|vm_compute; reflexivity].
  exists endpoint0, 0%nat,
    [(1%nat, OnExtensionOpen 9%nat);
     (2%nat, OnClientOpen "a" 1%nat);
     (3%nat, OnExtensionMessage 9%nat
               (Some (ExtForwardCDPEvent (AttachedToTarget "s1" tabA))));
     (4%nat, OnClientMessage "a" 1%nat
               (Some (mkCDPCommand 7 "Page.enable" VUndefined (Some "s1"))));
     (5%nat, OnExtensionClose 9%nat)].
  vm_compute. reflexivity.
Defined.

(** ** Frames to clients *)

Lemma sendsWithin_nil sockets : sendsWithin sockets [].
Proof. by intros ws frame ?%not_elem_of_nil. Qed.

Lemma sendsWithin_app sockets e1 e2 :
  sendsWithin sockets e1 -> sendsWithin sockets e2 -> sendsWithin sockets (e1 ++ e2).
Proof. intros H1 H2 ws frame [?|?]%elem_of_app; eauto. Qed.

Lemma sendsWithin_other sockets e :
  (forall x, x ∈ e -> match x with SendClient _ _ => False | _ => True end) ->
  sendsWithin sockets e.
Proof. intros Hall ws frame Hin. by destruct (Hall _ Hin). Qed.

Lemma sendsWithin_subseteq sockets sockets' e :
  (forall ws, ws ∈ sockets -> ws ∈ sockets') ->
  sendsWithin sockets e -> sendsWithin sockets' e.
Proof. intros Hsub He ws frame Hin. by eapply Hsub, He. Qed.

Lemma sendToPatchright_within frame clientId s :
  sendsWithin (clientSockets s) (sendToPatchright frame clientId s).
Proof.
  assert (Hall : sendsWithin (clientSockets s)
                   (map (fun client => SendClient (pc_ws client) frame)
                      (JsMap.values (patchrightClients s)))).
  { intros ws frame' (client & [= -> ->] & Hin)%list_elem_of_fmap.
    by apply (list_elem_of_fmap_2 pc_ws). }
  unfold sendToPatchright. destruct clientId as [cid|]; [|done].
  destruct (truthyStr (Some cid)); [|done].
  destruct (JsMap.get cid (patchrightClients s)) as [client|] eqn:Hget;
    [|apply sendsWithin_nil].
  intros ws frame' [= -> ->]%list_elem_of_singleton.
  apply (list_elem_of_fmap_2 pc_ws). by eapply get_Some_values.
Qed.

Lemma notifyAll_sockets target waiting clients :
  map pc_ws (JsMap.values (fst (notifyAll target waiting clients)))
  = map pc_ws (JsMap.values clients).
Proof.
  induction clients as [|[k c] rest IH]; [done|].
  rewrite notifyAll_unfold. unfold JsMap.values in *. cbn [fst snd map].
  by rewrite notifyClient_ws, IH.
Qed.

Lemma set_sockets (clients : JsMap.t string PatchrightClient) k c c' :
  JsMap.get k clients = Some c ->
  pc_ws c' = pc_ws c ->
  map pc_ws (JsMap.values (JsMap.set k c' clients)) = map pc_ws (JsMap.values clients).
Proof.
  intros (pre & post & -> & ->)%get_Some_split Hws.
  unfold JsMap.values. rewrite !List.map_app. cbn [map snd]. by rewrite Hws.
Qed.

Lemma sendAttachedToTarget_sockets target clientId waiting clients :
  map pc_ws (JsMap.values (fst (sendAttachedToTarget target clientId waiting clients)))
  = map pc_ws (JsMap.values clients).
Proof.
  rewrite sendAttachedToTarget_unfold. destruct (truthyStr clientId).
  - destruct clientId as [cid|]; simpl; [|done].
    destruct (JsMap.get cid clients) as [c|] eqn:Hget; simpl; [|done].
    by apply (set_sockets _ _ c), notifyClient_ws.
  - apply notifyAll_sockets.
Qed.

Lemma sendAttachedToTarget_within target clientId waiting clients ws frame :
  SendClient ws frame ∈ snd (sendAttachedToTarget target clientId waiting clients) ->
  ws ∈ map pc_ws (JsMap.values clients).
Proof.
  rewrite sendAttachedToTarget_unfold. destruct (truthyStr clientId).
  - destruct clientId as [cid|]; simpl; [|by intros ?%not_elem_of_nil].
    destruct (JsMap.get cid clients) as [c|] eqn:Hget; simpl;
      [|by intros ?%not_elem_of_nil].
    intros [= -> _]%notifyClient_effects.
    apply (list_elem_of_fmap_2 pc_ws). by eapply get_Some_values.
  - induction clients as [|[k c] rest IH]; [by intros ?%not_elem_of_nil|].
    rewrite notifyAll_unfold. cbn [snd].
    intros [[= -> _]%notifyClient_effects|Hin]%elem_of_app.
    + apply list_elem_of_here.
    + apply list_elem_of_further. by apply IH.
Qed.

Lemma attachPass_sockets passed clientId clients :
  map pc_ws (JsMap.values (fst (attachPass passed clientId clients)))
  = map pc_ws (JsMap.values clients).
Proof.
  revert clients. induction passed as [|t rest IH]; intros clients; [done|].
  rewrite attachPass_unfold. cbn [fst]. by rewrite IH, sendAttachedToTarget_sockets.
Qed.

Lemma attachPass_within passed clientId clients ws frame :
  SendClient ws frame ∈ snd (attachPass passed clientId clients) ->
  ws ∈ map pc_ws (JsMap.values clients).
Proof.
  revert clients. induction passed as [|t rest IH]; intros clients;
    [by intros ?%not_elem_of_nil|].
  rewrite attachPass_unfold. cbn [snd].
  intros [Hin|Hin]%elem_of_app; [by eapply sendAttachedToTarget_within|].
  apply IH in Hin. by rewrite sendAttachedToTarget_sockets in Hin.
Qed.

Lemma afterRoute_within clientId cmd result s :
  sendsWithin (clientSockets s) (snd (afterRoute clientId cmd result s))
  /\ clientSockets (fst (afterRoute clientId cmd result s)) = clientSockets s.
Proof.
  unfold afterRoute.
  destruct (if bool_decide (cmd_method cmd = "Target.setAutoAttach")
               && negb (truthyStr (cmd_sessionId cmd))
            then attachPass (JsMap.values (connectedTargets s)) (Some clientId)
                   (patchrightClients s)
            else (patchrightClients s, [])) as [clients1 e1] eqn:H1.
  assert (Hs1 : map pc_ws (JsMap.values clients1) = clientSockets s
                /\ sendsWithin (clientSockets s) e1).
  { destruct (_ && _) in H1; [|injection H1 as <- <-; split; [done|apply sendsWithin_nil]].
    split.
    - replace clients1 with
        (fst (attachPass (JsMap.values (connectedTargets s)) (Some clientId)
                (patchrightClients s))) by (by rewrite H1).
      apply attachPass_sockets.
    - intros ws frame Hin. eapply attachPass_within. by rewrite H1. }
  destruct Hs1 as [Hs1 He1]. cbv zeta.
  set (s1 := setClients clients1 s).
  assert (Hsock1 : clientSockets s1 = clientSockets s) by done.
  set (e2 := if _ && _ then _ else []).
  assert (He2 : sendsWithin (clientSockets s) e2).
  { unfold e2.
    destruct (bool_decide (cmd_method cmd = "Target.setDiscoverTargets") && _);
      [|apply sendsWithin_nil].
    generalize (JsMap.values (connectedTargets s1)) as passed.
    induction passed as [|t passed IH]; cbn [map concat]; [apply sendsWithin_nil|].
    apply sendsWithin_app; [|done]. rewrite <- Hsock1. apply sendToPatchright_within. }
  destruct (if bool_decide (cmd_method cmd = "Target.attachToTarget")
               && truthy (optField result "sessionId")
            then match findByTargetId (optField (cmd_params cmd) "targetId")
                         (connectedTargets s1) with
                 | Some target =>
                     sendAttachedToTarget target (Some clientId) false (patchrightClients s1)
                 | None => (patchrightClients s1, [])
                 end
            else (patchrightClients s1, [])) as [clients3 e3] eqn:H3.
  assert (Hs3 : map pc_ws (JsMap.values clients3) = clientSockets s
                /\ sendsWithin (clientSockets s) e3).
  { destruct (_ && _) in H3; [|injection H3 as <- <-; split; [done|apply sendsWithin_nil]].
    destruct (findByTargetId _ _) as [target|] in H3;
      [|injection H3 as <- <-; split; [done|apply sendsWithin_nil]].
    split.
    - replace clients3 with
        (fst (sendAttachedToTarget target (Some clientId) false (patchrightClients s1)))
        by (by rewrite H3).
      by rewrite sendAttachedToTarget_sockets.
    - intros ws frame Hin. rewrite <- Hsock1.
      eapply sendAttachedToTarget_within. by rewrite H3. }
  destruct Hs3 as [Hs3 He3]. cbn [fst snd]. split; [|done].
  repeat apply sendsWithin_app; try done.
  intros ws frame Hin. apply sendToPatchright_within in Hin.
  by rewrite <- Hs3.
Qed.

Lemma resume_within k o s :
  sendsWithin (clientSockets s) (snd (resume k o s))
  /\ clientSockets (fst (resume k o s)) = clientSockets s.
Proof.
  destruct k, o; simpl;
    try (split; [by apply sendsWithin_other; intros x ->%list_elem_of_singleton|done]).
  - apply afterRoute_within.
  - split; [apply sendToPatchright_within|done].
  - split; [apply sendsWithin_nil|done].
Qed.

Lemma drain_within settled s :
  sendsWithin (clientSockets s) (snd (drain settled s)).
Proof.
  revert s. induction settled as [|[k o] rest IH]; intros s; [apply sendsWithin_nil|].
  rewrite drain_cons. cbn [snd]. destruct (resume_within k o s) as [He Hs].
  apply sendsWithin_app; [done|]. rewrite <- Hs. apply IH.
Qed.

Lemma sendToExtension_within now method params timeout k s s' e sockets :
  sendToExtension now method params timeout k s = Some (s', e) -> sendsWithin sockets e.
Proof.
  unfold sendToExtension. destruct (extensionWs s); [|done].
  intros [= _ <-]. apply sendsWithin_other. by intros x ->%list_elem_of_singleton.
Qed.

Lemma sendToPatchright_within_same frame clientId s s0 :
  patchrightClients s = patchrightClients s0 ->
  sendsWithin (clientSockets s0) (sendToPatchright frame clientId s).
Proof.
  intros Heq. unfold clientSockets. rewrite <- Heq. apply sendToPatchright_within.
Qed.

Lemma handle_within now ev s :
  sendsWithin (clientSockets s) (snd (fst (handle now ev s)))
  /\ (snd (handle now ev s) = []
      \/ forall ws, ws ∈ clientSockets (fst (fst (handle now ev s))) -> ws ∈ clientSockets s).
Proof.
  assert (Hone : forall x, sendsWithin (clientSockets s) [x] <->
                           match x with SendClient w _ => w ∈ clientSockets s | _ => True end).
  { intros x. split.
    - intros Hx. destruct x; try done. apply (Hx _ frame), list_elem_of_here.
    - intros Hx w f Hin%list_elem_of_singleton. subst x. exact Hx. }
  destruct ev as [clientId ws|clientId ws data|clientId ws|ws|ws data|ws|id|req|req data
                 |req|req name|clientId ws|ws|clientId ws|ws|]; cbn [handle].
  - unfold clientOnOpen. destruct (JsMap.has _ _); (split; [|by left]);
      [by apply Hone|apply sendsWithin_nil].
  - split.
    2: { left. unfold clientOnMessage. destruct data as [cmd|]; [|done].
         destruct (extensionWs _); [|done].
         destruct (routeCdpCommand _ _ _ _); [by destruct (afterRoute _ _ _ _)|].
         by destruct (sendToExtension _ _ _ _ _ _) as [[? ?]|]. }
    unfold clientOnMessage. destruct data as [cmd|]; [|apply sendsWithin_nil].
    destruct (extensionWs _).
    2: { by apply sendToPatchright_within_same. }
    destruct (routeCdpCommand _ _ _ _) as [result|params].
    + destruct (afterRoute_within clientId cmd result (markActivity now s)) as [He _].
      by destruct (afterRoute _ _ _ _).
    + destruct (sendToExtension _ _ _ _ _ _) as [[s2 e]|] eqn:Hsend.
      * by eapply sendToExtension_within.
      * by apply sendToPatchright_within_same.
  - split; [apply sendsWithin_nil|by left].
  - unfold extensionOnOpen. destruct (extensionWs _); (split; [|by right]);
      [by apply Hone|apply sendsWithin_nil].
  - unfold extensionOnMessage. destruct data as [[id result error| |ev]|].
    + destruct (JsMap.get id _); (split; [apply sendsWithin_nil|by right]).
    + split; [apply sendsWithin_nil|by left].
    + split; [|left; by destruct (onForwardedEvent _ _)].
      assert (Hev : sendsWithin (clientSockets s)
                      (snd (onForwardedEvent ev (markActivity now s)))).
      { destruct ev as [sid ti|sid|ti|method params sid]; unfold onForwardedEvent; cbv zeta.
        - simpl patchrightClients.
          destruct (sendAttachedToTarget _ _ _ _) as [clients e] eqn:Hsend.
          intros w f Hin. eapply sendAttachedToTarget_within. by rewrite Hsend.
        - by apply sendToPatchright_within_same.
        - by apply sendToPatchright_within_same.
        - by apply sendToPatchright_within_same. }
      by destruct (onForwardedEvent _ _).
    + split; [by apply Hone|by left].
  - unfold extensionOnClose.
    assert (Hcloses : sendsWithin (clientSockets s)
              (map (fun client => CloseWs (pc_ws client) 1000 "Extension disconnected")
                 (JsMap.values (patchrightClients (markActivity now s))))).
    { apply sendsWithin_other. by intros x (client & -> & _)%list_elem_of_fmap. }
    destruct (extensionWs _) as [current|].
    + destruct (decide _); (split; [|right]); try done.
      * by intros w ?%not_elem_of_nil.
      * apply sendsWithin_nil.
    + split; [done|right]. by intros w ?%not_elem_of_nil.
  - unfold requestTimeout. destruct (JsMap.get id _); (split; [apply sendsWithin_nil|by right]).
  - split; [by apply Hone|by left].
  - split.
    2: { left. unfold postPages, createPage. cbv zeta. repeat case_match; done. }
    unfold postPages, createPage. cbv zeta.
    repeat case_match; try (by apply Hone); try apply sendsWithin_nil;
      by eapply sendToExtension_within.
  - split.
    2: { left. unfold pageWake. repeat case_match; done. }
    unfold pageWake.
    repeat case_match; try (by apply Hone); try apply sendsWithin_nil;
      by eapply sendToExtension_within.
  - split; [by apply Hone|by left].
  - split; [apply sendsWithin_nil|by left].
  - split; [apply sendsWithin_nil|by left].
  - split; [by apply Hone|by left].
  - split; [by apply Hone|by left].
  - unfold onCleanup, cleanup. destruct (cleanupPromise s); cbn [fst snd];
      (split; [|by left]); [apply sendsWithin_nil|].
    apply sendsWithin_other.
    intros x [(client & -> & _)%list_elem_of_fmap|Hx]%elem_of_app; [done|].
    destruct (extensionWs s); [|by apply not_elem_of_nil in Hx].
    by apply list_elem_of_singleton in Hx as ->.
Qed.

(** X4: whatever the event, every frame a turn writes to a client goes
    to the socket of a client that is registered when the turn starts:
    the relay never writes to a client socket it has not registered or
    has already unregistered. *)
Theorem frames_go_to_registered_clients now ev s ws frame :
  SendClient ws frame ∈ snd (step now ev s) ->
  exists clientId client,
    (clientId, client) ∈ patchrightClients s /\ pc_ws client = ws.
Proof.
  intros Hin.
  assert (Hws : ws ∈ clientSockets s).
  { rewrite step_unfold in Hin. cbn [snd] in Hin.
    destruct (handle_within now ev s) as [He Hsettled].
    apply elem_of_app in Hin as [Hin|Hin]; [by eapply He|].
    destruct Hsettled as [Hnone|Hsub].
    - rewrite Hnone in Hin. by apply not_elem_of_nil in Hin.
    - eapply Hsub, drain_within, Hin. }
  apply list_elem_of_fmap in Hws as (client & -> & [k Hk]%elem_of_values).
  by exists k, client.
Qed.

Lemma frames_go_to_registered_clients_witness :
  exists clientId client,
    (clientId, client) ∈ patchrightClients busyRelay /\ pc_ws client = 1%nat.
Proof.
  apply (frames_go_to_registered_clients 5%nat (OnRequestTimeout 1) busyRelay 1%nat
           (CDPError 7 (Some "s1")
              "Extension request timeout after 30000ms: forwardCDPCommand")).
  vm_compute. apply list_elem_of_here.
Defined.

(** ** Forwarding a command and relaying its reply *)

Lemma not_emulated method :
  method ∉ emulatedMethods ->
  method <> "Browser.getVersion" /\ method <> "Target.setDiscoverTargets"
  /\ method <> "Target.setAutoAttach" /\ method <> "Target.getBrowserContexts"
  /\ method <> "Target.createBrowserContext" /\ method <> "Target.attachToBrowserTarget"
  /\ method <> "Target.attachToTarget" /\ method <> "Target.getTargetInfo"
  /\ method <> "Target.getTargets".
Proof.
  unfold emulatedMethods. intros Hnot.
  repeat split; intros ->; apply Hnot; repeat constructor.
Qed.

(** The envelope [routeCdpCommand] hands to [sendToExtension]. *)
Lemma route_forward method params sessionId s :
  method ∉ emulatedMethods ->
  routeCdpCommand method params sessionId s
  = Forward (if bool_decide (method = "Target.createTarget"
                             \/ method = "Target.closeTarget")
             then VObj [("method", VStr method); ("params", params)]
             else VObj [("sessionId", optStr sessionId); ("method", VStr method);
                        ("params", params)]).
Proof.
  intros (H1 & H2 & H3 & H4 & H5 & H6 & H7 & H8 & H9)%not_emulated.
  unfold routeCdpCommand. rewrite !decide_False by done.
  destruct (decide (method = "Target.createTarget")) as [->|Hc].
  { by rewrite bool_decide_true by by left. }
  destruct (decide (method = "Target.closeTarget")) as [->|Hd].
  { by rewrite bool_decide_true by by right. }
  by rewrite bool_decide_false by (by intros [?|?]).
Qed.

Lemma afterRoute_forwarded clientId cmd result s :
  cmd_method cmd ∉ emulatedMethods ->
  afterRoute clientId cmd result s
  = (s, sendToPatchright (CDPResult (cmd_id cmd) (cmd_sessionId cmd) result)
          (Some clientId) s).
Proof.
  intros (_ & H2 & H3 & _ & _ & _ & H7 & _)%not_emulated.
  unfold afterRoute. rewrite !(bool_decide_eq_false_2 _) by done.
  cbn [andb fst snd app]. by destruct s.
Qed.

(** X5: a command whose method is not emulated, sent by a registered
    client while an extension is connected, goes to the extension as one
    [forwardCDPCommand] frame under the next request id, carrying the
    method and params unchanged (and the session id, except for
    [Target.createTarget] and [Target.closeTarget]).  The extension's
    reply to that id is relayed to the client under the id and session
    id of the client's own command: its result if the reply has no
    error, otherwise an error with the extension's message.  Either way
    the request is no longer pending. *)
Theorem forward_then_reply now now' clientId ws cmd client ext result error s :
  extensionWs s = Some ext ->
  cmd_method cmd ∉ emulatedMethods ->
  clientId <> "" ->
  JsMap.get clientId (patchrightClients s) = Some client ->
  let id := extensionMessageId s + 1 in
  let s1 := fst (step now (OnClientMessage clientId ws (Some cmd)) s) in
  let reply := OnExtensionMessage ext (Some (ExtResponse id result error)) in
  (exists envelope,
     snd (step now (OnClientMessage clientId ws (Some cmd)) s)
     = [SendExtension ext (mkExtensionCommand id "forwardCDPCommand" envelope)]
     /\ optField envelope "method" = VStr (cmd_method cmd)
     /\ optField envelope "params" = cmd_params cmd
     /\ (cmd_method cmd <> "Target.createTarget" ->
         cmd_method cmd <> "Target.closeTarget" ->
         optField envelope "sessionId" = optStr (cmd_sessionId cmd)))
  /\ snd (step now' reply s1)
     = [SendClient (pc_ws client)
          (if truthyStr error
           then CDPError (cmd_id cmd) (cmd_sessionId cmd) (default "" error)
           else CDPResult (cmd_id cmd) (cmd_sessionId cmd) result)]
  /\ JsMap.get id (extensionPendingRequests (fst (step now' reply s1))) = None.
Proof.
  intros Hws Hforward Hne Hget id s1 reply.
  assert (Hstep : step now (OnClientMessage clientId ws (Some cmd)) s
            = (setPending (JsMap.set id
                             (mkPendingRequest "forwardCDPCommand" defaultTimeout
                                (KRoute clientId cmd))
                             (extensionPendingRequests s))
                 (setMessageId id (markActivity now s)),
               [SendExtension ext
                  (mkExtensionCommand id "forwardCDPCommand"
                     (if bool_decide (cmd_method cmd = "Target.createTarget"
                                      \/ cmd_method cmd = "Target.closeTarget")
                      then VObj [("method", VStr (cmd_method cmd));
                                 ("params", cmd_params cmd)]
                      else VObj [("sessionId", optStr (cmd_sessionId cmd));
                                 ("method", VStr (cmd_method cmd));
                                 ("params", cmd_params cmd)]))])).
  { rewrite step_unfold. cbn [handle]. unfold clientOnMessage.
    simpl extensionWs. rewrite Hws, route_forward by done.
    unfold sendToExtension. simpl extensionWs. by rewrite Hws. }
  unfold s1. rewrite Hstep. cbn [fst snd]. split.
  { eexists. split; [reflexivity|]. case_bool_decide as Hcase.
    - split; [done|]. split; [done|]. intros Hc Hd. by destruct Hcase.
    - done. }
  set (s2 := setPending _ _).
  assert (Hreply : handle now' reply s2
            = (setPending (JsMap.delete id (extensionPendingRequests s2)) (markActivity now' s2),
               [],
               [(KRoute clientId cmd,
                 if truthyStr error then Rejected (ErrExtension (default "" error))
                 else Resolved result)])).
  { unfold reply. cbn [handle]. unfold extensionOnMessage.
    simpl extensionPendingRequests. rewrite get_set_eq. cbn [pr_kont].
    do 3 f_equal. destruct error as [message|]; [|done]. simpl. by destruct (negb _). }
  rewrite step_unfold, Hreply. cbn [fst snd drain app].
  destruct (truthyStr error); cbn [resume].
  - unfold routeFailed.
    erewrite sendToPatchright_registered by (done || exact Hget).
    cbn [fst snd app errorMessage]. split; [done|]. apply get_delete_eq.
  - rewrite afterRoute_forwarded by done.
    erewrite sendToPatchright_registered by (done || exact Hget).
    cbn [fst snd app]. split; [done|]. apply get_delete_eq.
Qed.

Lemma forward_then_reply_witness :
  let cmd := mkCDPCommand 8 "Page.navigate" (VObj [("url", VStr "https://example.com/")])
               (Some "s1") in
  let s1 := fst (step 5%nat (OnClientMessage "a" 1%nat (Some cmd)) busyRelay) in
  snd (step 6%nat (OnExtensionMessage 9%nat
                     (Some (ExtResponse 2 (VObj [("frameId", VStr "F")]) None))) s1)
  = [SendClient 1%nat (CDPResult 8 (Some "s1") (VObj [("frameId", VStr "F")]))]
  /\ snd (step 6%nat (OnExtensionMessage 9%nat
                        (Some (ExtResponse 2 VUndefined (Some "No tab")))) s1)
     = [SendClient 1%nat (CDPError 8 (Some "s1") "No tab")].
Proof.
  cbv zeta. split.
  - apply (forward_then_reply 5%nat 6%nat "a" 1%nat
             (mkCDPCommand 8 "Page.navigate" (VObj [("url", VStr "https://example.com/")])
                (Some "s1"))
             (mkPatchrightClient "a" 1%nat {["T1"]}) 9%nat
             (VObj [("frameId", VStr "F")]) None busyRelay); try done.
    vm_compute. intros Hin. repeat (apply elem_of_cons in Hin as [Hin|Hin]; [discriminate|]).
    by apply not_elem_of_nil in Hin.
  - apply (forward_then_reply 5%nat 6%nat "a" 1%nat
             (mkCDPCommand 8 "Page.navigate" (VObj [("url", VStr "https://example.com/")])
                (Some "s1"))
             (mkPatchrightClient "a" 1%nat {["T1"]}) 9%nat
             VUndefined (Some "No tab") busyRelay); try done.
    vm_compute. intros Hin. repeat (apply elem_of_cons in Hin as [Hin|Hin]; [discriminate|]).
    by apply not_elem_of_nil in Hin.
Defined.

(** ** Attaching to a target by id *)

Lemma findEntry_all_false {V : Type} (p : string -> V -> bool) (m : JsMap.t string V) :
  (forall k v, (k, v) ∈ m -> p k v = false) -> JsMap.findEntry p m = None.
Proof.
  induction m as [|[k v] m IH]; [done|]. intros Hall. simpl.
  rewrite (Hall k v) by apply list_elem_of_here.
  apply IH. intros k' v' Hin. by apply Hall, list_elem_of_further.
Qed.

Lemma notifyClient_again target waiting client :
  ct_targetId target ∈ pc_knownTargets client ->
  notifyClient target waiting client = (client, []).
Proof. intros Hin. unfold notifyClient. by rewrite bool_decide_true. Qed.

Lemma step_attachToTarget now clientId ws id targetId sessionId ext s :
  extensionWs s = Some ext ->
  targetId <> "" ->
  step now (OnClientMessage clientId ws
              (Some (mkCDPCommand id "Target.attachToTarget"
                       (VObj [("targetId", VStr targetId)]) sessionId))) s
  = match findByTargetId (VStr targetId) (connectedTargets s) with
    | Some target =>
        let notified :=
          if truthy (VStr (ct_sessionId target))
          then sendAttachedToTarget target (Some clientId) false (patchrightClients s)
          else (patchrightClients s, []) in
        (setClients (fst notified) (markActivity now s),
         snd notified
         ++ sendToPatchright
              (CDPResult id sessionId (VObj [("sessionId", VStr (ct_sessionId target))]))
              (Some clientId) (setClients (fst notified) s))
    | None =>
        (markActivity now s,
         sendToPatchright (CDPResult id sessionId (VObj [])) (Some clientId) s)
    end.
Proof.
  intros Hws Hne. rewrite step_unfold. cbn [handle]. unfold clientOnMessage.
  simpl extensionWs. rewrite Hws. cbn [cmd_method cmd_params cmd_sessionId].
  unfold routeCdpCommand. rewrite !decide_False by done. rewrite decide_True by done.
  cbn [optField lookupField]. rewrite decide_True by done.
  rewrite (truthy_VStr _ Hne). simpl connectedTargets.
  destruct (findByTargetId (VStr targetId) (connectedTargets s)) as [target|] eqn:Hfind.
  - unfold afterRoute. cbn [cmd_method cmd_params cmd_sessionId cmd_id].
    rewrite !(bool_decide_eq_false_2 ("Target.attachToTarget" = _)) by done.
    rewrite bool_decide_true by done.
    cbn [andb optField lookupField]. rewrite !decide_True by done.
    simpl connectedTargets. rewrite Hfind. simpl patchrightClients.
    destruct (truthy (VStr (ct_sessionId target))).
    + destruct (sendAttachedToTarget _ _ _ _) as [clients e]. simpl.
      by rewrite app_nil_r.
    + simpl. rewrite app_nil_r. f_equal; by destruct s.
  - unfold afterRoute. cbn [cmd_method cmd_params cmd_sessionId cmd_id].
    rewrite !(bool_decide_eq_false_2 ("Target.attachToTarget" = _)) by done.
    rewrite bool_decide_true by done.
    cbn [andb optField lookupField truthy]. simpl. rewrite app_nil_r. f_equal; by destruct s.
Qed.

(** X6: take a target id that no registered target has.  A client's
    [Target.attachToTarget] for it is answered with an empty result and
    nothing else.  Once the extension has reported the target attached
    under session [sid], the same command is answered with that session
    id, from the relay's registry, and the client, which the attach
    broadcast has already notified, gets no second notification. *)
Theorem attachToTarget_before_and_after now now' ext clientId ws client sid ti id sessionId s :
  extensionWs s = Some ext ->
  clientId <> "" ->
  JsMap.get clientId (patchrightClients s) = Some client ->
  ti_targetId ti <> "" ->
  (forall k item, (k, item) ∈ connectedTargets s -> ct_targetId item <> ti_targetId ti) ->
  let cmd := mkCDPCommand id "Target.attachToTarget"
               (VObj [("targetId", VStr (ti_targetId ti))]) sessionId in
  let s1 := fst (step now (fromExtension ext (AttachedToTarget sid ti)) s) in
  snd (step now' (OnClientMessage clientId ws (Some cmd)) s)
  = [SendClient (pc_ws client) (CDPResult id sessionId (VObj []))]
  /\ snd (step now' (OnClientMessage clientId ws (Some cmd)) s1)
     = [SendClient (pc_ws client)
          (CDPResult id sessionId (VObj [("sessionId", VStr sid)]))].
Proof.
  intros Hws Hne Hget Hid Hfresh cmd s1. split.
  - assert (Hnone : findByTargetId (VStr (ti_targetId ti)) (connectedTargets s) = None).
    { unfold findByTargetId. rewrite findEntry_all_false; [done|].
      intros k item Hin. simpl. apply bool_decide_eq_false. by eapply Hfresh. }
    unfold cmd. rewrite (step_attachToTarget _ _ _ _ _ _ ext), Hnone by done. cbn [snd].
    by erewrite sendToPatchright_registered by (done || exact Hget).
  - set (target := mkConnectedTarget sid (ti_targetId ti) ti).
    assert (Hs1 : s1 = setClients (fst (notifyAll target false (patchrightClients s)))
                         (setPending (mapRefs (unregistered sid) (extensionPendingRequests s))
                            (setTargets (JsMap.set sid target (connectedTargets s))
                               (markActivity now s)))).
    { unfold s1. by rewrite step_attached. }
    assert (Hclient : JsMap.get clientId (patchrightClients s1)
                      = Some (fst (notifyClient target false client))).
    { rewrite Hs1. simpl. by rewrite notifyAll_get, Hget. }
    assert (Hfind : findByTargetId (VStr (ti_targetId ti)) (connectedTargets s1)
                    = Some target).
    { rewrite Hs1. simpl. unfold findByTargetId. rewrite findEntry_set_fresh; [done| |].
      - intros k item Hin _. simpl. apply bool_decide_eq_false. by eapply Hfresh.
      - simpl. by apply bool_decide_eq_true. }
    assert (Hws1 : extensionWs s1 = Some ext) by (by rewrite Hs1).
    unfold cmd. rewrite (step_attachToTarget _ _ _ _ _ _ ext) by done.
    rewrite Hfind. cbv zeta. cbn [ct_sessionId target].
    assert (Hquiet : sendAttachedToTarget target (Some clientId) false (patchrightClients s1)
                     = (JsMap.set clientId (fst (notifyClient target false client))
                          (patchrightClients s1), [])).
    { rewrite sendAttachedToTarget_unfold, (truthyStr_Some _ Hne). simpl.
      rewrite Hclient. simpl.
      by rewrite notifyClient_again
        by exact (proj1 (notifyClient_known target false client)). }
    destruct (truthy (VStr sid)).
    + rewrite Hquiet. cbn [fst snd app].
      erewrite sendToPatchright_registered; [|done|simpl; apply get_set_eq].
      by rewrite notifyClient_ws.
    + cbn [fst snd app].
      erewrite sendToPatchright_registered; [|done|simpl; exact Hclient].
      by rewrite notifyClient_ws.
Qed.

Lemma attachToTarget_before_and_after_witness :
  let cmd := mkCDPCommand 3 "Target.attachToTarget" (VObj [("targetId", VStr "T2")]) None in
  snd (step 6%nat (OnClientMessage "a" 1%nat (Some cmd)) busyRelay)
  = [SendClient 1%nat (CDPResult 3 None (VObj []))]
  /\ snd (step 6%nat (OnClientMessage "a" 1%nat (Some cmd))
            (fst (step 5%nat (fromExtension 9%nat (AttachedToTarget "s2" tabB)) busyRelay)))
     = [SendClient 1%nat (CDPResult 3 None (VObj [("sessionId", VStr "s2")]))].
Proof.
  apply (attachToTarget_before_and_after 5%nat 6%nat 9%nat "a" 1%nat
           (mkPatchrightClient "a" 1%nat {["T1"]}) "s2" tabB 3 None busyRelay); try done.
  intros k item [[= -> ->]|Hin%not_elem_of_nil]%elem_of_cons; done.
Defined.

(** ** [POST /pages]: what it refuses and what it repairs *)

(** X7: what [POST /pages] refuses.  The body is read as JSON, a body
    that does not parse counting as the empty object.  When the body is
    the JSON [null], reading its [name] throws and the reply is the
    framework's 500 [Internal Server Error].  For every other body whose
    [name] is missing, not a string or the empty string (an object
    without the field, a number, a string or an array as body, a body
    that does not parse) the reply is 400 [name is required].  In both
    cases that reply is the only effect: nothing is sent to the
    extension, no name is bound and no request becomes pending, the
    state is the one before with the idle stamp refreshed. *)
Theorem postPages_needs_a_name now req data s :
  (forall n, getField (default (VObj []) data) "name" = Some (VStr n) -> n = "") ->
  step now (OnPostPages req data) s
  = (markActivity now s,
     [match data with
      | Some VNull | Some VUndefined => HttpReply req 500 (VStr "Internal Server Error")
      | _ => HttpReply req 400 (VObj [("error", VStr "name is required")])
      end]).
Proof.
  intros Hname. rewrite step_unfold. cbn [handle]. unfold postPages. cbv zeta.
  destruct (getField (default (VObj []) data) "name") as [name|] eqn:Hbody.
  - assert (Hreply : match data with
                     | Some VNull | Some VUndefined =>
                         HttpReply req 500 (VStr "Internal Server Error")
                     | _ => HttpReply req 400 (VObj [("error", VStr "name is required")])
                     end = HttpReply req 400 (errorBody "name is required")).
    { by destruct data as [[| | | | | |]|]. }
    rewrite Hreply. destruct name as [| | | |n| |]; try done.
    by rewrite (Hname n eq_refl).
  - by destruct data as [[| | | | | |]|].
Qed.

Lemma postPages_needs_a_name_witness :
  step 5%nat (OnPostPages 1%nat (Some (VObj [("name", VNum 7)]))) busyRelay
  = (markActivity 5%nat busyRelay,
     [HttpReply 1%nat 400 (VObj [("error", VStr "name is required")])])
  /\ step 5%nat (OnPostPages 1%nat None) busyRelay
     = (markActivity 5%nat busyRelay,
        [HttpReply 1%nat 400 (VObj [("error", VStr "name is required")])])
  /\ step 5%nat (OnPostPages 1%nat (Some VNull)) busyRelay
     = (markActivity 5%nat busyRelay, [HttpReply 1%nat 500 (VStr "Internal Server Error")]).
Proof.
  split; [|split].
  - by apply (postPages_needs_a_name 5%nat 1%nat (Some (VObj [("name", VNum 7)])) busyRelay).
  - by apply (postPages_needs_a_name 5%nat 1%nat None busyRelay).
  - by apply (postPages_needs_a_name 5%nat 1%nat (Some VNull) busyRelay).
Defined.

(** X8: a name bound to a session that the target registry no longer
    has (a dangling binding) is unbound by the next [POST /pages] for
    that name, before anything else: with an extension connected the
    request then forwards a [Target.createTarget], without one it is
    answered 503. *)
Theorem postPages_drops_dangling_binding now req body name sid s :
  getField body "name" = Some (VStr name) ->
  name <> "" ->
  sid <> "" ->
  JsMap.get name (namedPages s) = Some sid ->
  JsMap.get sid (connectedTargets s) = None ->
  JsMap.get name (namedPages (fst (step now (OnPostPages req (Some body)) s))) = None
  /\ snd (step now (OnPostPages req (Some body)) s)
     = match extensionWs s with
       | Some ext =>
           [SendExtension ext
              (mkExtensionCommand (extensionMessageId s + 1) "forwardCDPCommand"
                 (VObj [("method", VStr "Target.createTarget");
                        ("params", VObj [("url", VStr "about:blank")])]))]
       | None => [HttpReply req 503 (VObj [("error", VStr "Extension not connected")])]
       end.
Proof.
  intros Hbody Hname Hsid Hget Hgone.
  assert (Hpost : postPages now req (Some body) s
    = createPage now req name
        (setNamedPages (JsMap.delete name (namedPages s)) (markActivity now s))).
  { rewrite (postPages_named _ _ _ name), Hget by done.
    by rewrite (truthyStr_Some _ Hsid), Hgone. }
  rewrite step_unfold. cbn [handle]. rewrite Hpost.
  destruct (extensionWs s) as [ext|] eqn:Hws.
  - erewrite createPage_connected by (simpl; exact Hws).
    split; [apply get_delete_eq|done].
  - unfold createPage. simpl extensionWs. rewrite Hws.
    split; [apply get_delete_eq|done].
Qed.

Lemma postPages_drops_dangling_binding_witness :
  let s := fst (step 11%nat (fromExtension 9%nat (DetachedFromTarget "s1"))
                  (fst (run sharedSessionTrace relay0))) in
  JsMap.get "b" (namedPages s) = Some "s1"
  /\ JsMap.get "b"
       (namedPages (fst (step 12%nat (OnPostPages 3%nat (Some (VObj [("name", VStr "b")]))) s)))
     = None.
Proof.
  cbv zeta. split; [vm_compute; reflexivity|].
  apply (postPages_drops_dangling_binding 12%nat 3%nat (VObj [("name", VStr "b")]) "b" "s1");
    try done; vm_compute; reflexivity.
Defined.

Lemma step_reply_created now ext id targetId req name p s :
  JsMap.get id (extensionPendingRequests s) = Some p ->
  pr_kont p = KPageCreate req name ->
  step now (createdReply ext id targetId) s
  = (setPageSleeps (JsMap.set req (name, VObj [("targetId", VStr targetId)]) (pageSleeps s))
       (setPending (JsMap.delete id (extensionPendingRequests s)) (markActivity now s)),
     []).
Proof.
  intros Hget Hk. unfold createdReply. erewrite step_reply_resolved by exact Hget.
  by rewrite Hk.
Qed.

(** X9: the race of page creation.  A name that is not bound is asked
    for, the extension answers the [Target.createTarget] with a target
    id that no registered target has, and the attach notification has
    not arrived when the sleep ends.  The request is answered 500
    ("Target created but not found in registry"), and the name is not
    bound, neither then nor when the attach notification arrives
    afterwards. *)
Theorem page_creation_lost_race now req ext body name sid ti s :
  extensionWs s = Some ext ->
  getField body "name" = Some (VStr name) ->
  name <> "" ->
  JsMap.get name (namedPages s) = None ->
  (forall k item, (k, item) ∈ connectedTargets s -> ct_targetId item <> ti_targetId ti) ->
  let trace := [(now, OnPostPages req (Some body));
                (now, createdReply ext (extensionMessageId s + 1) (ti_targetId ti));
                (now, OnPageWake req)] in
  let late := [(now, fromExtension ext (AttachedToTarget sid ti))] in
  snd (run trace s)
  = [SendExtension ext
       (mkExtensionCommand (extensionMessageId s + 1) "forwardCDPCommand"
          (VObj [("method", VStr "Target.createTarget");
                 ("params", VObj [("url", VStr "about:blank")])]));
     HttpReply req 500 (VObj [("error", VStr "Target created but not found in registry")])]
  /\ JsMap.get name (namedPages (fst (run trace s))) = None
  /\ JsMap.get name (namedPages (fst (run (trace ++ late) s))) = None
  /\ extensionPendingRequests (fst (run trace s))
     = JsMap.delete (extensionMessageId s + 1)
         (JsMap.set (extensionMessageId s + 1)
            (mkPendingRequest "forwardCDPCommand" defaultTimeout (KPageCreate req name))
            (extensionPendingRequests s)).
Proof.
  intros Hws Hbody Hname Hunbound Hfresh trace late.
  assert (Hrun : run trace s
    = (mkState (wsEndpoint s) (connectedTargets s) (namedPages s) (patchrightClients s)
         (extensionWs s)
         (JsMap.delete (extensionMessageId s + 1)
            (JsMap.set (extensionMessageId s + 1)
               (mkPendingRequest "forwardCDPCommand" defaultTimeout (KPageCreate req name))
               (extensionPendingRequests s)))
         (extensionMessageId s + 1) now
         (JsMap.delete req
            (JsMap.set req (name, VObj [("targetId", VStr (ti_targetId ti))])
               (pageSleeps s)))
         (cleanupPromise s),
       [SendExtension ext
          (mkExtensionCommand (extensionMessageId s + 1) "forwardCDPCommand" createCommand);
        HttpReply req 500 (errorBody "Target created but not found in registry")])).
  { unfold trace.
    rewrite run_cons, (step_postPages_create _ _ _ name ext) by done. norm_state.
    rewrite run_cons.
    erewrite (step_reply_created _ _ _ _ req name) by (simpl; (apply get_set_eq || done)).
    norm_state. rewrite run_cons.
    assert (Hwake : forall s',
      connectedTargets s' = connectedTargets s ->
      JsMap.get req (pageSleeps s')
      = Some (name, VObj [("targetId", VStr (ti_targetId ti))]) ->
      step now (OnPageWake req) s'
      = (setPageSleeps (JsMap.delete req (pageSleeps s')) s',
         [HttpReply req 500 (errorBody "Target created but not found in registry")])).
    { intros s' Htargets Hsleep. rewrite step_unfold. cbn [handle]. unfold pageWake.
      rewrite Hsleep. simpl connectedTargets. rewrite Htargets.
      destruct (connectedTargets s) as [|entry rest] eqn:Hs; [done|].
      cbn [getField lookupField]. rewrite decide_True by done.
      rewrite findEntry_all_false; [done|].
      intros k item Hin. simpl. apply bool_decide_eq_false. by eapply Hfresh. }
    rewrite Hwake by (done || (simpl; apply get_set_eq)).
    norm_state. reflexivity. }
  split; [by rewrite Hrun|]. split; [by rewrite Hrun|].
  split; [|by rewrite Hrun].
  rewrite run_app, Hrun. cbn [fst]. unfold late.
  rewrite run_cons, step_attached.
  by cbn [fst run namedPages setClients setPending setTargets].
Qed.

Lemma page_creation_lost_race_witness :
  snd (run [(5%nat, OnPostPages 1%nat (Some (VObj [("name", VStr "demo")])));
            (5%nat, createdReply 9%nat 2 "T2");
            (5%nat, OnPageWake 1%nat)] busyRelay)
  = [SendExtension 9%nat
       (mkExtensionCommand 2 "forwardCDPCommand"
          (VObj [("method", VStr "Target.createTarget");
                 ("params", VObj [("url", VStr "about:blank")])]));
     HttpReply 1%nat 500 (VObj [("error", VStr "Target created but not found in registry")])].
Proof.
  apply (page_creation_lost_race 5%nat 1%nat 9%nat (VObj [("name", VStr "demo")]) "demo" "s2"
           tabB busyRelay); try done.
  intros k item [[= -> ->]|Hin%not_elem_of_nil]%elem_of_cons; done.
Defined.

(** ** [DELETE /pages/:name] again *)

(** X10: deleting a name a second time reports [success: false] and
    changes nothing but the idle stamp, whatever the name was bound to
    before the first delete. *)
Theorem deletePage_twice now now' req req' name s :
  step now' (OnDeletePage req' name) (fst (step now (OnDeletePage req name) s))
  = (markActivity now' (fst (step now (OnDeletePage req name) s)),
     [HttpReply req' 200 (VObj [("success", VBool false)])]).
Proof.
  rewrite !step_unfold. cbn [handle deletePage fst snd drain app].
  unfold JsMap.has. norm_state.
  by rewrite get_delete_eq, delete_absent by apply get_delete_eq.
Qed.

(** ** A target's info changes *)

Lemma findEntry_set_hit {V : Type} (p : string -> V -> bool) (m : JsMap.t string V) k v v' :
  JsMap.findEntry p m = Some (k, v) ->
  p k v' = true ->
  JsMap.findEntry p (JsMap.set k v' m) = Some (k, v').
Proof.
  intros Hfind Hp. induction m as [|[k0 v0] m IH]; [done|]. simpl in *.
  destruct (p k0 v0) eqn:Hp0.
  - injection Hfind as -> ->. rewrite decide_True by done. simpl. by rewrite Hp.
  - destruct (decide (k0 = k)) as [->|Hne]; simpl.
    + by rewrite Hp.
    + rewrite Hp0. by apply IH.
Qed.

Lemma keys_set_present {V : Type} (m : JsMap.t string V) k v :
  k ∈ JsMap.keys m -> JsMap.keys (JsMap.set k v m) = JsMap.keys m.
Proof.
  induction m as [|[k0 v0] m IH]; simpl; [by intros ?%not_elem_of_nil|].
  destruct (decide (k0 = k)) as [->|Hne]; [done|].
  intros [?|Hin]%elem_of_cons; [done|]. simpl. f_equal. by apply IH.
Qed.

Lemma findEntry_is_Some {V : Type} (p : string -> V -> bool) (m : JsMap.t string V) k v :
  (k, v) ∈ m -> p k v = true -> is_Some (JsMap.findEntry p m).
Proof.
  intros Hin Hp. destruct (JsMap.findEntry p m) as [entry|] eqn:Hfind; [done|].
  by rewrite (findEntry_None _ _ _ _ Hfind Hin) in Hp.
Qed.

(** X11: after [Target.targetInfoChanged] for a target id that some
    registered target has, [Target.getTargetInfo] for that id answers
    with the new info; the sessions of the registry and the session
    [Target.attachToTarget] answers for the id are as before, the named
    pages are untouched, and the event goes to every registered client. *)
Theorem targetInfoChanged_then_getTargetInfo now ext ti s :
  ti_targetId ti <> "" ->
  (exists sid target, (sid, target) ∈ connectedTargets s
                      /\ ct_targetId target = ti_targetId ti) ->
  let s1 := fst (step now (fromExtension ext (TargetInfoChanged ti)) s) in
  let params := VObj [("targetId", VStr (ti_targetId ti))] in
  routeCdpCommand "Target.getTargetInfo" params None s1
  = Local (VObj [("targetInfo", targetInfoValue ti)])
  /\ routeCdpCommand "Target.attachToTarget" params None s1
     = routeCdpCommand "Target.attachToTarget" params None s
  /\ JsMap.keys (connectedTargets s1) = JsMap.keys (connectedTargets s)
  /\ namedPages s1 = namedPages s
  /\ snd (step now (fromExtension ext (TargetInfoChanged ti)) s)
     = map (fun client =>
              SendClient (pc_ws client)
                (CDPEvent "Target.targetInfoChanged" None
                   (VObj [("targetInfo", targetInfoValue ti)])))
         (JsMap.values (patchrightClients s)).
Proof.
  intros Hne (sid0 & target0 & Hin & Hid) s1 params.
  destruct (JsMap.findEntry (fun _ item => bool_decide (ct_targetId item = ti_targetId ti))
              (connectedTargets s)) as [[sid target]|] eqn:Hfind.
  2: { exfalso. eapply is_Some_None. rewrite <- Hfind.
       eapply findEntry_is_Some; [exact Hin|]. by apply bool_decide_eq_true. }
  pose proof (findEntry_Some _ _ _ _ Hfind) as [Hmem Htid%bool_decide_eq_true].
  assert (Htargets : connectedTargets s1
    = JsMap.set sid (mkConnectedTarget (ct_sessionId target) (ct_targetId target) ti)
        (connectedTargets s)).
  { unfold s1, fromExtension. rewrite step_unfold. cbn [handle extensionOnMessage].
    cbn [onForwardedEvent fst snd drain]. unfold updateTargetInfo.
    simpl connectedTargets. by rewrite Hfind. }
  assert (Hfind1 : findByTargetId (VStr (ti_targetId ti)) (connectedTargets s1)
    = Some (mkConnectedTarget (ct_sessionId target) (ct_targetId target) ti)).
  { rewrite Htargets. unfold findByTargetId. cbn [strictEqStr].
    erewrite findEntry_set_hit; [done|exact Hfind|]. by apply bool_decide_eq_true. }
  assert (Hfind0 : findByTargetId (VStr (ti_targetId ti)) (connectedTargets s) = Some target).
  { unfold findByTargetId. cbn [strictEqStr]. by rewrite Hfind. }
  split; [|split; [|split; [|split]]].
  - unfold routeCdpCommand. rewrite !decide_False by done. rewrite decide_True by done.
    unfold params. cbn [optField lookupField]. rewrite decide_True by done.
    by rewrite (truthy_VStr _ Hne), Hfind1.
  - unfold routeCdpCommand. rewrite !decide_False by done. rewrite decide_True by done.
    unfold params. cbn [optField lookupField]. rewrite decide_True by done.
    by rewrite (truthy_VStr _ Hne), Hfind1, Hfind0.
  - rewrite Htargets. apply keys_set_present.
    apply (list_elem_of_fmap_2 fst _ (sid, target)), Hmem.
  - unfold s1, fromExtension. rewrite step_unfold. by cbn.
  - unfold fromExtension. rewrite step_unfold. cbn [handle extensionOnMessage].
    cbn [onForwardedEvent fst snd drain]. by rewrite app_nil_r.
Qed.

Lemma targetInfoChanged_then_getTargetInfo_witness :
  routeCdpCommand "Target.getTargetInfo" (VObj [("targetId", VStr "T1")]) None
    (fst (step 5%nat
            (fromExtension 9%nat
               (TargetInfoChanged (mkTargetInfo "T1" "page" "Renamed" "https://b.example" true)))
            busyRelay))
  = Local (VObj [("targetInfo",
                  targetInfoValue
                    (mkTargetInfo "T1" "page" "Renamed" "https://b.example" true))]).
Proof.
  apply (targetInfoChanged_then_getTargetInfo 5%nat 9%nat
           (mkTargetInfo "T1" "page" "Renamed" "https://b.example" true) busyRelay).
  - done.
  - exists "s1", (mkConnectedTarget "s1" "T1" tabA). split; [|reflexivity].
    vm_compute. apply list_elem_of_here.
Defined.

(** ** Shutdown *)

(** X12: [cleanup] closes every client socket and the extension socket
    with 1000 "Server stopped" and nothing else, empties the client
    registry and forgets the extension; a second call does nothing.  It
    settles no pending request itself: targets, names and pending
    requests are as before, and the pending requests are failed with
    the connection-closed error when the close event of the extension
    socket arrives. *)
Theorem cleanup_then_extension_close now ws s :
  let s1 := fst (fst (cleanup false s)) in
  let effects := snd (fst (cleanup false s)) in
  cleanup (snd (cleanup false s)) s1 = (s1, [], true)
  /\ (forall x, x ∈ effects <->
        exists ws', x = CloseWs ws' 1000 "Server stopped"
                    /\ (ws' ∈ clientSockets s \/ extensionWs s = Some ws'))
  /\ patchrightClients s1 = [] /\ extensionWs s1 = None
  /\ connectedTargets s1 = connectedTargets s
  /\ namedPages s1 = namedPages s
  /\ extensionPendingRequests s1 = extensionPendingRequests s
  /\ snd (handle now (OnExtensionClose ws) s1)
     = map (fun p => (pr_kont p, Rejected ErrClosed))
         (JsMap.values (extensionPendingRequests s))
  /\ extensionPendingRequests (fst (step now (OnExtensionClose ws) s1)) = [].
Proof.
  cbn [cleanup fst snd]. split; [done|]. split; [|split; [done|split; [done|]]].
  - intros x. rewrite elem_of_app. unfold clientSockets. split.
    + intros [(client & -> & Hin)%list_elem_of_fmap|Hx].
      * eexists. split; [done|]. left. by apply list_elem_of_fmap_2.
      * destruct (extensionWs s) as [ext|]; [|by apply not_elem_of_nil in Hx].
        apply list_elem_of_singleton in Hx as ->. eexists. split; [done|by right].
    + intros (ws' & -> & [(client & -> & Hin)%list_elem_of_fmap|Hws]).
      * left. by apply (list_elem_of_fmap_2 (fun client => CloseWs (pc_ws client) 1000 _)).
      * right. rewrite Hws. apply list_elem_of_here.
  - split; [done|]. split; [done|]. split; [done|].
    rewrite step_unfold. cbn [handle]. unfold extensionOnClose. simpl extensionWs.
    cbn [fst snd]. split; [done|].
    by rewrite rejectAll_konts, drain_rejected_state.
Qed.

(** ** The status routes and the idle clock *)

(** X13: [/health] reports status ["ok"] exactly when a [POST /pages]
    for an unbound name would forward a [Target.createTarget], and
    ["degraded"] exactly when it would be answered 503; the page count
    it reports is the length of the listing of [GET /pages]; and the
    request leaves the state as it is. *)
Theorem health_status_predicts_postPages cfg now req req' body name s :
  getField body "name" = Some (VStr name) ->
  name <> "" ->
  JsMap.get name (namedPages s) = None ->
  let health := buildHealthResponse cfg now s in
  (optField health "status" = VStr "ok" <->
     exists ext, snd (step now (OnPostPages req (Some body)) s)
       = [SendExtension ext
            (mkExtensionCommand (extensionMessageId s + 1) "forwardCDPCommand"
               (VObj [("method", VStr "Target.createTarget");
                      ("params", VObj [("url", VStr "about:blank")])]))])
  /\ (optField health "status" = VStr "degraded" <->
        snd (step now (OnPostPages req (Some body)) s)
        = [HttpReply req 503 (VObj [("error", VStr "Extension not connected")])])
  /\ (exists names, snd (step now (OnGetPages req') s)
                    = [HttpReply req' 200 (VObj [("pages", VArr names)])]
                    /\ optField health "pageCount" = VNum (Z.of_nat (length names)))
  /\ getHealth cfg now req s = (s, [HttpReply req 200 health]).
Proof.
  intros Hbody Hname Hget health.
  assert (Hpost : snd (step now (OnPostPages req (Some body)) s)
    = match extensionWs s with
      | Some ext => [SendExtension ext
                       (mkExtensionCommand (extensionMessageId s + 1) "forwardCDPCommand"
                          createCommand)]
      | None => [HttpReply req 503 (errorBody "Extension not connected")]
      end).
  { destruct (extensionWs s) as [ext|] eqn:Hws.
    - by rewrite (step_postPages_create _ _ _ name ext).
    - rewrite step_unfold. cbn [handle]. rewrite (postPages_unbound _ _ _ name) by done.
      unfold createPage. simpl extensionWs. by rewrite Hws. }
  rewrite Hpost. unfold health, buildHealthResponse, extensionConnected.
  cbn [optField lookupField]. rewrite !decide_True by done.
  rewrite !decide_False by done. rewrite !decide_True by done.
  split; [|split; [|split]].
  - destruct (extensionWs s) as [ext|]; split; try done.
    + intros _. by exists ext.
    + by intros [ext Hx].
  - by destruct (extensionWs s) as [ext|].
  - eexists. rewrite step_unfold. cbn [handle getPages fst snd drain app]. split; [done|].
    unfold JsMap.keys. simpl namedPages. by rewrite !length_map.
  - done.
Qed.

Lemma health_status_predicts_postPages_witness :
  optField (buildHealthResponse (mkRelayConfig 1 0%nat 1800000 "http://127.0.0.1:9222" VNull
                                   9222 (fun _ => "")) 5%nat busyRelay) "status"
  = VStr "ok"
  <-> exists ext,
        snd (step 5%nat (OnPostPages 1%nat (Some (VObj [("name", VStr "demo")]))) busyRelay)
        = [SendExtension ext
             (mkExtensionCommand (extensionMessageId busyRelay + 1) "forwardCDPCommand"
                (VObj [("method", VStr "Target.createTarget");
                       ("params", VObj [("url", VStr "about:blank")])]))].
Proof.
  apply (health_status_predicts_postPages
           (mkRelayConfig 1 0%nat 1800000 "http://127.0.0.1:9222" VNull 9222 (fun _ => ""))
           5%nat 1%nat 2%nat (VObj [("name", VStr "demo")]) "demo" busyRelay);
    [done|done|reflexivity].
Defined.

Lemma resume_stamp k o s : lastActivityAt (fst (resume k o s)) = lastActivityAt s.
Proof.
  destruct k, o; try done. simpl.
  destruct (afterRoute_spec clientId cmd result s) as (clients' & pre & -> & _). done.
Qed.

Lemma drain_stamp settled s : lastActivityAt (fst (drain settled s)) = lastActivityAt s.
Proof.
  revert s. induction settled as [|[k o] settled IH]; intros s; [done|].
  rewrite drain_cons. cbn [fst]. by rewrite IH, resume_stamp.
Qed.

Lemma sendToExtension_stamp now method params timeout k s s' e :
  sendToExtension now method params timeout k s = Some (s', e) -> lastActivityAt s' = now.
Proof.
  unfold sendToExtension. destruct (extensionWs s); [|done]. by intros [= <- _].
Qed.

Lemma handle_stamp now ev s :
  match ev with
  | OnRequestTimeout _ | OnPageWake _ | OnClientError _ _ | OnExtensionError _ | OnCleanup =>
      False
  | _ => True
  end ->
  lastActivityAt (fst (fst (handle now ev s))) = now.
Proof.
  intros Hev. destruct ev; cbn [handle]; try done.
  - unfold clientOnOpen. by destruct (JsMap.has _ _).
  - unfold clientOnMessage. destruct data as [cmd|]; [|done].
    destruct (extensionWs (markActivity now s)); [|done].
    destruct (routeCdpCommand _ _ _ _) as [result|params].
    + destruct (afterRoute_spec clientId cmd result (markActivity now s))
        as (clients' & pre & -> & _). done.
    + destruct (sendToExtension _ _ _ _ _ _) as [[s2 e]|] eqn:Hsend; [|done].
      by apply sendToExtension_stamp in Hsend.
  - unfold extensionOnOpen. by destruct (extensionWs (markActivity now s)).
  - unfold extensionOnMessage. destruct data as [[id result error| |ev]|]; try done.
    + by destruct (JsMap.get id _).
    + destruct ev; try done. cbn [onForwardedEvent].
      by destruct (sendAttachedToTarget _ None false _).
  - unfold extensionOnClose. destruct (extensionWs (markActivity now s)); [|done].
    by destruct (decide _).
  - unfold postPages. cbv zeta.
    destruct (getField _ "name") as [[| | | |n| |]|]; try done.
    destruct (truthy (VStr n)); [|done].
    assert (Hcreate : forall s', lastActivityAt s' = now ->
              lastActivityAt (fst (fst (createPage now req n s'))) = now).
    { intros s' Hs'. unfold createPage. destruct (extensionWs s'); [|done].
      destruct (sendToExtension _ _ _ _ _ _) as [[s2 e]|] eqn:Hsend; [|done].
      by apply sendToExtension_stamp in Hsend. }
    destruct (JsMap.get n _) as [sid|]; [|by apply Hcreate].
    destruct (truthyStr (Some sid)); [|by apply Hcreate].
    destruct (JsMap.get sid _) as [target|]; [|by apply Hcreate].
    destruct (sendToExtension _ _ _ _ _ _) as [[s2 e]|] eqn:Hsend; [|done].
    by apply sendToExtension_stamp in Hsend.
Qed.

Lemma pageWake_stamp now req s :
  lastActivityAt (fst (fst (pageWake now req s))) = lastActivityAt s
  \/ lastActivityAt (fst (fst (pageWake now req s))) = now.
Proof.
  unfold pageWake. destruct (JsMap.get req _) as [[name result]|]; [|by left]. cbv zeta.
  destruct (connectedTargets _); [by left|].
  destruct (getField result "targetId") as [targetId|]; [|by left].
  destruct (JsMap.findEntry _ _) as [[sessionId target]|]; [|by left].
  destruct (sendToExtension _ _ _ _ _ _) as [[s3 e]|] eqn:Hsend; [|by left].
  right. by apply sendToExtension_stamp in Hsend.
Qed.

(** X14: which events count as activity.  The open, message and close
    events of a client socket and of an extension socket (a frame the
    handler throws on included) and the three [/pages] requests refresh
    the idle stamp: with a positive idle limit the relay is not idle at
    the instant of such an event and becomes idle exactly when the limit
    has passed since.  A WebSocket error event, a request timer that
    fires and [cleanup] leave the stamp as it is; the wake of a
    [POST /pages] after its sleep refreshes it only by sending the
    activation, so the stamp is the old one or the present instant.
    [/health] and [/runtime] leave the whole state as it is, while
    [GET /] does refresh the stamp. *)
Theorem activity_resets_idle_clock cfg now ev s :
  0 < cfg_idleTtlMs cfg ->
  let s1 := fst (step now ev s) in
  match ev with
  | OnRequestTimeout _ | OnClientError _ _ | OnExtensionError _ | OnCleanup =>
      lastActivityAt s1 = lastActivityAt s
  | OnPageWake _ =>
      lastActivityAt s1 = lastActivityAt s \/ lastActivityAt s1 = now
  | OnClientOpen _ _ | OnClientMessage _ _ _ | OnClientClose _ _ | OnClientNull _ _
  | OnExtensionOpen _ | OnExtensionMessage _ _ | OnExtensionClose _ | OnExtensionScalar _
  | OnGetPages _ | OnPostPages _ _ | OnDeletePage _ _ =>
      lastActivityAt s1 = now
      /\ idleTtlReached cfg now s1 = false
      /\ (forall later,
            idleTtlReached cfg later s1 = true
            <-> cfg_idleTtlMs cfg <= Z.of_nat later - Z.of_nat now)
  end
  /\ (forall req, fst (getHealth cfg now req s) = s /\ fst (getRuntime cfg req s) = s
                   /\ lastActivityAt (fst (getRoot now req s)) = now).
Proof.
  intros Httl s1.
  assert (Hfresh : lastActivityAt s1 = now ->
            lastActivityAt s1 = now
            /\ idleTtlReached cfg now s1 = false
            /\ (forall later,
                  idleTtlReached cfg later s1 = true
                  <-> cfg_idleTtlMs cfg <= Z.of_nat later - Z.of_nat now)).
  { intros Hstamp. split; [done|]. unfold idleTtlReached. rewrite Hstamp.
    split; [apply Z.leb_gt; lia|]. intros later. apply Z.leb_le. }
  assert (Hs1 : lastActivityAt s1 = lastActivityAt (fst (fst (handle now ev s)))).
  { unfold s1. rewrite step_unfold. cbn [fst]. apply drain_stamp. }
  split; [|done].
  destruct ev; try (apply Hfresh; rewrite Hs1; by apply handle_stamp); rewrite Hs1;
    cbn [handle]; try done.
  - unfold requestTimeout. by destruct (JsMap.get id _).
  - apply pageWake_stamp.
  - unfold onCleanup, cleanup. by destruct (cleanupPromise s).
Qed.

Lemma activity_resets_idle_clock_witness :
  let cfg := mkRelayConfig 1 0%nat 1800000 "http://127.0.0.1:9222" VNull 9222 (fun _ => "") in
  idleTtlReached cfg 5%nat (fst (step 5%nat (OnGetPages 1%nat) busyRelay)) = false
  /\ lastActivityAt (fst (step 5%nat (OnClientError "a" 1%nat) busyRelay))
     = lastActivityAt busyRelay.
Proof.
  cbv zeta. split.
  - apply (activity_resets_idle_clock
             (mkRelayConfig 1 0%nat 1800000 "http://127.0.0.1:9222" VNull 9222 (fun _ => ""))
             5%nat (OnGetPages 1%nat) busyRelay). reflexivity.
  - apply (activity_resets_idle_clock
             (mkRelayConfig 1 0%nat 1800000 "http://127.0.0.1:9222" VNull 9222 (fun _ => ""))
             5%nat (OnClientError "a" 1%nat) busyRelay). reflexivity.
Defined.

(** ** The relay worker's command line *)

Lemma flagOf_flagName flag : flagOf (flagName flag) = Some flag.
Proof. by destruct flag. Qed.

Lemma parseArgsFrom_flag parseInt flag value rest options :
  value <> "" ->
  parseArgsFrom parseInt (flagName flag :: value :: rest) options
  = parseArgsFrom parseInt rest (applyFlag parseInt flag value options).
Proof.
  intros Hvalue. cbn [parseArgsFrom].
  by rewrite flagOf_flagName, (truthyStr_Some _ Hvalue).
Qed.

(** X15: flags that each come with a non-empty value are applied from
    left to right, each value consumed by its flag, whatever the value
    looks like (a value that is itself a flag name is taken as a value);
    so a flag given twice ends with its last value. *)
Theorem parseArgs_applies_pairs parseInt pairs rest options :
  Forall (fun pair => snd pair <> "") pairs ->
  parseArgsFrom parseInt (flagArgs pairs ++ rest) options
  = parseArgsFrom parseInt rest
      (fold_left (fun o pair => applyFlag parseInt (fst pair) (snd pair) o) pairs options).
Proof.
  intros Hall. revert options.
  induction Hall as [|[flag value] pairs Hvalue _ IH]; intros options; [done|].
  simpl in Hvalue. change (flagArgs ((flag, value) :: pairs) ++ rest)
    with (flagName flag :: value :: (flagArgs pairs ++ rest)).
  rewrite parseArgsFrom_flag by done. apply IH.
Qed.

Lemma parseArgs_applies_pairs_witness :
  parseArgs (fun _ => Some 9333) ["--host"; "--port"; "--port"; "9333"; "--host"; "::1"]
  = mkRelayArgs "::1" (Some 9333) (Some 1800000) None.
Proof.
  refine (parseArgs_applies_pairs (fun _ => Some 9333)
            [(FlagHost, "--port"); (FlagPort, "9333"); (FlagHost, "::1")] [] defaultArgs _).
  repeat constructor; done.
Defined.

Lemma parseArgsFrom_fields parseInt n args options :
  (length args <= n)%nat ->
  let r := parseArgsFrom parseInt args options in
  (arg_host r = arg_host options \/ arg_host r ∈ args /\ arg_host r <> "")
  /\ (arg_port r = arg_port options
      \/ exists v, v ∈ args /\ v <> "" /\ arg_port r = parseInt v)
  /\ (arg_idleTtlMs r = arg_idleTtlMs options
      \/ exists v, v ∈ args /\ v <> "" /\ arg_idleTtlMs r = parseInt v)
  /\ (arg_runtimeRoot r = arg_runtimeRoot options
      \/ exists v, v ∈ args /\ v <> "" /\ arg_runtimeRoot r = Some v).
Proof.
  revert args options. induction n as [|n IH]; intros args options Hlen.
  { destruct args; [|simpl in Hlen; lia]. simpl. tauto. }
  destruct args as [|key rest]; [simpl; tauto|]. simpl in Hlen.
  assert (Hskip : forall tail o,
    (length tail <= n)%nat -> (forall x, x ∈ tail -> x ∈ key :: rest) ->
    let r := parseArgsFrom parseInt tail o in
    (arg_host r = arg_host o \/ arg_host r ∈ key :: rest /\ arg_host r <> "")
    /\ (arg_port r = arg_port o
        \/ exists v, v ∈ key :: rest /\ v <> "" /\ arg_port r = parseInt v)
    /\ (arg_idleTtlMs r = arg_idleTtlMs o
        \/ exists v, v ∈ key :: rest /\ v <> "" /\ arg_idleTtlMs r = parseInt v)
    /\ (arg_runtimeRoot r = arg_runtimeRoot o
        \/ exists v, v ∈ key :: rest /\ v <> "" /\ arg_runtimeRoot r = Some v)).
  { intros tail o Htail Hsub. destruct (IH tail o Htail) as (Hh & Hp & Hi & Hr).
    cbv zeta. split; [|split; [|split]].
    - destruct Hh as [?|[? ?]]; [by left|right; auto].
    - destruct Hp as [?|(v & ? & ? & ?)]; [by left|right; exists v; auto].
    - destruct Hi as [?|(v & ? & ? & ?)]; [by left|right; exists v; auto].
    - destruct Hr as [?|(v & ? & ? & ?)]; [by left|right; exists v; auto]. }
  assert (Hrest : forall x, x ∈ rest -> x ∈ key :: rest)
    by (intros x Hx; by apply list_elem_of_further).
  cbn [parseArgsFrom]. destruct (flagOf key) as [flag|]; [|apply Hskip; [lia|done]].
  destruct rest as [|value rest']; [apply Hskip; [simpl; lia|done]|].
  destruct (truthyStr (Some value)) eqn:Hvalue; [|apply Hskip; [lia|done]].
  assert (Hne : value <> "").
  { intros ->. done. }
  assert (Hin : value ∈ key :: value :: rest')
    by apply list_elem_of_further, list_elem_of_here.
  simpl in Hlen.
  destruct (Hskip rest' (applyFlag parseInt flag value options)) as (Hh & Hp & Hi & Hr);
    [lia|intros x Hx; by do 2 apply list_elem_of_further|].
  cbv zeta. destruct flag; cbn [applyFlag arg_host arg_port arg_idleTtlMs arg_runtimeRoot] in *.
  - split; [|done]. destruct Hh as [->|?]; [right|by right]. done.
  - split; [done|]. split; [|done]. destruct Hp as [->|?]; [right|by right]. by exists value.
  - split; [done|]. split; [done|]. split; [|done].
    destruct Hi as [->|?]; [right|by right]. by exists value.
  - split; [done|]. split; [done|]. split; [done|].
    destruct Hr as [->|?]; [right|by right]. by exists value.
Qed.

Lemma parseArgsFrom_after_pairs parseInt pairs tail tail' :
  Forall (fun pair => snd pair <> "") pairs ->
  (forall options, parseArgsFrom parseInt tail options = parseArgsFrom parseInt tail' options) ->
  forall options,
    parseArgsFrom parseInt (flagArgs pairs ++ tail) options
    = parseArgsFrom parseInt (flagArgs pairs ++ tail') options.
Proof.
  intros Hall Htail. induction Hall as [|[flag value] pairs Hvalue _ IH]; [done|].
  intros options. simpl in Hvalue.
  change (flagArgs ((flag, value) :: pairs) ++ ?l)
    with (flagName flag :: value :: (flagArgs pairs ++ l)).
  rewrite !parseArgsFrom_flag by done. apply IH.
Qed.

(** X16: whatever the arguments, every option [parseArgs] returns is its
    default or was taken from a non-empty argument: the host is never
    empty, the runtime root is never the empty string, a port or idle
    limit other than the default is [Number.parseInt] of a non-empty
    argument.  Wherever the loop stands and whatever it has collected,
    an argument that is no flag is skipped, a flag in last position
    changes nothing, and a flag followed by an empty string is skipped
    together with that string ([parseArgsFrom] is the loop from a
    position on, with the options collected so far).  So arguments none
    of which is a flag give the defaults, and after any flags that came
    with non-empty values, an argument that is no flag, a flag in last
    position, or a flag with an empty string after it can be struck
    from the command line without changing what [parseArgs] returns. *)
Theorem parseArgs_defaults_or_arguments parseInt args :
  let r := parseArgs parseInt args in
  (arg_host r = "127.0.0.1" \/ arg_host r ∈ args /\ arg_host r <> "")
  /\ (arg_port r = Some 9222 \/ exists v, v ∈ args /\ v <> "" /\ arg_port r = parseInt v)
  /\ (arg_idleTtlMs r = Some 1800000
      \/ exists v, v ∈ args /\ v <> "" /\ arg_idleTtlMs r = parseInt v)
  /\ (arg_runtimeRoot r = None
      \/ exists v, v ∈ args /\ v <> "" /\ arg_runtimeRoot r = Some v)
  /\ arg_host r <> ""
  /\ arg_runtimeRoot r <> Some ""
  /\ ((forall a, a ∈ args -> flagOf a = None) -> r = defaultArgs)
  /\ (forall a rest options,
        flagOf a = None ->
        parseArgsFrom parseInt (a :: rest) options = parseArgsFrom parseInt rest options)
  /\ (forall flag options, parseArgsFrom parseInt [flagName flag] options = options)
  /\ (forall flag rest options,
        parseArgsFrom parseInt (flagName flag :: "" :: rest) options
        = parseArgsFrom parseInt rest options)
  /\ (forall pairs rest,
        Forall (fun pair => snd pair <> "") pairs ->
        (forall a, flagOf a = None ->
           parseArgs parseInt (flagArgs pairs ++ a :: rest)
           = parseArgs parseInt (flagArgs pairs ++ rest))
        /\ (forall flag,
              parseArgs parseInt (flagArgs pairs ++ [flagName flag])
              = parseArgs parseInt (flagArgs pairs))
        /\ (forall flag,
              parseArgs parseInt (flagArgs pairs ++ flagName flag :: "" :: rest)
              = parseArgs parseInt (flagArgs pairs ++ rest))).
Proof.
  destruct (parseArgsFrom_fields parseInt (length args) args defaultArgs (le_n _))
    as (Hh & Hp & Hi & Hr).
  cbv zeta. fold (parseArgs parseInt args) in *.
  split; [done|]. split; [done|]. split; [done|]. split; [done|].
  assert (Hskip : forall a rest options,
    flagOf a = None ->
    parseArgsFrom parseInt (a :: rest) options = parseArgsFrom parseInt rest options).
  { intros a rest options Ha. cbn [parseArgsFrom]. by rewrite Ha. }
  assert (Hlast : forall flag options, parseArgsFrom parseInt [flagName flag] options = options).
  { intros flag options. cbn [parseArgsFrom]. by rewrite flagOf_flagName. }
  assert (Hempty : forall flag rest options,
    parseArgsFrom parseInt (flagName flag :: "" :: rest) options
    = parseArgsFrom parseInt rest options).
  { intros flag rest options. cbn [parseArgsFrom]. by rewrite flagOf_flagName. }
  split; [|split; [|split; [|split; [|split; [|split]]]]].
  - destruct Hh as [->|[_ ?]]; done.
  - destruct Hr as [->|(v & _ & Hne & ->)]; [done|]. congruence.
  - clear Hh Hp Hi Hr. unfold parseArgs. generalize defaultArgs.
    induction args as [|key rest IH]; intros o Hnone; [done|].
    cbn [parseArgsFrom]. rewrite (Hnone key) by apply list_elem_of_here.
    apply IH. intros a Ha. by apply Hnone, list_elem_of_further.
  - exact Hskip.
  - exact Hlast.
  - exact Hempty.
  - intros pairs rest Hall. unfold parseArgs. split; [|split].
    + intros a Ha. apply parseArgsFrom_after_pairs; [done|].
      intros options. by apply Hskip.
    + intros flag. rewrite <- (app_nil_r (flagArgs pairs)) at 2.
      apply parseArgsFrom_after_pairs; [done|]. intros options. apply Hlast.
    + intros flag. apply parseArgsFrom_after_pairs; [done|].
      intros options. apply Hempty.
Qed.

(** ** Auto-attach replays the registry *)

Lemma filter_unknown_ext (K K' : gset string) (l : list ConnectedTarget) :
  (forall t, t ∈ l -> (ct_targetId t ∈ K <-> ct_targetId t ∈ K')) ->
  filter (fun t => ct_targetId t ∉ K) l = filter (fun t => ct_targetId t ∉ K') l.
Proof.
  induction l as [|t l IH]; intros Hsame; [done|].
  assert (Ht := Hsame t (list_elem_of_here _ _)).
  rewrite !filter_cons.
  rewrite IH by (intros t' Hin; by apply Hsame, list_elem_of_further).
  destruct (decide (ct_targetId t ∉ K)), (decide (ct_targetId t ∉ K')); tauto.
Qed.

Lemma filter_all_known (K : gset string) (l : list ConnectedTarget) :
  (forall t, t ∈ l -> ct_targetId t ∈ K) ->
  filter (fun t => ct_targetId t ∉ K) l = [].
Proof.
  induction l as [|t l IH]; intros Hall; [done|].
  rewrite filter_cons, decide_False.
  - apply IH. intros t' Hin. by apply Hall, list_elem_of_further.
  - intros Hnot. apply Hnot, Hall, list_elem_of_here.
Qed.

Lemma attachPass_replay passed clientId clients client :
  clientId <> "" ->
  JsMap.get clientId clients = Some client ->
  NoDup (map ct_targetId passed) ->
  snd (attachPass passed (Some clientId) clients)
  = map (fun t => SendClient (pc_ws client) (attachedEvent t false))
      (filter (fun t => ct_targetId t ∉ pc_knownTargets client) passed)
  /\ exists client',
       JsMap.get clientId (fst (attachPass passed (Some clientId) clients)) = Some client'
       /\ pc_ws client' = pc_ws client
       /\ pc_knownTargets client'
          = list_to_set (map ct_targetId passed) ∪ pc_knownTargets client.
Proof.
  intros Hne. revert clients client.
  induction passed as [|t rest IH]; intros clients client Hget Hdup.
  - split; [done|]. exists client. split; [done|]. split; [done|].
    simpl. by rewrite (left_id_L ∅ (∪)).
  - apply NoDup_cons in Hdup as [Hfresh Hdup].
    rewrite attachPass_unfold. cbn [fst snd].
    assert (Hone : sendAttachedToTarget t (Some clientId) false clients
      = (JsMap.set clientId (fst (notifyClient t false client)) clients,
         snd (notifyClient t false client))).
    { rewrite sendAttachedToTarget_unfold, (truthyStr_Some _ Hne). simpl.
      rewrite Hget. by destruct (notifyClient t false client). }
    rewrite Hone. cbn [fst snd].
    destruct (IH (JsMap.set clientId (fst (notifyClient t false client)) clients)
                (fst (notifyClient t false client)) (get_set_eq _ _ _) Hdup)
      as (Heffects & client' & Hget' & Hws' & Hknown').
    rewrite Heffects, notifyClient_ws.
    assert (Hrest : filter (fun t' => ct_targetId t' ∉
                                pc_knownTargets (fst (notifyClient t false client))) rest
                    = filter (fun t' => ct_targetId t' ∉ pc_knownTargets client) rest).
    { apply filter_unknown_ext. intros t' Hin. unfold notifyClient.
      case_bool_decide; [done|]. simpl.
      assert (ct_targetId t' <> ct_targetId t).
      { intros Heq. apply Hfresh. rewrite <- Heq. by apply (list_elem_of_fmap_2 ct_targetId). }
      rewrite elem_of_union, elem_of_singleton. tauto. }
    rewrite Hrest. split.
    + rewrite filter_cons. unfold notifyClient.
      destruct (decide (ct_targetId t ∉ pc_knownTargets client)) as [Hnew|Hold].
      * by rewrite bool_decide_false.
      * rewrite bool_decide_true; [done|]. by apply dec_stable.
    + exists client'. split; [done|]. split; [by rewrite Hws', notifyClient_ws|].
      rewrite Hknown'. apply set_eq. intros x. unfold notifyClient.
      case_bool_decide; simpl; rewrite !elem_of_union, ?elem_of_singleton;
        [|tauto].
      split; [tauto|]. intros [[->|?]|?]; tauto.
Qed.

(** X17: [Target.setAutoAttach] without a session id, from a registered
    client, while no two registered targets share a target id: the
    client is sent one [Target.attachedToTarget] for each registered
    target it has not been told of, in registry order, then the reply;
    afterwards it knows every registered target, and a second
    [Target.setAutoAttach] is answered with the reply alone. *)
Theorem setAutoAttach_replays_registry now now' ext clientId ws client id id' params s :
  extensionWs s = Some ext ->
  clientId <> "" ->
  JsMap.get clientId (patchrightClients s) = Some client ->
  NoDup (map ct_targetId (JsMap.values (connectedTargets s))) ->
  let message n := OnClientMessage clientId ws
                     (Some (mkCDPCommand n "Target.setAutoAttach" params None)) in
  let s1 := fst (step now (message id) s) in
  snd (step now (message id) s)
  = map (fun t => SendClient (pc_ws client) (attachedEvent t false))
      (filter (fun t => ct_targetId t ∉ pc_knownTargets client)
         (JsMap.values (connectedTargets s)))
    ++ [SendClient (pc_ws client) (CDPResult id None (VObj []))]
  /\ pc_knownTargets <$> JsMap.get clientId (patchrightClients s1)
     = Some (list_to_set (map ct_targetId (JsMap.values (connectedTargets s)))
             ∪ pc_knownTargets client)
  /\ snd (step now' (message id') s1) = [SendClient (pc_ws client) (CDPResult id' None (VObj []))].
Proof.
  intros Hws Hne Hget Hdup message s1.
  assert (Hstep : forall t n s' c,
    extensionWs s' = Some ext ->
    JsMap.get clientId (patchrightClients s') = Some c ->
    NoDup (map ct_targetId (JsMap.values (connectedTargets s'))) ->
    snd (step t (message n) s')
    = map (fun t => SendClient (pc_ws c) (attachedEvent t false))
        (filter (fun t => ct_targetId t ∉ pc_knownTargets c)
           (JsMap.values (connectedTargets s')))
      ++ [SendClient (pc_ws c) (CDPResult n None (VObj []))]
    /\ exists c', JsMap.get clientId (patchrightClients (fst (step t (message n) s'))) = Some c'
        /\ pc_ws c' = pc_ws c
        /\ pc_knownTargets c'
           = list_to_set (map ct_targetId (JsMap.values (connectedTargets s')))
             ∪ pc_knownTargets c).
  { intros t n s' c Hws' Hget' Hdup'. unfold message.
    rewrite (step_setAutoAttach _ _ _ _ _ _ ext) by done. cbn [fst snd].
    destruct (attachPass_replay (JsMap.values (connectedTargets s')) clientId
                (patchrightClients s') c Hne Hget' Hdup')
      as (Heffects & c' & Hget'' & Hws'' & Hknown'').
    rewrite Heffects. unfold sendToPatchright. rewrite (truthyStr_Some _ Hne).
    simpl patchrightClients. rewrite Hget'', Hws''. split; [done|by exists c']. }
  destruct (Hstep now id s client Hws Hget Hdup) as (Heffects & c' & Hget' & Hws' & Hknown').
  split; [done|]. split; [fold s1 in Hget'; by rewrite Hget', <- Hknown'|].
  assert (Hsame : connectedTargets s1 = connectedTargets s).
  { unfold s1, message. by rewrite (step_setAutoAttach _ _ _ _ _ _ ext). }
  assert (Hws1 : extensionWs s1 = Some ext).
  { unfold s1, message. by rewrite (step_setAutoAttach _ _ _ _ _ _ ext). }
  destruct (Hstep now' id' s1 c' Hws1 Hget') as (Heffects1 & _).
  { by rewrite Hsame. }
  rewrite Heffects1, Hsame, Hws'.
  rewrite filter_all_known; [done|].
  intros t Hin. rewrite Hknown'. apply elem_of_union_l, elem_of_list_to_set.
  by apply (list_elem_of_fmap_2 ct_targetId).
Qed.

Lemma setAutoAttach_replays_registry_witness :
  let s := fst (run [(1%nat, OnExtensionOpen 9%nat);
                     (2%nat, fromExtension 9%nat (AttachedToTarget "s1" tabA));
                     (3%nat, fromExtension 9%nat (AttachedToTarget "s2" tabB));
                     (4%nat, OnClientOpen "a" 1%nat)] relay0) in
  snd (step 5%nat (OnClientMessage "a" 1%nat
                     (Some (mkCDPCommand 1 "Target.setAutoAttach" (VObj []) None))) s)
  = [SendClient 1%nat (attachedEvent (mkConnectedTarget "s1" "T1" tabA) false);
     SendClient 1%nat (attachedEvent (mkConnectedTarget "s2" "T2" tabB) false);
     SendClient 1%nat (CDPResult 1 None (VObj []))].
Proof.
  cbv zeta.
  refine (proj1 (setAutoAttach_replays_registry 5%nat 6%nat 9%nat "a" 1%nat
                   (mkPatchrightClient "a" 1%nat ∅) 1 2 (VObj []) _ _ _ _ _)).
  - vm_compute; reflexivity.
  - done.
  - vm_compute; reflexivity.
  - vm_compute. apply NoDup_cons. split; [|apply NoDup_singleton].
    intros Hin%list_elem_of_singleton. discriminate Hin.
Defined.

(** ** A page whose activation fails *)

Lemma step_reply_rejected now ext id result message p s :
  message <> "" ->
  JsMap.get id (extensionPendingRequests s) = Some p ->
  step now (OnExtensionMessage ext (Some (ExtResponse id result (Some message)))) s
  = resume (pr_kont p) (Rejected (ErrExtension message))
      (setPending (JsMap.delete id (extensionPendingRequests s)) (markActivity now s)).
Proof.
  intros Hne Hget. rewrite step_unfold. cbn [handle]. unfold extensionOnMessage.
  simpl extensionPendingRequests. rewrite Hget, (truthyStr_Some _ Hne). cbn [fst snd].
  rewrite drain_cons. cbn [drain fst snd]. rewrite app_nil_r.
  by destruct (resume _ _ _).
Qed.

Lemma step_timeout_rejected now id p s :
  JsMap.get id (extensionPendingRequests s) = Some p ->
  step now (OnRequestTimeout id) s
  = resume (pr_kont p) (Rejected (ErrTimeout (pr_timeout p) (pr_method p)))
      (setPending (JsMap.delete id (extensionPendingRequests s)) s).
Proof.
  intros Hget. rewrite step_unfold. cbn [handle]. unfold requestTimeout.
  rewrite Hget. cbn [fst snd].
  rewrite drain_cons. cbn [drain fst snd]. rewrite app_nil_r.
  by destruct (resume _ _ _).
Qed.

(** X19: a new page is created and found after the sleep, so its name
    is bound and one [Target.activateTarget] for the new tab follows the
    [Target.createTarget]; then the activation fails, by an error reply
    of the extension or by its 30 s timer.  The request is answered 500
    with the error's message, but the name stays bound to the new
    session: the next [POST /pages] for the name writes one
    [Target.activateTarget] for that tab to the extension, under the
    next request id, and nothing else (no [Target.createTarget]). *)
Theorem failed_activation_keeps_binding t t' r1 r2 ext body name sid ti message result s :
  extensionWs s = Some ext ->
  getField body "name" = Some (VStr name) ->
  name <> "" ->
  sid <> "" ->
  message <> "" ->
  JsMap.get name (namedPages s) = None ->
  (forall k item, (k, item) ∈ connectedTargets s -> ct_targetId item <> ti_targetId ti) ->
  let m := extensionMessageId s in
  let creation :=
    [(t, OnPostPages r1 (Some body));
     (t, OnExtensionMessage ext (Some (ExtForwardCDPEvent (AttachedToTarget sid ti))));
     (t, OnExtensionMessage ext
           (Some (ExtResponse (m + 1) (VObj [("targetId", VStr (ti_targetId ti))]) None)));
     (t, OnPageWake r1)] in
  let s1 := fst (run creation s) in
  let refused := OnExtensionMessage ext (Some (ExtResponse (m + 2) result (Some message))) in
  let create id :=
    mkExtensionCommand id "forwardCDPCommand"
      (VObj [("method", VStr "Target.createTarget");
             ("params", VObj [("url", VStr "about:blank")])]) in
  let activate id :=
    mkExtensionCommand id "forwardCDPCommand"
      (VObj [("method", VStr "Target.activateTarget");
             ("params", VObj [("targetId", VStr (ti_targetId ti))])]) in
  extensionFrames (snd (run creation s)) = [(ext, create (m + 1)); (ext, activate (m + 2))]
  /\ snd (step t refused s1) = [HttpReply r1 500 (VObj [("error", VStr message)])]
  /\ snd (step t (OnRequestTimeout (m + 2)) s1)
     = [HttpReply r1 500
          (VObj [("error",
                  VStr "Extension request timeout after 30000ms: forwardCDPCommand")])]
  /\ JsMap.get name (namedPages (fst (step t refused s1))) = Some sid
  /\ JsMap.get name (namedPages (fst (step t (OnRequestTimeout (m + 2)) s1))) = Some sid
  /\ snd (step t' (OnPostPages r2 (Some body)) (fst (step t refused s1)))
     = [SendExtension ext (activate (m + 3))]
  /\ snd (step t' (OnPostPages r2 (Some body)) (fst (step t (OnRequestTimeout (m + 2)) s1)))
     = [SendExtension ext (activate (m + 3))].
Proof.
  intros Hws Hbody Hname Hsid Hmessage Hunbound Hfresh m creation s1 refused create activate.
  set (target := mkConnectedTarget sid (ti_targetId ti) ti).
  assert (Hcreation : run creation s
    = (mkState (wsEndpoint s)
         (JsMap.set sid target (connectedTargets s))
         (JsMap.set name sid (namedPages s))
         (fst (notifyAll target false (patchrightClients s)))
         (extensionWs s)
         (JsMap.set (m + 1 + 1)
            (mkPendingRequest "forwardCDPCommand" defaultTimeout
               (KPageActivateNew r1 name (mkTargetRef target true)))
            (JsMap.delete (m + 1)
               (mapRefs (unregistered sid)
                  (JsMap.set (m + 1)
                     (mkPendingRequest "forwardCDPCommand" defaultTimeout
                        (KPageCreate r1 name))
                     (extensionPendingRequests s)))))
         (m + 1 + 1) t
         (JsMap.delete r1
            (JsMap.set r1 (name, VObj [("targetId", VStr (ti_targetId ti))])
               (pageSleeps s)))
         (cleanupPromise s),
       SendExtension ext (mkExtensionCommand (m + 1) "forwardCDPCommand" createCommand)
       :: snd (notifyAll target false (patchrightClients s))
       ++ [SendExtension ext
             (mkExtensionCommand (m + 1 + 1) "forwardCDPCommand" (activateCommand target))])).
  { unfold creation.
    rewrite run_cons, (step_postPages_create _ _ _ name ext) by done. norm_state.
    rewrite run_cons. change (OnExtensionMessage ext (Some (ExtForwardCDPEvent ?ev)))
      with (fromExtension ext ev).
    rewrite step_attached. norm_state.
    rewrite run_cons.
    erewrite step_reply_resolved
      by (cbn [extensionPendingRequests]; rewrite get_mapRefs, get_set_eq; reflexivity).
    cbn [pr_kont pr_method pr_timeout onRef resume]. norm_state.
    rewrite run_cons.
    erewrite (step_pageWake_found _ _ name (ti_targetId ti) sid target ext).
    2: { exact Hws. }
    2: { cbn [pageSleeps]. apply get_set_eq. }
    2: { cbn [connectedTargets]. apply findEntry_set_fresh.
         - intros k' v' Hin _. simpl. apply bool_decide_eq_false. by eapply Hfresh.
         - simpl. by apply bool_decide_eq_true. }
    norm_state. cbn [run]. by rewrite !app_nil_r. }
  unfold s1. rewrite Hcreation. cbn [fst snd]. clear s1.
  set (s1 := mkState _ _ _ _ _ _ _ _ _ _).
  assert (Hpending : JsMap.get (m + 2) (extensionPendingRequests s1)
                     = Some (mkPendingRequest "forwardCDPCommand" defaultTimeout
                               (KPageActivateNew r1 name (mkTargetRef target true)))).
  { replace (m + 2) with (m + 1 + 1) by lia. apply get_set_eq. }
  split.
  { change (SendExtension ext ?c :: ?rest) with ([SendExtension ext c] ++ rest).
    rewrite !extensionFrames_app.
    rewrite (extensionFrames_clients (snd (notifyAll target false (patchrightClients s)))).
    - unfold activate, create. by replace (m + 2) with (m + 1 + 1) by lia.
    - intros x [w ->]%notifyAll_effects. by do 2 eexists. }
  unfold refused.
  rewrite (step_reply_rejected t ext (m + 2) result message _ s1 Hmessage Hpending).
  rewrite (step_timeout_rejected t (m + 2) _ s1 Hpending).
  cbn [pr_kont pr_timeout pr_method resume fst snd].
  split; [done|]. split; [done|].
  split; [apply get_set_eq|]. split; [apply get_set_eq|].
  unfold activate. replace (m + 3) with (m + 1 + 1 + 1) by lia. split.
  - rewrite (step_postPages_existing _ _ _ name sid target ext);
      [done|exact Hws|exact Hbody|exact Hname|exact Hsid|apply get_set_eq|apply get_set_eq].
  - rewrite (step_postPages_existing _ _ _ name sid target ext);
      [done|exact Hws|exact Hbody|exact Hname|exact Hsid|apply get_set_eq|apply get_set_eq].
Qed.

Lemma failed_activation_keeps_binding_witness :
  let body := VObj [("name", VStr "demo")] in
  let creation := [(5%nat, OnPostPages 1%nat (Some body));
                   (5%nat, OnExtensionMessage 9%nat
                             (Some (ExtForwardCDPEvent (AttachedToTarget "s2" tabB))));
                   (5%nat, OnExtensionMessage 9%nat
                             (Some (ExtResponse 2 (VObj [("targetId", VStr "T2")]) None)));
                   (5%nat, OnPageWake 1%nat)] in
  let refused := OnExtensionMessage 9%nat (Some (ExtResponse 3 VUndefined (Some "No tab"))) in
  snd (step 5%nat refused (fst (run creation busyRelay)))
  = [HttpReply 1%nat 500 (VObj [("error", VStr "No tab")])]
  /\ JsMap.get "demo" (namedPages (fst (step 5%nat refused (fst (run creation busyRelay)))))
     = Some "s2"
  /\ snd (step 6%nat (OnPostPages 2%nat (Some body))
            (fst (step 5%nat refused (fst (run creation busyRelay)))))
     = [SendExtension 9%nat
          (mkExtensionCommand 4 "forwardCDPCommand"
             (VObj [("method", VStr "Target.activateTarget");
                    ("params", VObj [("targetId", VStr "T2")])]))].
Proof.
  destruct (failed_activation_keeps_binding 5%nat 6%nat 1%nat 2%nat 9%nat
              (VObj [("name", VStr "demo")]) "demo" "s2" tabB "No tab" VUndefined busyRelay)
    as (_ & Hreply & _ & Hbound & _ & Hnext & _); try done.
  intros k item [[= -> ->]|Hin%not_elem_of_nil]%elem_of_cons; done.
Defined.

(** ** A reply is routed by client id *)

(** X20: the reply to a forwarded command is delivered to whoever holds
    the sender's client id when it arrives.  If the sender has closed
    by then, the reply is dropped without a frame; if another connection
    has opened under the same id in between, the reply is written to
    that connection's socket.  Either way the request is settled. *)
Theorem reply_follows_client_id now clientId ws ws' cmd client ext result s :
  extensionWs s = Some ext ->
  cmd_method cmd ∉ emulatedMethods ->
  clientId <> "" ->
  JsMap.get clientId (patchrightClients s) = Some client ->
  let id := extensionMessageId s + 1 in
  let sent := [(now, OnClientMessage clientId ws (Some cmd));
               (now, OnClientClose clientId ws)] in
  let reply := (now, OnExtensionMessage ext (Some (ExtResponse id result None))) in
  let reopened := (now, OnClientOpen clientId ws') in
  snd (run (sent ++ [reply]) s) = snd (step now (OnClientMessage clientId ws (Some cmd)) s)
  /\ snd (run (sent ++ [reopened; reply]) s)
     = snd (step now (OnClientMessage clientId ws (Some cmd)) s)
       ++ [SendClient ws' (CDPResult (cmd_id cmd) (cmd_sessionId cmd) result)]
  /\ JsMap.get id (extensionPendingRequests (fst (run (sent ++ [reply]) s))) = None
  /\ JsMap.get id (extensionPendingRequests (fst (run (sent ++ [reopened; reply]) s))) = None.
Proof.
  intros Hws Hforward Hne Hget id sent reply reopened.
  assert (Hstep : exists e,
    step now (OnClientMessage clientId ws (Some cmd)) s
    = (setPending (JsMap.set id
                     (mkPendingRequest "forwardCDPCommand" defaultTimeout
                        (KRoute clientId cmd))
                     (extensionPendingRequests s))
         (setMessageId id (markActivity now s)), e)).
  { eexists. rewrite step_unfold. cbn [handle]. unfold clientOnMessage.
    simpl extensionWs. rewrite Hws, route_forward by done.
    unfold sendToExtension. simpl extensionWs. by rewrite Hws. }
  destruct Hstep as [e Hstep].
  assert (Hsent : run sent s
    = (setClients (JsMap.delete clientId (patchrightClients s))
         (setPending (JsMap.set id
                        (mkPendingRequest "forwardCDPCommand" defaultTimeout
                           (KRoute clientId cmd))
                        (extensionPendingRequests s))
            (setMessageId id (markActivity now s))), e)).
  { unfold sent. rewrite run_cons, Hstep. cbn [fst snd].
    rewrite run_cons, step_unfold. cbn [handle clientOnClose fst snd drain run].
    by rewrite !app_nil_r. }
  rewrite !run_app, Hsent, Hstep. cbn [fst snd]. set (s2 := setClients _ _).
  assert (Hreply : forall s3,
    JsMap.get id (extensionPendingRequests s3)
    = Some (mkPendingRequest "forwardCDPCommand" defaultTimeout (KRoute clientId cmd)) ->
    step now (snd reply) s3
    = (setPending (JsMap.delete id (extensionPendingRequests s3)) (markActivity now s3),
       sendToPatchright (CDPResult (cmd_id cmd) (cmd_sessionId cmd) result)
         (Some clientId) s3)).
  { intros s3 Hpending. unfold reply. cbn [snd].
    erewrite step_reply_resolved by exact Hpending.
    cbn [pr_kont resume]. by rewrite afterRoute_forwarded by done. }
  assert (Hgone : JsMap.get clientId (patchrightClients s2) = None) by apply get_delete_eq.
  assert (Hdropped : run [reply] s2
    = (setPending (JsMap.delete id (extensionPendingRequests s2)) (markActivity now s2), [])).
  { unfold reply at 1. rewrite run_cons, Hreply by apply get_set_eq.
    cbn [fst snd run]. unfold sendToPatchright.
    by rewrite (truthyStr_Some _ Hne), Hgone. }
  assert (Hredirected : run [reopened; reply] s2
    = (setPending (JsMap.delete id (extensionPendingRequests s2))
         (markActivity now
            (setClients (JsMap.set clientId (mkPatchrightClient clientId ws' ∅)
                           (patchrightClients s2)) (markActivity now s2))),
       [SendClient ws' (CDPResult (cmd_id cmd) (cmd_sessionId cmd) result)])).
  { assert (Hopen : step now (OnClientOpen clientId ws') s2
      = (setClients (JsMap.set clientId (mkPatchrightClient clientId ws' ∅)
                       (patchrightClients s2)) (markActivity now s2), [])).
    { rewrite step_unfold. cbn [handle]. unfold clientOnOpen, JsMap.has.
      change (patchrightClients (markActivity now s2)) with (patchrightClients s2).
      by rewrite Hgone. }
    unfold reopened, reply at 1. rewrite run_cons, Hopen. cbn [fst snd app].
    rewrite run_cons, Hreply by apply get_set_eq.
    cbn [fst snd run]. unfold sendToPatchright. rewrite (truthyStr_Some _ Hne).
    simpl patchrightClients. by rewrite get_set_eq. }
  rewrite Hdropped, Hredirected. cbn [fst snd]. rewrite app_nil_r.
  split; [done|]. split; [done|]. split; apply get_delete_eq.
Qed.

Lemma reply_follows_client_id_witness :
  let cmd := mkCDPCommand 8 "Page.navigate" (VObj [("url", VStr "https://example.com/")])
               (Some "s1") in
  let sent := [(5%nat, OnClientMessage "a" 1%nat (Some cmd));
               (5%nat, OnClientClose "a" 1%nat)] in
  let reply := (5%nat, OnExtensionMessage 9%nat (Some (ExtResponse 2 (VObj []) None))) in
  snd (run (sent ++ [(5%nat, OnClientOpen "a" 2%nat); reply]) busyRelay)
  = snd (step 5%nat (OnClientMessage "a" 1%nat (Some cmd)) busyRelay)
    ++ [SendClient 2%nat (CDPResult 8 (Some "s1") (VObj []))].
Proof.
  cbv zeta.
  refine (proj1 (proj2 (reply_follows_client_id 5%nat "a" 1%nat 2%nat
            (mkCDPCommand 8 "Page.navigate" (VObj [("url", VStr "https://example.com/")])
               (Some "s1"))
            (mkPatchrightClient "a" 1%nat {["T1"]}) 9%nat (VObj []) busyRelay _ _ _ _)));
    try done.
  vm_compute. intros Hin. repeat (apply elem_of_cons in Hin as [Hin|Hin]; [discriminate|]).
  by apply not_elem_of_nil in Hin.
Defined.

(** ** The target a page request holds *)

Lemma step_infoChanged now ext ti s :
  step now (fromExtension ext (TargetInfoChanged ti)) s
  = (setPending (updateHeldInfo ti (connectedTargets s) (extensionPendingRequests s))
       (setTargets (updateTargetInfo ti (connectedTargets s)) (markActivity now s)),
     sendToPatchright
       (CDPEvent "Target.targetInfoChanged" None (VObj [("targetInfo", targetInfoValue ti)]))
       None s).
Proof.
  rewrite step_unfold. unfold fromExtension. cbn [handle extensionOnMessage].
  cbn [onForwardedEvent fst snd drain]. by rewrite app_nil_r.
Qed.

(** X21: while a [POST /pages] for a bound name awaits the reply to its
    [Target.activateTarget], it holds the registry's target object, not
    a copy of it.  Take a name bound to a registered target and an info
    whose target id that target is the first in the registry to have.
    Answered at once, the request replies 200 with the url the target
    had.  If a [Target.targetInfoChanged] with that info arrives before
    the reply, the 200 carries the url of the new info.
    If the tab attaches again under its session id before that (the
    registry then holds a new object), the request still holds the old
    object: the later change of info goes to the new one and the 200
    carries the url the target had when the request came.  In all three
    cases the target id of the reply is the one the activation was sent
    for. *)
Theorem held_target_is_live t req ext body name sid target ti activated s :
  extensionWs s = Some ext ->
  getField body "name" = Some (VStr name) ->
  name <> "" ->
  sid <> "" ->
  JsMap.get name (namedPages s) = Some sid ->
  JsMap.get sid (connectedTargets s) = Some target ->
  ct_sessionId target = sid ->
  JsMap.findEntry (fun _ item => bool_decide (ct_targetId item = ti_targetId ti))
    (connectedTargets s) = Some (sid, target) ->
  let m := extensionMessageId s in
  let post := (t, OnPostPages req (Some body)) in
  let changed :=
    (t, OnExtensionMessage ext (Some (ExtForwardCDPEvent (TargetInfoChanged ti)))) in
  let reattached :=
    (t, OnExtensionMessage ext (Some (ExtForwardCDPEvent (AttachedToTarget sid ti)))) in
  let answered := (t, OnExtensionMessage ext (Some (ExtResponse (m + 1) activated None))) in
  let activate :=
    SendExtension ext
      (mkExtensionCommand (m + 1) "forwardCDPCommand"
         (VObj [("method", VStr "Target.activateTarget");
                ("params", VObj [("targetId", VStr (ct_targetId target))])])) in
  let page url :=
    HttpReply req 200
      (VObj [("wsEndpoint", VStr (wsEndpoint s)); ("name", VStr name);
             ("targetId", VStr (ct_targetId target)); ("url", VStr url)]) in
  snd (run [post; answered] s) = [activate; page (ti_url (ct_targetInfo target))]
  /\ (exists notes,
        (forall x, x ∈ notes -> exists w frame, x = SendClient w frame)
        /\ snd (run [post; changed; answered] s) = activate :: notes ++ [page (ti_url ti)])
  /\ (exists notes,
        (forall x, x ∈ notes -> exists w frame, x = SendClient w frame)
        /\ snd (run [post; reattached; changed; answered] s)
           = activate :: notes ++ [page (ti_url (ct_targetInfo target))]).
Proof.
  intros Hws Hbody Hname Hsid Hbound Hget Hown Hfind m post changed reattached answered
    activate page.
  assert (Hpost : step t (OnPostPages req (Some body)) s
    = (setPending (JsMap.set (m + 1)
                     (mkPendingRequest "forwardCDPCommand" defaultTimeout
                        (KPageActivate req name (mkTargetRef target true)))
                     (extensionPendingRequests s))
         (setMessageId (m + 1) (markActivity t s)), [activate])).
  { by rewrite (step_postPages_existing _ _ _ name sid target ext). }
  assert (Hanswer : forall s' held,
    wsEndpoint s' = wsEndpoint s ->
    JsMap.get (m + 1) (extensionPendingRequests s')
    = Some (mkPendingRequest "forwardCDPCommand" defaultTimeout
              (KPageActivate req name held)) ->
    ct_targetId (ref_target held) = ct_targetId target ->
    snd (step t (OnExtensionMessage ext (Some (ExtResponse (m + 1) activated None))) s')
    = [page (ti_url (ct_targetInfo (ref_target held)))]).
  { intros s' held Hend Hheld Hid.
    erewrite step_reply_resolved by exact Hheld.
    cbn [pr_kont resume fst snd]. unfold pageBody, page.
    cbn [wsEndpoint setPending markActivity]. by rewrite Hend, Hid. }
  pose proof (findEntry_Some _ _ _ _ Hfind) as [_ Htid%bool_decide_eq_true].
  unfold post, changed, reattached, answered.
  change (OnExtensionMessage ext (Some (ExtForwardCDPEvent ?ev)))
    with (fromExtension ext ev).
  rewrite !run_cons. cbn [run fst snd]. rewrite !app_nil_r.
  rewrite Hpost. cbn [fst snd]. rewrite step_attached, !step_infoChanged. cbn [fst snd].
  split; [|split].
  - by erewrite (Hanswer _ (mkTargetRef target true)) by (done || (simpl; apply get_set_eq)).
  - eexists. split.
    2: { erewrite (Hanswer _ (mkTargetRef (mkConnectedTarget sid (ct_targetId target) ti) true)).
         - cbn [ref_target ct_targetInfo app]. reflexivity.
         - done.
         - cbn [extensionPendingRequests connectedTargets setPending setTargets setMessageId
                  markActivity].
           unfold updateHeldInfo. rewrite Hfind, get_mapRefs, get_set_eq.
           cbn [fmap option_fmap option_map pr_method pr_timeout pr_kont onRef].
           unfold assigned. cbn [ref_registered ref_target andb].
           by rewrite bool_decide_true, Hown by done.
         - done. }
    intros x [w ->]%sendToPatchright_sends. by do 2 eexists.
  - eexists. split.
    2: { erewrite (Hanswer _ (mkTargetRef target false)).
         - rewrite (app_assoc _ _ [page _]). cbn [ref_target app]. reflexivity.
         - done.
         - cbn [extensionPendingRequests connectedTargets setPending setTargets setMessageId
                  setClients markActivity].
           unfold updateHeldInfo.
           erewrite findEntry_set_hit; [|exact Hfind|by apply bool_decide_eq_true].
           rewrite !get_mapRefs, get_set_eq.
           cbn [fmap option_fmap option_map pr_method pr_timeout pr_kont onRef].
           unfold unregistered, assigned. cbn [ref_registered ref_target andb].
           by rewrite bool_decide_true by done.
         - done. }
    intros x [Hx|Hx]%elem_of_app.
    + apply notifyAll_effects in Hx as [w ->]. by do 2 eexists.
    + apply sendToPatchright_sends in Hx as [w ->]. by do 2 eexists.
Qed.

Lemma held_target_is_live_witness :
  let moved := mkTargetInfo "T2" "page" "Docs" "https://docs.example/" true in
  last (snd (run [(6%nat, OnPostPages 2%nat (Some (VObj [("name", VStr "demo")])));
                  (6%nat, OnExtensionMessage 9%nat
                            (Some (ExtForwardCDPEvent (TargetInfoChanged moved))));
                  (6%nat, OnExtensionMessage 9%nat (Some (ExtResponse 4 (VObj []) None)))]
             pagedRelay))
  = Some (HttpReply 2%nat 200
            (VObj [("wsEndpoint", VStr "ws://127.0.0.1:9222/cdp"); ("name", VStr "demo");
                   ("targetId", VStr "T2"); ("url", VStr "https://docs.example/")])).
Proof.
  cbv zeta.
  pose proof (held_target_is_live 6%nat 2%nat 9%nat (VObj [("name", VStr "demo")]) "demo"
                "s2" (mkConnectedTarget "s2" "T2" tabB)
                (mkTargetInfo "T2" "page" "Docs" "https://docs.example/" true) (VObj [])
                pagedRelay eq_refl eq_refl ltac:(done) ltac:(done) eq_refl eq_refl eq_refl
                eq_refl) as Hlive.
  cbv zeta in Hlive.
  destruct Hlive as (_ & (notes & _ & Heq) & _).
  refine (eq_trans (f_equal last Heq) _).
  rewrite app_comm_cons. apply last_snoc.
Defined.
